(** * yd_res_pack: the SPIFFS assets generator front end

    A shallow embedding of [yd_res_pack.py]: the form state of
    [SPIFFSAssetsGUI], the configuration dictionary built by
    [generate_config], its loading by [load_config_from_dict], and the
    worker [GenerateThread.run] that relays the packer's output.

    Conventions.
    - A Python [str] is a [string] (its UTF-8 bytes); a Python [int] is a
      [Z]; a [dict] with string keys is a [gmap string json].
    - A value returned by [json.load] is a [json].
    - An exception is a value of [exn]; code that may raise returns an
      [outcome], and code that also updates the widgets lives in the
      state-and-exception monad [M].
    - [os.path] is [posixpath]. *)

From Stdlib Require Import ZArith String Ascii List Bool Lia DecimalString PrimFloat.
From stdpp Require Import base option gmap strings.
Import ListNotations.

#[local] Set Warnings "-register-all".
#[local] Open Scope string_scope.
#[local] Open Scope Z_scope.

(** ** Python values *)

Module Py.

(** The exceptions that the program raises or catches. [str(e)] is the
    carried message. *)
Inductive exn : Type :=
| ValueError (msg : string)
| TypeError (msg : string)
| AttributeError (msg : string)
| OverflowError (msg : string)
| UnicodeDecodeError (msg : string)
| JSONDecodeError (msg : string)
| OSError (msg : string).

Definition str_exn (e : exn) : string :=
  match e with
  | ValueError m | TypeError m | AttributeError m | OverflowError m
  | UnicodeDecodeError m | JSONDecodeError m | OSError m => m
  end.

(** [isinstance(e, UnicodeDecodeError)] *)
Definition is_UnicodeDecodeError (e : exn) : bool :=
  match e with UnicodeDecodeError _ => true | _ => false end.

Inductive outcome (A : Type) : Type :=
| Return (a : A)
| Raised (e : exn).
Arguments Return {A} a.
Arguments Raised {A} e.

(** What [json.load] can return. *)
Inductive json : Type :=
| JNull
| JBool (b : bool)
| JInt (z : Z)
| JFloat (f : float)
| JStr (s : string)
| JArr (l : list json)
| JObj (d : gmap string json).

(** [type(v).__name__] *)
Definition type_name (v : json) : string :=
  match v with
  | JNull => "NoneType"
  | JBool _ => "bool"
  | JInt _ => "int"
  | JFloat _ => "float"
  | JStr _ => "str"
  | JArr _ => "list"
  | JObj _ => "dict"
  end.

(** [bool(v)], the test of [if v:] *)
Definition truthy (v : json) : bool :=
  match v with
  | JNull => false
  | JBool b => b
  | JInt z => negb (z =? 0)
  | JFloat f => negb (PrimFloat.eqb f 0%float)
  | JStr s => negb (String.eqb s "")
  | JArr l => match l with [] => false | _ => true end
  | JObj d => negb (bool_decide (d = ∅))
  end.

(** [config.get(key, default)]; anything but a dict has no [get]. *)
Definition get (config : json) (key : string) (dflt : json) : outcome json :=
  match config with
  | JObj d => Return (default dflt (d !! key))
  | _ => Raised (AttributeError
                   ("'" ++ type_name config ++ "' object has no attribute 'get'"))
  end.

(** [s.split(sep)] for a one-character separator. *)
Fixpoint split (sep : ascii) (s : string) : list string :=
  match s with
  | EmptyString => [EmptyString]
  | String c r =>
      if Ascii.eqb c sep then EmptyString :: split sep r
      else match split sep r with
           | x :: l => String c x :: l
           | [] => [String c EmptyString]
           end
  end.

(** [sep.join(l)] *)
Definition join (sep : string) (l : list string) : string := String.concat sep l.

(** [x in l] for strings. *)
Definition contains (x : string) (l : list string) : bool :=
  existsb (String.eqb x) l.

(** [s.startswith(c)] and [s.endswith(c)] for a one-character [c]. *)
Definition startswith (c : ascii) (s : string) : bool :=
  match s with
  | String a _ => Ascii.eqb a c
  | EmptyString => false
  end.

Fixpoint endswith (c : ascii) (s : string) : bool :=
  match s with
  | EmptyString => false
  | String a EmptyString => Ascii.eqb a c
  | String _ r => endswith c r
  end.

(** [s.rfind(c)]: the index of the last [c], or [-1]. *)
Fixpoint rfind (c : ascii) (s : string) : Z :=
  match s with
  | EmptyString => -1
  | String a r =>
      let i := rfind c r in
      if 0 <=? i then i + 1 else if Ascii.eqb a c then 0 else -1
  end.

(** [s[:i]] for [0 <= i]. *)
Definition slice_to (i : Z) (s : string) : string :=
  String.substring 0 (Z.to_nat i) s.

(** [c * n] *)
Fixpoint repeat_char (c : ascii) (n : nat) : string :=
  match n with
  | O => EmptyString
  | S k => String c (repeat_char c k)
  end.

(** [s.rstrip(c)] and [s.lstrip(c)] with the characters to strip given
    as a predicate. *)
Fixpoint rstrip (strip_it : ascii -> bool) (s : string) : string :=
  match s with
  | EmptyString => EmptyString
  | String a r =>
      match rstrip strip_it r with
      | EmptyString => if strip_it a then EmptyString else String a EmptyString
      | r' => String a r'
      end
  end.

Fixpoint lstrip (strip_it : ascii -> bool) (s : string) : string :=
  match s with
  | EmptyString => EmptyString
  | String a r => if strip_it a then lstrip strip_it r else s
  end.

(** [c.isspace()] for a character of the ASCII range: tab, line feed,
    vertical tab, form feed, carriage return, the separators 0x1c to
    0x1f and the space. *)
Definition isspace (c : ascii) : bool :=
  let n := Z.of_nat (nat_of_ascii c) in
  ((9 <=? n) && (n <=? 13)) || ((28 <=? n) && (n <=? 32)).

(** The characters beyond ASCII with [c.isspace()], each by the bytes of
    its UTF-8 encoding: U+0085, U+00A0, U+1680, U+2000 to U+200A, U+2028,
    U+2029, U+202F, U+205F and U+3000. *)
Definition unicode_whitespace : list (list Z) :=
  [[0xc2; 0x85]; [0xc2; 0xa0]; [0xe1; 0x9a; 0x80];
   [0xe2; 0x80; 0x80]; [0xe2; 0x80; 0x81]; [0xe2; 0x80; 0x82]; [0xe2; 0x80; 0x83];
   [0xe2; 0x80; 0x84]; [0xe2; 0x80; 0x85]; [0xe2; 0x80; 0x86]; [0xe2; 0x80; 0x87];
   [0xe2; 0x80; 0x88]; [0xe2; 0x80; 0x89]; [0xe2; 0x80; 0x8a];
   [0xe2; 0x80; 0xa8]; [0xe2; 0x80; 0xa9]; [0xe2; 0x80; 0xaf];
   [0xe2; 0x81; 0x9f]; [0xe3; 0x80; 0x80]].

Definition byte_of (c : ascii) : Z := Z.of_nat (nat_of_ascii c).

(** What follows the bytes [w] at the head of [l]. *)
Fixpoint after_bytes (w : list Z) (l : list ascii) : option (list ascii) :=
  match w, l with
  | [], _ => Some l
  | b :: w', c :: l' => if byte_of c =? b then after_bytes w' l' else None
  | _ :: _, [] => None
  end.

Fixpoint after_one_of (table : list (list Z)) (l : list ascii) : option (list ascii) :=
  match table with
  | [] => None
  | w :: table' =>
      match after_bytes w l with
      | Some l' => Some l'
      | None => after_one_of table' l
      end
  end.

(** What follows one white-space character at the head of [l]. *)
Definition after_space (table : list (list Z)) (l : list ascii) : option (list ascii) :=
  match l with
  | c :: l' => if isspace c then Some l' else after_one_of table l
  | [] => None
  end.

(** [l] without its leading white space; [n] bounds the number of
    characters dropped. *)
Fixpoint drop_spaces (n : nat) (table : list (list Z)) (l : list ascii) : list ascii :=
  match n with
  | O => l
  | S k =>
      match after_space table l with
      | Some l' => drop_spaces k table l'
      | None => l
      end
  end.

(** [s.strip()]: without the white space, of ASCII and beyond, at its two
    ends.  The trailing white space is dropped from the reversed text,
    where the bytes of a character come in reverse. *)
Definition strip (s : string) : string :=
  let l := list_ascii_of_string s in
  let l1 := drop_spaces (length l) unicode_whitespace l in
  let l2 := drop_spaces (length l) (map (@rev Z) unicode_whitespace) (rev l1) in
  string_of_list_ascii (rev l2).

(** [str(n)] for an [int]. *)
Definition str_int (n : Z) : string := NilZero.string_of_int (Z.to_int n).

End Py.

(** ** [os.path] (posixpath) *)

Module posixpath.

Definition sep : ascii := "/"%char.

(** [os.path.join(a, b)] *)
Definition join (a b : string) : string :=
  if Py.startswith sep b then b
  else if String.eqb a "" || Py.endswith sep a then a ++ b
  else a ++ String sep b.

(** [os.path.dirname(p)]:
    [i = p.rfind(sep) + 1; head = p[:i];
     if head and head != sep*len(head): head = head.rstrip(sep)] *)
Definition dirname (p : string) : string :=
  let i := Py.rfind sep p + 1 in
  let head := Py.slice_to i p in
  if negb (String.eqb head "")
     && negb (String.eqb head (Py.repeat_char sep (String.length head)))
  then Py.rstrip (Ascii.eqb sep) head
  else head.

End posixpath.

(** ** The Qt widgets the window is made of

    Each widget is the part of its state that the program reads or writes;
    each method is the Qt method of the same name.  An argument that comes
    from a loaded configuration is a [json] of any type, and the binding
    converts it to the C++ parameter type or raises. *)

Module Qt.
Import Py.

Record QLineEdit : Type := { text : string }.
Record QSpinBox : Type := { minimum : Z; maximum : Z; value : Z }.
Record QComboBox : Type := { items : list string; currentIndex : Z }.
Record QCheckBox : Type := { isChecked : bool }.
Record QPushButton : Type := { isEnabled : bool }.
(** A read-only [QTextEdit], by the texts given to [append] since it was
    created or last cleared, in their order.  The document that Qt shows
    is made from these texts ([append] renders a text that looks like
    rich text as HTML and splits a plain text at its line feeds); how it
    lays them out is not part of the model. *)
Record QTextEdit : Type := { appended : list string }.
Record QProgressBar : Type := { isVisible : bool; bar_range : Z * Z }.

Inductive icon : Type := Information | Warning | Critical.
(** One call of [QMessageBox.information], [.warning] or [.critical]. *)
Record QMessageBox : Type := { box_icon : icon; box_title : string; box_text : string }.

(** *** Conversion of Python arguments to C++ parameters *)

Definition unexpected_type (signature : string) (arg : json) : exn :=
  TypeError (signature ++ ": argument 1 has unexpected type '" ++ type_name arg ++ "'").

(** A [QString] parameter takes a [str]. *)
Definition to_QString (signature : string) (arg : json) : outcome string :=
  match arg with
  | JStr s => Return s
  | _ => Raised (unexpected_type signature arg)
  end.

(** A [bool] parameter takes a [bool], or an [int] read as "not zero". *)
Definition to_bool (signature : string) (arg : json) : outcome bool :=
  match arg with
  | JBool b => Return b
  | JInt z => Return (negb (z =? 0))
  | _ => Raised (unexpected_type signature arg)
  end.

Definition INT_MIN : Z := -2147483648.
Definition INT_MAX : Z := 2147483647.
Definition LLONG_MIN : Z := -9223372036854775808.
Definition LLONG_MAX : Z := 9223372036854775807.

(** The C cast of a [long long] to [int]. *)
Definition wrap_int (v : Z) : Z := (v - INT_MIN) mod 2 ^ 32 + INT_MIN.

(** An [int] parameter takes a Python [int] (a [bool] is one).  The
    Python integer is unbounded and the parameter is a 32-bit [int]: a
    value that does not fit a [long long] raises [OverflowError]; one
    that fits a [long long] but not an [int] raises when the binding's
    overflow checking is enabled and is cut to 32 bits when it is not;
    a value in the [int] range is passed as it is. *)
Definition to_int (overflow_checking : bool) (signature : string) (arg : json)
  : outcome Z :=
  let overflowed :=
    OverflowError ("argument 1 overflowed: value must be in the range "
                     ++ str_int INT_MIN ++ " to " ++ str_int INT_MAX) in
  let convert (v : Z) :=
    if (v <? LLONG_MIN) || (LLONG_MAX <? v) then Raised overflowed
    else if (v <? INT_MIN) || (INT_MAX <? v)
         then if overflow_checking then Raised overflowed else Return (wrap_int v)
         else Return v in
  match arg with
  | JInt v => convert v
  | JBool b => Return (if b then 1 else 0)
  | _ => Raised (unexpected_type signature arg)
  end.

(** *** QSpinBox *)

(** [QSpinBox()]: range 0..99, value 0. *)
Definition QSpinBox_new : QSpinBox := {| minimum := 0; maximum := 99; value := 0 |}.

(** The value is always kept between [minimum] and [maximum]. *)
Definition bound (lo hi v : Z) : Z := Z.max lo (Z.min hi v).

Definition setRange (lo hi : Z) (w : QSpinBox) : QSpinBox :=
  let hi := Z.max lo hi in
  {| minimum := lo; maximum := hi; value := bound lo hi (value w) |}.

Definition setValue (v : Z) (w : QSpinBox) : QSpinBox :=
  {| minimum := minimum w; maximum := maximum w;
     value := bound (minimum w) (maximum w) v |}.

(** *** QComboBox (not editable) *)

(** [QComboBox()]: no item, no current index. *)
Definition QComboBox_new : QComboBox := {| items := []; currentIndex := -1 |}.

(** [addItems]: the first items put into an empty box make item 0 the
    current one. *)
Definition addItems (l : list string) (w : QComboBox) : QComboBox :=
  {| items := (items w ++ l)%list;
     currentIndex :=
       match items w, l with
       | [], _ :: _ => 0
       | _, _ => currentIndex w
       end |}.

Definition currentText (w : QComboBox) : string :=
  if currentIndex w <? 0 then ""
  else nth (Z.to_nat (currentIndex w)) (items w) "".

(** [findText]: the index of the first item equal to [t], or [-1]. *)
Fixpoint findText_from (i : Z) (t : string) (l : list string) : Z :=
  match l with
  | [] => -1
  | x :: r => if String.eqb x t then i else findText_from (i + 1) t r
  end.

Definition findText (t : string) (w : QComboBox) : Z := findText_from 0 t (items w).

Definition setCurrentIndex (i : Z) (w : QComboBox) : QComboBox :=
  {| items := items w;
     currentIndex := if (0 <=? i) && (i <? Z.of_nat (length (items w))) then i else -1 |}.

(** [setCurrentText] of a box that is not editable: a text that is not
    an item changes nothing. *)
Definition setCurrentText (t : string) (w : QComboBox) : QComboBox :=
  let i := findText t w in
  if -1 <? i then setCurrentIndex i w else w.

(** *** QTextEdit *)

(** [w.clear()] *)
Definition clear (w : QTextEdit) : QTextEdit := {| appended := [] |}.

(** [w.append(line)] *)
Definition append (line : string) (w : QTextEdit) : QTextEdit :=
  {| appended := (appended w ++ [line])%list |}.

End Qt.

(** ** The window: the widgets of [SPIFFSAssetsGUI]

    One field per widget attribute of the class, under the attribute's
    name; [message_boxes] records the [QMessageBox] calls made so far,
    oldest first. *)

Import Py Qt.

Record gui : Type := {
  assets_path_edit : QLineEdit;
  output_path_edit : QLineEdit;
  main_path_edit : QLineEdit;
  script_path_edit : QLineEdit;
  name_length_spin : QSpinBox;
  split_height_spin : QSpinBox;
  assets_size_edit : QLineEdit;
  support_jpg_cb : QCheckBox;
  support_png_cb : QCheckBox;
  support_sjpg_cb : QCheckBox;
  support_spng_cb : QCheckBox;
  support_qoi_cb : QCheckBox;
  support_sqoi_cb : QCheckBox;
  support_raw_cb : QCheckBox;
  lvgl_ver_combo : QComboBox;
  support_raw_cf_combo : QComboBox;
  support_raw_ff_combo : QComboBox;
  support_raw_dither_cb : QCheckBox;
  support_raw_bgr_cb : QCheckBox;
  generate_btn : QPushButton;
  output_text : QTextEdit;
  progress_bar : QProgressBar;
  message_boxes : list QMessageBox
}.

(** Assignment to one widget, the others kept. *)
Definition set_assets_path_edit (w : QLineEdit) (st : gui) : gui :=
  Build_gui w (output_path_edit st) (main_path_edit st) (script_path_edit st)
    (name_length_spin st) (split_height_spin st) (assets_size_edit st)
    (support_jpg_cb st) (support_png_cb st) (support_sjpg_cb st) (support_spng_cb st)
    (support_qoi_cb st) (support_sqoi_cb st) (support_raw_cb st) (lvgl_ver_combo st)
    (support_raw_cf_combo st) (support_raw_ff_combo st) (support_raw_dither_cb st)
    (support_raw_bgr_cb st) (generate_btn st) (output_text st) (progress_bar st)
    (message_boxes st).
Definition set_output_path_edit (w : QLineEdit) (st : gui) : gui :=
  Build_gui (assets_path_edit st) w (main_path_edit st) (script_path_edit st)
    (name_length_spin st) (split_height_spin st) (assets_size_edit st)
    (support_jpg_cb st) (support_png_cb st) (support_sjpg_cb st) (support_spng_cb st)
    (support_qoi_cb st) (support_sqoi_cb st) (support_raw_cb st) (lvgl_ver_combo st)
    (support_raw_cf_combo st) (support_raw_ff_combo st) (support_raw_dither_cb st)
    (support_raw_bgr_cb st) (generate_btn st) (output_text st) (progress_bar st)
    (message_boxes st).
Definition set_main_path_edit (w : QLineEdit) (st : gui) : gui :=
  Build_gui (assets_path_edit st) (output_path_edit st) w (script_path_edit st)
    (name_length_spin st) (split_height_spin st) (assets_size_edit st)
    (support_jpg_cb st) (support_png_cb st) (support_sjpg_cb st) (support_spng_cb st)
    (support_qoi_cb st) (support_sqoi_cb st) (support_raw_cb st) (lvgl_ver_combo st)
    (support_raw_cf_combo st) (support_raw_ff_combo st) (support_raw_dither_cb st)
    (support_raw_bgr_cb st) (generate_btn st) (output_text st) (progress_bar st)
    (message_boxes st).
Definition set_script_path_edit (w : QLineEdit) (st : gui) : gui :=
  Build_gui (assets_path_edit st) (output_path_edit st) (main_path_edit st) w
    (name_length_spin st) (split_height_spin st) (assets_size_edit st)
    (support_jpg_cb st) (support_png_cb st) (support_sjpg_cb st) (support_spng_cb st)
    (support_qoi_cb st) (support_sqoi_cb st) (support_raw_cb st) (lvgl_ver_combo st)
    (support_raw_cf_combo st) (support_raw_ff_combo st) (support_raw_dither_cb st)
    (support_raw_bgr_cb st) (generate_btn st) (output_text st) (progress_bar st)
    (message_boxes st).
Definition set_name_length_spin (w : QSpinBox) (st : gui) : gui :=
  Build_gui (assets_path_edit st) (output_path_edit st) (main_path_edit st)
    (script_path_edit st) w (split_height_spin st) (assets_size_edit st)
    (support_jpg_cb st) (support_png_cb st) (support_sjpg_cb st) (support_spng_cb st)
    (support_qoi_cb st) (support_sqoi_cb st) (support_raw_cb st) (lvgl_ver_combo st)
    (support_raw_cf_combo st) (support_raw_ff_combo st) (support_raw_dither_cb st)
    (support_raw_bgr_cb st) (generate_btn st) (output_text st) (progress_bar st)
    (message_boxes st).
Definition set_split_height_spin (w : QSpinBox) (st : gui) : gui :=
  Build_gui (assets_path_edit st) (output_path_edit st) (main_path_edit st)
    (script_path_edit st) (name_length_spin st) w (assets_size_edit st)
    (support_jpg_cb st) (support_png_cb st) (support_sjpg_cb st) (support_spng_cb st)
    (support_qoi_cb st) (support_sqoi_cb st) (support_raw_cb st) (lvgl_ver_combo st)
    (support_raw_cf_combo st) (support_raw_ff_combo st) (support_raw_dither_cb st)
    (support_raw_bgr_cb st) (generate_btn st) (output_text st) (progress_bar st)
    (message_boxes st).
Definition set_assets_size_edit (w : QLineEdit) (st : gui) : gui :=
  Build_gui (assets_path_edit st) (output_path_edit st) (main_path_edit st)
    (script_path_edit st) (name_length_spin st) (split_height_spin st) w
    (support_jpg_cb st) (support_png_cb st) (support_sjpg_cb st) (support_spng_cb st)
    (support_qoi_cb st) (support_sqoi_cb st) (support_raw_cb st) (lvgl_ver_combo st)
    (support_raw_cf_combo st) (support_raw_ff_combo st) (support_raw_dither_cb st)
    (support_raw_bgr_cb st) (generate_btn st) (output_text st) (progress_bar st)
    (message_boxes st).
Definition set_support_jpg_cb (w : QCheckBox) (st : gui) : gui :=
  Build_gui (assets_path_edit st) (output_path_edit st) (main_path_edit st)
    (script_path_edit st) (name_length_spin st) (split_height_spin st)
    (assets_size_edit st) w (support_png_cb st) (support_sjpg_cb st)
    (support_spng_cb st) (support_qoi_cb st) (support_sqoi_cb st) (support_raw_cb st)
    (lvgl_ver_combo st) (support_raw_cf_combo st) (support_raw_ff_combo st)
    (support_raw_dither_cb st) (support_raw_bgr_cb st) (generate_btn st)
    (output_text st) (progress_bar st) (message_boxes st).
Definition set_support_png_cb (w : QCheckBox) (st : gui) : gui :=
  Build_gui (assets_path_edit st) (output_path_edit st) (main_path_edit st)
    (script_path_edit st) (name_length_spin st) (split_height_spin st)
    (assets_size_edit st) (support_jpg_cb st) w (support_sjpg_cb st)
    (support_spng_cb st) (support_qoi_cb st) (support_sqoi_cb st) (support_raw_cb st)
    (lvgl_ver_combo st) (support_raw_cf_combo st) (support_raw_ff_combo st)
    (support_raw_dither_cb st) (support_raw_bgr_cb st) (generate_btn st)
    (output_text st) (progress_bar st) (message_boxes st).
Definition set_support_sjpg_cb (w : QCheckBox) (st : gui) : gui :=
  Build_gui (assets_path_edit st) (output_path_edit st) (main_path_edit st)
    (script_path_edit st) (name_length_spin st) (split_height_spin st)
    (assets_size_edit st) (support_jpg_cb st) (support_png_cb st) w (support_spng_cb st)
    (support_qoi_cb st) (support_sqoi_cb st) (support_raw_cb st) (lvgl_ver_combo st)
    (support_raw_cf_combo st) (support_raw_ff_combo st) (support_raw_dither_cb st)
    (support_raw_bgr_cb st) (generate_btn st) (output_text st) (progress_bar st)
    (message_boxes st).
Definition set_support_spng_cb (w : QCheckBox) (st : gui) : gui :=
  Build_gui (assets_path_edit st) (output_path_edit st) (main_path_edit st)
    (script_path_edit st) (name_length_spin st) (split_height_spin st)
    (assets_size_edit st) (support_jpg_cb st) (support_png_cb st) (support_sjpg_cb st) w
    (support_qoi_cb st) (support_sqoi_cb st) (support_raw_cb st) (lvgl_ver_combo st)
    (support_raw_cf_combo st) (support_raw_ff_combo st) (support_raw_dither_cb st)
    (support_raw_bgr_cb st) (generate_btn st) (output_text st) (progress_bar st)
    (message_boxes st).
Definition set_support_qoi_cb (w : QCheckBox) (st : gui) : gui :=
  Build_gui (assets_path_edit st) (output_path_edit st) (main_path_edit st)
    (script_path_edit st) (name_length_spin st) (split_height_spin st)
    (assets_size_edit st) (support_jpg_cb st) (support_png_cb st) (support_sjpg_cb st)
    (support_spng_cb st) w (support_sqoi_cb st) (support_raw_cb st) (lvgl_ver_combo st)
    (support_raw_cf_combo st) (support_raw_ff_combo st) (support_raw_dither_cb st)
    (support_raw_bgr_cb st) (generate_btn st) (output_text st) (progress_bar st)
    (message_boxes st).
Definition set_support_sqoi_cb (w : QCheckBox) (st : gui) : gui :=
  Build_gui (assets_path_edit st) (output_path_edit st) (main_path_edit st)
    (script_path_edit st) (name_length_spin st) (split_height_spin st)
    (assets_size_edit st) (support_jpg_cb st) (support_png_cb st) (support_sjpg_cb st)
    (support_spng_cb st) (support_qoi_cb st) w (support_raw_cb st) (lvgl_ver_combo st)
    (support_raw_cf_combo st) (support_raw_ff_combo st) (support_raw_dither_cb st)
    (support_raw_bgr_cb st) (generate_btn st) (output_text st) (progress_bar st)
    (message_boxes st).
Definition set_support_raw_cb (w : QCheckBox) (st : gui) : gui :=
  Build_gui (assets_path_edit st) (output_path_edit st) (main_path_edit st)
    (script_path_edit st) (name_length_spin st) (split_height_spin st)
    (assets_size_edit st) (support_jpg_cb st) (support_png_cb st) (support_sjpg_cb st)
    (support_spng_cb st) (support_qoi_cb st) (support_sqoi_cb st) w (lvgl_ver_combo st)
    (support_raw_cf_combo st) (support_raw_ff_combo st) (support_raw_dither_cb st)
    (support_raw_bgr_cb st) (generate_btn st) (output_text st) (progress_bar st)
    (message_boxes st).
Definition set_lvgl_ver_combo (w : QComboBox) (st : gui) : gui :=
  Build_gui (assets_path_edit st) (output_path_edit st) (main_path_edit st)
    (script_path_edit st) (name_length_spin st) (split_height_spin st)
    (assets_size_edit st) (support_jpg_cb st) (support_png_cb st) (support_sjpg_cb st)
    (support_spng_cb st) (support_qoi_cb st) (support_sqoi_cb st) (support_raw_cb st) w
    (support_raw_cf_combo st) (support_raw_ff_combo st) (support_raw_dither_cb st)
    (support_raw_bgr_cb st) (generate_btn st) (output_text st) (progress_bar st)
    (message_boxes st).
Definition set_support_raw_cf_combo (w : QComboBox) (st : gui) : gui :=
  Build_gui (assets_path_edit st) (output_path_edit st) (main_path_edit st)
    (script_path_edit st) (name_length_spin st) (split_height_spin st)
    (assets_size_edit st) (support_jpg_cb st) (support_png_cb st) (support_sjpg_cb st)
    (support_spng_cb st) (support_qoi_cb st) (support_sqoi_cb st) (support_raw_cb st)
    (lvgl_ver_combo st) w (support_raw_ff_combo st) (support_raw_dither_cb st)
    (support_raw_bgr_cb st) (generate_btn st) (output_text st) (progress_bar st)
    (message_boxes st).
Definition set_support_raw_ff_combo (w : QComboBox) (st : gui) : gui :=
  Build_gui (assets_path_edit st) (output_path_edit st) (main_path_edit st)
    (script_path_edit st) (name_length_spin st) (split_height_spin st)
    (assets_size_edit st) (support_jpg_cb st) (support_png_cb st) (support_sjpg_cb st)
    (support_spng_cb st) (support_qoi_cb st) (support_sqoi_cb st) (support_raw_cb st)
    (lvgl_ver_combo st) (support_raw_cf_combo st) w (support_raw_dither_cb st)
    (support_raw_bgr_cb st) (generate_btn st) (output_text st) (progress_bar st)
    (message_boxes st).
Definition set_support_raw_dither_cb (w : QCheckBox) (st : gui) : gui :=
  Build_gui (assets_path_edit st) (output_path_edit st) (main_path_edit st)
    (script_path_edit st) (name_length_spin st) (split_height_spin st)
    (assets_size_edit st) (support_jpg_cb st) (support_png_cb st) (support_sjpg_cb st)
    (support_spng_cb st) (support_qoi_cb st) (support_sqoi_cb st) (support_raw_cb st)
    (lvgl_ver_combo st) (support_raw_cf_combo st) (support_raw_ff_combo st) w
    (support_raw_bgr_cb st) (generate_btn st) (output_text st) (progress_bar st)
    (message_boxes st).
Definition set_support_raw_bgr_cb (w : QCheckBox) (st : gui) : gui :=
  Build_gui (assets_path_edit st) (output_path_edit st) (main_path_edit st)
    (script_path_edit st) (name_length_spin st) (split_height_spin st)
    (assets_size_edit st) (support_jpg_cb st) (support_png_cb st) (support_sjpg_cb st)
    (support_spng_cb st) (support_qoi_cb st) (support_sqoi_cb st) (support_raw_cb st)
    (lvgl_ver_combo st) (support_raw_cf_combo st) (support_raw_ff_combo st)
    (support_raw_dither_cb st) w (generate_btn st) (output_text st) (progress_bar st)
    (message_boxes st).
Definition set_generate_btn (w : QPushButton) (st : gui) : gui :=
  Build_gui (assets_path_edit st) (output_path_edit st) (main_path_edit st)
    (script_path_edit st) (name_length_spin st) (split_height_spin st)
    (assets_size_edit st) (support_jpg_cb st) (support_png_cb st) (support_sjpg_cb st)
    (support_spng_cb st) (support_qoi_cb st) (support_sqoi_cb st) (support_raw_cb st)
    (lvgl_ver_combo st) (support_raw_cf_combo st) (support_raw_ff_combo st)
    (support_raw_dither_cb st) (support_raw_bgr_cb st) w (output_text st)
    (progress_bar st) (message_boxes st).
Definition set_output_text (w : QTextEdit) (st : gui) : gui :=
  Build_gui (assets_path_edit st) (output_path_edit st) (main_path_edit st)
    (script_path_edit st) (name_length_spin st) (split_height_spin st)
    (assets_size_edit st) (support_jpg_cb st) (support_png_cb st) (support_sjpg_cb st)
    (support_spng_cb st) (support_qoi_cb st) (support_sqoi_cb st) (support_raw_cb st)
    (lvgl_ver_combo st) (support_raw_cf_combo st) (support_raw_ff_combo st)
    (support_raw_dither_cb st) (support_raw_bgr_cb st) (generate_btn st) w
    (progress_bar st) (message_boxes st).
Definition set_progress_bar (w : QProgressBar) (st : gui) : gui :=
  Build_gui (assets_path_edit st) (output_path_edit st) (main_path_edit st)
    (script_path_edit st) (name_length_spin st) (split_height_spin st)
    (assets_size_edit st) (support_jpg_cb st) (support_png_cb st) (support_sjpg_cb st)
    (support_spng_cb st) (support_qoi_cb st) (support_sqoi_cb st) (support_raw_cb st)
    (lvgl_ver_combo st) (support_raw_cf_combo st) (support_raw_ff_combo st)
    (support_raw_dither_cb st) (support_raw_bgr_cb st) (generate_btn st)
    (output_text st) w (message_boxes st).
Definition set_message_boxes (w : list QMessageBox) (st : gui) : gui :=
  Build_gui (assets_path_edit st) (output_path_edit st) (main_path_edit st)
    (script_path_edit st) (name_length_spin st) (split_height_spin st)
    (assets_size_edit st) (support_jpg_cb st) (support_png_cb st) (support_sjpg_cb st)
    (support_spng_cb st) (support_qoi_cb st) (support_sqoi_cb st) (support_raw_cb st)
    (lvgl_ver_combo st) (support_raw_cf_combo st) (support_raw_ff_combo st)
    (support_raw_dither_cb st) (support_raw_bgr_cb st) (generate_btn st)
    (output_text st) (progress_bar st) w.

(** A widget attribute of [self]: how to read it and how to assign it. *)
Record attribute (W : Type) : Type := { wget : gui -> W; wset : W -> gui -> gui }.
Arguments wget {W} _ _.
Arguments wset {W} _ _ _.

Definition self_assets_path_edit : attribute QLineEdit := {| wget := assets_path_edit; wset := set_assets_path_edit |}.
Definition self_output_path_edit : attribute QLineEdit := {| wget := output_path_edit; wset := set_output_path_edit |}.
Definition self_main_path_edit : attribute QLineEdit := {| wget := main_path_edit; wset := set_main_path_edit |}.
Definition self_script_path_edit : attribute QLineEdit := {| wget := script_path_edit; wset := set_script_path_edit |}.
Definition self_name_length_spin : attribute QSpinBox := {| wget := name_length_spin; wset := set_name_length_spin |}.
Definition self_split_height_spin : attribute QSpinBox := {| wget := split_height_spin; wset := set_split_height_spin |}.
Definition self_assets_size_edit : attribute QLineEdit := {| wget := assets_size_edit; wset := set_assets_size_edit |}.
Definition self_support_jpg_cb : attribute QCheckBox := {| wget := support_jpg_cb; wset := set_support_jpg_cb |}.
Definition self_support_png_cb : attribute QCheckBox := {| wget := support_png_cb; wset := set_support_png_cb |}.
Definition self_support_sjpg_cb : attribute QCheckBox := {| wget := support_sjpg_cb; wset := set_support_sjpg_cb |}.
Definition self_support_spng_cb : attribute QCheckBox := {| wget := support_spng_cb; wset := set_support_spng_cb |}.
Definition self_support_qoi_cb : attribute QCheckBox := {| wget := support_qoi_cb; wset := set_support_qoi_cb |}.
Definition self_support_sqoi_cb : attribute QCheckBox := {| wget := support_sqoi_cb; wset := set_support_sqoi_cb |}.
Definition self_support_raw_cb : attribute QCheckBox := {| wget := support_raw_cb; wset := set_support_raw_cb |}.
Definition self_lvgl_ver_combo : attribute QComboBox := {| wget := lvgl_ver_combo; wset := set_lvgl_ver_combo |}.
Definition self_support_raw_cf_combo : attribute QComboBox := {| wget := support_raw_cf_combo; wset := set_support_raw_cf_combo |}.
Definition self_support_raw_ff_combo : attribute QComboBox := {| wget := support_raw_ff_combo; wset := set_support_raw_ff_combo |}.
Definition self_support_raw_dither_cb : attribute QCheckBox := {| wget := support_raw_dither_cb; wset := set_support_raw_dither_cb |}.
Definition self_support_raw_bgr_cb : attribute QCheckBox := {| wget := support_raw_bgr_cb; wset := set_support_raw_bgr_cb |}.
Definition self_generate_btn : attribute QPushButton := {| wget := generate_btn; wset := set_generate_btn |}.
Definition self_output_text : attribute QTextEdit := {| wget := output_text; wset := set_output_text |}.
Definition self_progress_bar : attribute QProgressBar := {| wget := progress_bar; wset := set_progress_bar |}.
Definition self_message_boxes : attribute (list QMessageBox) := {| wget := message_boxes; wset := set_message_boxes |}.

(** ** State and exceptions: the monad of the program's methods *)

(** A method runs on a state [S], changes it, and returns or raises; what
    it changed before raising stays changed. *)
Definition SE (S A : Type) : Type := S -> outcome A * S.

#[global] Instance SE_ret (S : Type) : MRet (SE S) := fun A a st => (Return a, st).

#[global] Instance SE_bind (S : Type) : MBind (SE S) := fun A B f m st =>
  match m st with
  | (Return a, st') => f a st'
  | (Raised e, st') => (Raised e, st')
  end.

(** The value or exception of a computation that leaves the state alone. *)
Definition lift {S A : Type} (o : outcome A) : SE S A := fun st => (o, st).

(** [try: body  except Exception as e: handler(e)] *)
Definition try_except {S A : Type} (body : SE S A) (handler : exn -> SE S A) : SE S A :=
  fun st =>
    match body st with
    | (Return a, st') => (Return a, st')
    | (Raised e, st') => handler e st'
    end.

(** [try: body  except UnicodeDecodeError: handler]; any other exception
    goes on. *)
Definition try_except_UnicodeDecodeError {S A : Type} (body handler : SE S A) : SE S A :=
  fun st =>
    match body st with
    | (Return a, st') => (Return a, st')
    | (Raised e, st') => if is_UnicodeDecodeError e then handler st' else (Raised e, st')
    end.

(** The methods of the window run on its widgets. *)
Abbreviation M := (SE gui).

(** [self.w = f(self.w)] *)
Definition modify {W : Type} (w : attribute W) (f : W -> W) : M unit :=
  fun st => (Return tt, wset w (f (wget w st)) st).

(** What does not change while the program runs: the interpreter, the
    directory of the program file, and whether the Qt binding checks
    integer overflow. *)
Record runtime : Type := {
  sys_executable : string;
  module_dir : string;
  sip_overflow_checking : bool
}.

(** *** Widget methods called with Python arguments *)

Definition QLineEdit_setText (w : attribute QLineEdit) (arg : json) : M unit :=
  s ← lift (to_QString "setText(self, str)" arg);
  modify w (fun _ => {| text := s |}).

Definition QSpinBox_setValue (rt : runtime) (w : attribute QSpinBox) (arg : json) : M unit :=
  v ← lift (to_int (sip_overflow_checking rt) "setValue(self, int)" arg);
  modify w (setValue v).

Definition QCheckBox_setChecked (w : attribute QCheckBox) (arg : json) : M unit :=
  b ← lift (to_bool "setChecked(self, bool)" arg);
  modify w (fun _ => {| isChecked := b |}).

Definition QComboBox_setCurrentText (w : attribute QComboBox) (arg : json) : M unit :=
  t ← lift (to_QString "setCurrentText(self, str)" arg);
  modify w (setCurrentText t).

Definition QTextEdit_append (w : attribute QTextEdit) (line : string) : M unit :=
  modify w (append line).

Definition QMessageBox_show (i : icon) (title message : string) : M unit :=
  modify self_message_boxes
    (fun l => (l ++ [{| box_icon := i; box_title := title; box_text := message |}])%list).

(** [os.path.dirname(v)] and [v.split(",")] of a loaded value. *)
Definition os_path_dirname (v : json) : outcome string :=
  match v with
  | JStr p => Return (posixpath.dirname p)
  | _ => Raised (TypeError ("expected str, bytes or os.PathLike object, not "
                              ++ type_name v))
  end.

Definition split_comma (v : json) : outcome (list string) :=
  match v with
  | JStr s => Return (Py.split "," s)
  | _ => Raised (AttributeError
                   ("'" ++ type_name v ++ "' object has no attribute 'split'"))
  end.

(** ** [SPIFFSAssetsGUI] *)

(** [init_ui] with [setup_basic_tab], [setup_format_tab] and
    [setup_advanced_tab]: the widgets as they are created. *)
Definition lvgl_versions : list string := ["8.3.0"; "9.0.0"; "9.1.0"; "9.2.0"].
Definition raw_color_formats : list string :=
  ["TRUE_COLOR"; "TRUE_COLOR_ALPHA"; "INDEXED_1BIT";
   "INDEXED_2BIT"; "INDEXED_4BIT"; "INDEXED_8BIT"].
Definition raw_output_forms : list string := ["C_ARRAY"; "BIN"].

Definition init_ui : gui := {|
  assets_path_edit := {| text := "" |};
  output_path_edit := {| text := "" |};
  main_path_edit := {| text := "" |};
  script_path_edit := {| text := "./spiffs_assets_gen.py" |};
  name_length_spin := setValue 32 (setRange 8 128 QSpinBox_new);
  split_height_spin := setValue 16 (setRange 1 1024 QSpinBox_new);
  assets_size_edit := {| text := "0x100000" |};
  support_jpg_cb := {| isChecked := true |};
  support_png_cb := {| isChecked := true |};
  support_sjpg_cb := {| isChecked := true |};
  support_spng_cb := {| isChecked := true |};
  support_qoi_cb := {| isChecked := false |};
  support_sqoi_cb := {| isChecked := false |};
  support_raw_cb := {| isChecked := false |};
  lvgl_ver_combo := setCurrentText "9.0.0" (addItems lvgl_versions QComboBox_new);
  support_raw_cf_combo := addItems raw_color_formats QComboBox_new;
  support_raw_ff_combo := setCurrentText "BIN" (addItems raw_output_forms QComboBox_new);
  support_raw_dither_cb := {| isChecked := false |};
  support_raw_bgr_cb := {| isChecked := false |};
  generate_btn := {| isEnabled := true |};
  output_text := {| appended := [] |};
  progress_bar := {| isVisible := false; bar_range := (0, 100) |};
  message_boxes := []
|}.

(** The list [formats] of [get_support_formats], before it is joined. *)
Definition checked_formats (st : gui) : list string :=
  let formats := [] in
  let formats := if isChecked (support_jpg_cb st) then (formats ++ [".jpg"])%list else formats in
  let formats := if isChecked (support_png_cb st) then (formats ++ [".png"])%list else formats in
  formats.

Definition get_support_formats (st : gui) : string :=
  Py.join "," (checked_formats st).

(** [generate_config]: reads the widgets, changes none. *)
Definition generate_config (st : gui) : outcome (gmap string json) :=
  let output_path := text (output_path_edit st) in
  if String.eqb output_path "" then Raised (ValueError "请选择输出目录")
  else
    Return (list_to_map [
      ("assets_path", JStr (text (assets_path_edit st)));
      ("image_file", JStr (posixpath.join output_path "assets.bin"));
      ("main_path", JStr (text (main_path_edit st)));
      ("name_length", JInt (value (name_length_spin st)));
      ("split_height", JInt (value (split_height_spin st)));
      ("support_format", JStr (get_support_formats st));
      ("support_spng", JBool (isChecked (support_spng_cb st)));
      ("support_sjpg", JBool (isChecked (support_sjpg_cb st)));
      ("support_qoi", JBool (isChecked (support_qoi_cb st)));
      ("support_sqoi", JBool (isChecked (support_sqoi_cb st)));
      ("support_raw", JBool (isChecked (support_raw_cb st)));
      ("assets_size", JStr (text (assets_size_edit st)));
      ("lvgl_ver", JStr (currentText (lvgl_ver_combo st)));
      ("support_raw_cf", JStr (currentText (support_raw_cf_combo st)));
      ("support_raw_ff", JStr (currentText (support_raw_ff_combo st)));
      ("support_raw_dither", JBool (isChecked (support_raw_dither_cb st)));
      ("support_raw_bgr", JBool (isChecked (support_raw_bgr_cb st)))
    ]).

(** [load_config_from_dict]: one widget after the other, in the order of
    the source. *)
Definition load_config_from_dict (rt : runtime) (config : json) : M unit :=
  v ← lift (Py.get config "assets_path" (JStr ""));
  QLineEdit_setText self_assets_path_edit v;;
  image_file ← lift (Py.get config "image_file" (JStr ""));
  (if truthy image_file
   then d ← lift (os_path_dirname image_file);
        QLineEdit_setText self_output_path_edit (JStr d)
   else mret tt);;
  v ← lift (Py.get config "main_path" (JStr ""));
  QLineEdit_setText self_main_path_edit v;;
  v ← lift (Py.get config "name_length" (JInt 32));
  QSpinBox_setValue rt self_name_length_spin v;;
  v ← lift (Py.get config "split_height" (JInt 16));
  QSpinBox_setValue rt self_split_height_spin v;;
  v ← lift (Py.get config "assets_size" (JStr "0x100000"));
  QLineEdit_setText self_assets_size_edit v;;
  v ← lift (Py.get config "support_format" (JStr ""));
  formats ← lift (split_comma v);
  QCheckBox_setChecked self_support_jpg_cb (JBool (Py.contains ".jpg" formats));;
  QCheckBox_setChecked self_support_png_cb (JBool (Py.contains ".png" formats));;
  v ← lift (Py.get config "support_spng" (JBool false));
  QCheckBox_setChecked self_support_spng_cb v;;
  v ← lift (Py.get config "support_sjpg" (JBool false));
  QCheckBox_setChecked self_support_sjpg_cb v;;
  v ← lift (Py.get config "support_qoi" (JBool false));
  QCheckBox_setChecked self_support_qoi_cb v;;
  v ← lift (Py.get config "support_sqoi" (JBool false));
  QCheckBox_setChecked self_support_sqoi_cb v;;
  v ← lift (Py.get config "support_raw" (JBool false));
  QCheckBox_setChecked self_support_raw_cb v;;
  v ← lift (Py.get config "lvgl_ver" (JStr "9.0.0"));
  QComboBox_setCurrentText self_lvgl_ver_combo v;;
  v ← lift (Py.get config "support_raw_cf" (JStr "TRUE_COLOR"));
  QComboBox_setCurrentText self_support_raw_cf_combo v;;
  v ← lift (Py.get config "support_raw_ff" (JStr "BIN"));
  QComboBox_setCurrentText self_support_raw_ff_combo v;;
  v ← lift (Py.get config "support_raw_dither" (JBool false));
  QCheckBox_setChecked self_support_raw_dither_cb v;;
  v ← lift (Py.get config "support_raw_bgr" (JBool false));
  QCheckBox_setChecked self_support_raw_bgr_cb v.

(** The dictionary of [load_default_config]. *)
Definition default_config : gmap string json :=
  list_to_map [
    ("assets_path", JStr "");
    ("image_file", JStr "");
    ("main_path", JStr "");
    ("name_length", JInt 32);
    ("split_height", JInt 16);
    ("support_format", JStr ".jpg,.png");
    ("support_spng", JBool true);
    ("support_sjpg", JBool true);
    ("support_qoi", JBool false);
    ("support_sqoi", JBool false);
    ("support_raw", JBool false);
    ("assets_size", JStr "0x100000");
    ("lvgl_ver", JStr "9.0.0");
    ("support_raw_cf", JStr "TRUE_COLOR");
    ("support_raw_ff", JStr "BIN");
    ("support_raw_dither", JBool false);
    ("support_raw_bgr", JBool false)
  ].

Definition load_default_config (rt : runtime) : M unit :=
  load_config_from_dict rt (JObj default_config).

(** [__init__]: the window once it is constructed. *)
Definition init (rt : runtime) : outcome unit * gui :=
  load_default_config rt init_ui.

(** [on_progress] and [on_finished], the slots of the worker's signals. *)
Definition on_progress (message : string) : M unit :=
  QTextEdit_append self_output_text message.

Definition on_finished (success : bool) (message : string) : M unit :=
  modify self_generate_btn (fun _ => {| isEnabled := true |});;
  modify self_progress_bar (fun b => {| isVisible := false; bar_range := bar_range b |});;
  if success
  then QTextEdit_append self_output_text ("✅ " ++ message);;
       QMessageBox_show Information "成功" message
  else QTextEdit_append self_output_text ("❌ " ++ message);;
       QMessageBox_show Critical "错误" message.

(** ** [GenerateThread] *)

(** The signals of the worker: [progress(str)] and [finished(bool, str)]. *)
Inductive signal : Type :=
| progress (message : string)
| finished (success : bool) (message : string).

Record GenerateThread : Type := { config_path : string; script_path : string }.

(** The child process as the worker sees it.  [stdout] lists the results
    of the calls of [process.stdout.readline()] made while the loop goes
    on: a text (the empty text when [poll()] is still [None]) or an
    exception; the call after the last one returns the empty text with the
    process exited, which ends the loop.  [returncode] is what [poll()]
    returns then, and [stderr] the result of [process.stderr.read()]. *)
Record Popen : Type := {
  stdout : list (outcome string);
  returncode : Z;
  stderr : outcome string
}.

(** What the worker finds when it runs: whether the script file exists,
    and the child process or the exception of [subprocess.Popen]. *)
Record worker_env : Type := {
  script_exists : bool;
  popen : outcome Popen
}.

(** The worker runs on the signals emitted so far. *)
Abbreviation T := (SE (list signal)).

Definition emit (s : signal) : T unit := fun emitted => (Return tt, (emitted ++ [s])%list).

(** One turn of [while True]: read a line, relay it when it is not empty;
    a [UnicodeDecodeError] skips the turn. *)
Definition relay_line (read : outcome string) : T unit :=
  try_except_UnicodeDecodeError
    (output ← lift read;
     if negb (String.eqb output "") then emit (progress (Py.strip output)) else mret tt)
    (mret tt).

Fixpoint relay_lines (reads : list (outcome string)) : T unit :=
  match reads with
  | [] => mret tt
  | read :: rest => relay_line read;; relay_lines rest
  end.

(** [GenerateThread.run] *)
Definition run_body (rt : runtime) (self : GenerateThread) (env : worker_env) : T unit :=
  try_except
    (if negb (script_exists env)
     then emit (finished false ("找不到脚本文件: " ++ script_path self))
     else
       let cmd := [sys_executable rt; script_path self; "--config"; config_path self] in
       emit (progress ("执行命令: " ++ Py.join " " cmd));;
       process ← lift (popen env);
       relay_lines (stdout process);;
       let rc := returncode process in
       stderr ← try_except_UnicodeDecodeError
                  (lift (stderr process))
                  (mret "输出包含无法解码的字符");
       if rc =? 0
       then emit (finished true "生成完成!")
       else
         let error_msg :=
           if negb (String.eqb stderr "") then stderr
           else "脚本执行失败，返回码: " ++ Py.str_int rc in
         emit (finished false error_msg))
    (fun e => emit (finished false ("执行出错: " ++ str_exn e))).

(** The signals of one run, in the order of their emission. *)
Definition run (rt : runtime) (self : GenerateThread) (env : worker_env) : list signal :=
  snd (run_body rt self env []).

(** ** The program with its files and its workers *)

(** A file as [json.load] finds it: the text of a value, or bytes on which
    reading or parsing raises [e]. *)
Inductive file : Type :=
| JsonText (v : json)
| Unreadable (e : exn).

(** The window, the files, and for every started worker the signals it
    has emitted that the window has not handled yet. *)
Record world : Type := {
  window : gui;
  files : gmap string file;
  threads : list (list signal)
}.

Abbreviation W := (SE world).

(** A method of the window, run in the program. *)
Definition on_window {A : Type} (m : M A) : W A := fun w =>
  let (r, st) := m (window w) in
  (r, {| window := st; files := files w; threads := threads w |}).

Definition get_window : W gui := fun w => (Return (window w), w).

(** [with open(path, 'w') as f: json.dump(config, f, ...)] once [open]
    has succeeded. *)
Definition json_dump (path : string) (config : gmap string json) : W unit := fun w =>
  (Return tt,
   {| window := window w;
      files := <[path := JsonText (JObj config)]> (files w);
      threads := threads w |}).

(** [with open(path, 'r') as f: config = json.load(f)] *)
Definition json_load (path : string) : W json := fun w =>
  match files w !! path with
  | None => (Raised (OSError ("[Errno 2] No such file or directory: '" ++ path ++ "'")), w)
  | Some (Unreadable e) => (Raised e, w)
  | Some (JsonText v) => (Return v, w)
  end.

(** [QThread.start()]: the worker runs, its signals wait for the window. *)
Definition start (signals : list signal) : W unit := fun w =>
  (Return tt,
   {| window := window w; files := files w; threads := (threads w ++ [signals])%list |}).

(** [save_config].  [file_path] is what the file dialog returns (empty
    when it is cancelled), [opened] the result of [open]. *)
Definition save_config (file_path : string) (opened : outcome unit) : W unit :=
  try_except
    (st ← get_window;
     config ← lift (generate_config st);
     if negb (String.eqb file_path "")
     then lift opened;;
          json_dump file_path config;;
          on_window (QTextEdit_append self_output_text ("配置已保存到: " ++ file_path))
     else mret tt)
    (fun e => on_window (QMessageBox_show Warning "错误" ("保存配置失败: " ++ str_exn e))).

(** [load_config] *)
Definition load_config (rt : runtime) (file_path : string) : W unit :=
  if negb (String.eqb file_path "")
  then
    try_except
      (config ← json_load file_path;
       on_window (load_config_from_dict rt config);;
       on_window (QTextEdit_append self_output_text ("配置已加载: " ++ file_path)))
      (fun e => on_window (QMessageBox_show Warning "错误" ("加载配置失败: " ++ str_exn e)))
  else mret tt.

(** What [generate_assets] finds outside the program: whether the script
    exists, the results of the two [os.makedirs] and of [open], and what
    the worker will find. *)
Record build_env : Type := {
  path_exists : bool;
  makedirs_output : outcome unit;
  makedirs_main : outcome unit;
  open_temp_config : outcome unit;
  worker : worker_env
}.

(** [generate_assets] *)
Definition generate_assets (rt : runtime) (env : build_env) : W unit :=
  try_except
    (st ← get_window;
     if String.eqb (text (assets_path_edit st)) ""
     then on_window (QMessageBox_show Warning "错误" "请选择图片目录")
     else if String.eqb (text (output_path_edit st)) ""
     then on_window (QMessageBox_show Warning "错误" "请选择输出目录")
     else if negb (path_exists env)
     then on_window (QMessageBox_show Warning "错误" "找不到脚本文件")
     else
       config ← lift (generate_config st);
       lift (makedirs_output env);;
       (if negb (String.eqb (text (main_path_edit st)) "")
        then lift (makedirs_main env) else mret tt);;
       let script_dir := module_dir rt in
       let config_path := posixpath.join script_dir "temp_config.json" in
       lift (open_temp_config env);;
       json_dump config_path config;;
       on_window (modify self_output_text clear);;
       on_window (QTextEdit_append self_output_text "开始生成资源文件...");;
       on_window (modify self_generate_btn (fun _ => {| isEnabled := false |}));;
       on_window (modify self_progress_bar (fun _ => {| isVisible := true; bar_range := (0, 0) |}));;
       let generate_thread :=
         {| config_path := config_path; script_path := text (script_path_edit st) |} in
       start (run rt generate_thread (worker env)))
    (fun e => on_window (QMessageBox_show Critical "错误" ("生成失败: " ++ str_exn e))).

(** [browse_assets_path], [browse_output_path], [browse_main_path] and
    [browse_script_path]; [path] is what the dialog returns. *)
Definition browse (w : attribute QLineEdit) (path : string) : M unit :=
  if negb (String.eqb path "") then QLineEdit_setText w (JStr path) else mret tt.

Definition browse_assets_path : string -> M unit := browse self_assets_path_edit.
Definition browse_output_path : string -> M unit := browse self_output_path_edit.
Definition browse_main_path : string -> M unit := browse self_main_path_edit.
Definition browse_script_path : string -> M unit := browse self_script_path_edit.

(** ** What happens to the running program *)

Inductive line_edit : Type :=
  AssetsPath | OutputPath | MainPath | ScriptPath | AssetsSize.

Inductive spin_box : Type := NameLength | SplitHeight.

Inductive check_box : Type :=
  SupportJpg | SupportPng | SupportSjpg | SupportSpng | SupportQoi
| SupportSqoi | SupportRaw | SupportRawDither | SupportRawBgr.

Inductive combo_box : Type := LvglVer | SupportRawCf | SupportRawFf.

Definition line_edit_of (w : line_edit) : attribute QLineEdit :=
  match w with
  | AssetsPath => self_assets_path_edit
  | OutputPath => self_output_path_edit
  | MainPath => self_main_path_edit
  | ScriptPath => self_script_path_edit
  | AssetsSize => self_assets_size_edit
  end.

Definition spin_box_of (w : spin_box) : attribute QSpinBox :=
  match w with
  | NameLength => self_name_length_spin
  | SplitHeight => self_split_height_spin
  end.

Definition check_box_of (w : check_box) : attribute QCheckBox :=
  match w with
  | SupportJpg => self_support_jpg_cb
  | SupportPng => self_support_png_cb
  | SupportSjpg => self_support_sjpg_cb
  | SupportSpng => self_support_spng_cb
  | SupportQoi => self_support_qoi_cb
  | SupportSqoi => self_support_sqoi_cb
  | SupportRaw => self_support_raw_cb
  | SupportRawDither => self_support_raw_dither_cb
  | SupportRawBgr => self_support_raw_bgr_cb
  end.

Definition combo_box_of (w : combo_box) : attribute QComboBox :=
  match w with
  | LvglVer => self_lvgl_ver_combo
  | SupportRawCf => self_support_raw_cf_combo
  | SupportRawFf => self_support_raw_ff_combo
  end.

(** The user at the widgets, the workers' signals, and the other programs
    that write files. *)
Inductive event : Type :=
| Typed (w : line_edit) (s : string)
| Stepped (w : spin_box) (v : Z)
| Toggled (w : check_box) (b : bool)
| Selected (w : combo_box) (i : Z)
| BrowsedAssetsPath (path : string)
| BrowsedOutputPath (path : string)
| BrowsedMainPath (path : string)
| BrowsedScriptPath (path : string)
| ClickedGenerate (env : build_env)
| ClickedSave (file_path : string) (opened : outcome unit)
| ClickedLoad (file_path : string)
| Delivered (i : nat)
| FileWritten (path : string) (f : file).

(** The slot connected to a signal. *)
Definition slot (s : signal) : M unit :=
  match s with
  | progress message => on_progress message
  | finished success message => on_finished success message
  end.

(** The window handles the oldest signal of worker [i]; a worker with no
    signal left is done. *)
Definition deliver (i : nat) (w : world) : world :=
  match threads w !! i with
  | Some (s :: rest) =>
      {| window := snd (slot s (window w));
         files := files w;
         threads := (take i (threads w)
                       ++ match rest with [] => [] | _ => [rest] end
                       ++ drop (S i) (threads w))%list |}
  | _ => w
  end.

(** A push button that is not enabled does not emit [clicked]. *)
Definition handle (rt : runtime) (ev : event) (w : world) : world :=
  match ev with
  | Typed e s => snd (on_window (modify (line_edit_of e) (fun _ => {| text := s |})) w)
  | Stepped e v => snd (on_window (modify (spin_box_of e) (setValue v)) w)
  | Toggled e b => snd (on_window (modify (check_box_of e) (fun _ => {| isChecked := b |})) w)
  | Selected e i =>
      snd (on_window
             (modify (combo_box_of e)
                (fun c => if (0 <=? i) && (i <? Z.of_nat (length (items c)))
                          then setCurrentIndex i c else c)) w)
  | BrowsedAssetsPath path => snd (on_window (browse_assets_path path) w)
  | BrowsedOutputPath path => snd (on_window (browse_output_path path) w)
  | BrowsedMainPath path => snd (on_window (browse_main_path path) w)
  | BrowsedScriptPath path => snd (on_window (browse_script_path path) w)
  | ClickedGenerate env =>
      if isEnabled (generate_btn (window w)) then snd (generate_assets rt env w) else w
  | ClickedSave file_path opened => snd (save_config file_path opened w)
  | ClickedLoad file_path => snd (load_config rt file_path w)
  | Delivered i => deliver i w
  | FileWritten path f =>
      {| window := window w; files := <[path := f]> (files w); threads := threads w |}
  end.

(** The program when its window opens, and the states it can get to. *)
Definition initial (rt : runtime) : world :=
  {| window := snd (init rt); files := ∅; threads := [] |}.

Inductive reachable (rt : runtime) : world -> Prop :=
| reachable_initial : reachable rt (initial rt)
| reachable_handle (ev : event) (w : world) :
    reachable rt w -> reachable rt (handle rt ev w).

(** ** What the widgets guarantee *)

Definition spin_ok (lo hi : Z) (w : QSpinBox) : Prop :=
  minimum w = lo /\ maximum w = hi /\ lo <= value w <= hi.

Definition combo_ok (choices : list string) (w : QComboBox) : Prop :=
  items w = choices /\ 0 <= currentIndex w < Z.of_nat (length choices).

(** The ranges of the two spin boxes and the items of the three combo
    boxes, as [init_ui] sets them. *)
Record gui_ok (st : gui) : Prop := {
  name_length_ok : spin_ok 8 128 (name_length_spin st);
  split_height_ok : spin_ok 1 1024 (split_height_spin st);
  lvgl_ver_ok : combo_ok lvgl_versions (lvgl_ver_combo st);
  support_raw_cf_ok : combo_ok raw_color_formats (support_raw_cf_combo st);
  support_raw_ff_ok : combo_ok raw_output_forms (support_raw_ff_combo st)
}.

(** ** Notions used to state what the program does *)

(** A string without the character [c], and a string made of [c] only. *)
Fixpoint free_of (c : ascii) (s : string) : Prop :=
  match s with
  | EmptyString => True
  | String a r => a <> c /\ free_of c r
  end.

Fixpoint all_of (c : ascii) (s : string) : bool :=
  match s with
  | EmptyString => true
  | String a r => Ascii.eqb a c && all_of c r
  end.

(** The number of separators at the end of a path. *)
Definition trailing_separators (p : string) : nat :=
  (String.length p - String.length (rstrip (Ascii.eqb posixpath.sep) p))%nat.

(** A directory path that [os.path.dirname] gives back from a file in it
    up to one trailing separator: it is made of separators only, or it
    ends with at most one. *)
Definition tidy (p : string) : bool :=
  all_of posixpath.sep p || (trailing_separators p <=? 1)%nat.

(** The type that each key of a configuration is written with by
    [generate_config] and converted to by the widget that takes it. *)
Inductive field_type : Type := TStr | TInt | TBool.

Definition field_type_of (key : string) : option field_type :=
  if Py.contains key ["assets_path"; "image_file"; "main_path"; "assets_size";
                      "support_format"; "lvgl_ver"; "support_raw_cf"; "support_raw_ff"]
  then Some TStr
  else if Py.contains key ["name_length"; "split_height"] then Some TInt
  else if Py.contains key ["support_spng"; "support_sjpg"; "support_qoi"; "support_sqoi";
                           "support_raw"; "support_raw_dither"; "support_raw_bgr"]
  then Some TBool
  else None.

(** An integer has its type when it fits the 32-bit parameter. *)
Definition has_type (t : field_type) (v : json) : bool :=
  match t, v with
  | TStr, JStr _ => true
  | TInt, JInt n => (INT_MIN <=? n) && (n <=? INT_MAX)
  | TBool, JBool _ => true
  | _, _ => false
  end.

(** Every key that is present holds a value of its type. *)
Definition well_typed (d : gmap string json) : Prop :=
  forall (key : string) (v : json) (t : field_type),
    d !! key = Some v -> field_type_of key = Some t -> has_type t v = true.

Definition str_field (d : gmap string json) (key dflt : string) : string :=
  match d !! key with Some (JStr s) => s | _ => dflt end.
Definition int_field (d : gmap string json) (key : string) (dflt : Z) : Z :=
  match d !! key with Some (JInt n) => n | _ => dflt end.
Definition bool_field (d : gmap string json) (key : string) (dflt : bool) : bool :=
  match d !! key with Some (JBool b) => b | _ => dflt end.

(** The dictionary that [generate_config] returns when it returns. *)
Definition config_of (st : gui) : gmap string json :=
  list_to_map [
      ("assets_path", JStr (text (assets_path_edit st)));
      ("image_file", JStr (posixpath.join (text (output_path_edit st)) "assets.bin"));
      ("main_path", JStr (text (main_path_edit st)));
      ("name_length", JInt (value (name_length_spin st)));
      ("split_height", JInt (value (split_height_spin st)));
      ("support_format", JStr (get_support_formats st));
      ("support_spng", JBool (isChecked (support_spng_cb st)));
      ("support_sjpg", JBool (isChecked (support_sjpg_cb st)));
      ("support_qoi", JBool (isChecked (support_qoi_cb st)));
      ("support_sqoi", JBool (isChecked (support_sqoi_cb st)));
      ("support_raw", JBool (isChecked (support_raw_cb st)));
      ("assets_size", JStr (text (assets_size_edit st)));
      ("lvgl_ver", JStr (currentText (lvgl_ver_combo st)));
      ("support_raw_cf", JStr (currentText (support_raw_cf_combo st)));
      ("support_raw_ff", JStr (currentText (support_raw_ff_combo st)));
      ("support_raw_dither", JBool (isChecked (support_raw_dither_cb st)));
      ("support_raw_bgr", JBool (isChecked (support_raw_bgr_cb st)))
    ].

(** The window after [load_config_from_dict] of a well-typed dictionary
    (see [load_well_typed]). *)
Definition loaded (d : gmap string json) (st : gui) : gui := {|
  assets_path_edit := {| text := str_field d "assets_path" "" |};
  output_path_edit :=
    (let image_file := str_field d "image_file" "" in
     if negb (String.eqb image_file "")
     then {| text := posixpath.dirname image_file |}
     else output_path_edit st);
  main_path_edit := {| text := str_field d "main_path" "" |};
  script_path_edit := script_path_edit st;
  name_length_spin := setValue (int_field d "name_length" 32) (name_length_spin st);
  split_height_spin := setValue (int_field d "split_height" 16) (split_height_spin st);
  assets_size_edit := {| text := str_field d "assets_size" "0x100000" |};
  support_jpg_cb :=
    {| isChecked := Py.contains ".jpg" (Py.split "," (str_field d "support_format" "")) |};
  support_png_cb :=
    {| isChecked := Py.contains ".png" (Py.split "," (str_field d "support_format" "")) |};
  support_sjpg_cb := {| isChecked := bool_field d "support_sjpg" false |};
  support_spng_cb := {| isChecked := bool_field d "support_spng" false |};
  support_qoi_cb := {| isChecked := bool_field d "support_qoi" false |};
  support_sqoi_cb := {| isChecked := bool_field d "support_sqoi" false |};
  support_raw_cb := {| isChecked := bool_field d "support_raw" false |};
  lvgl_ver_combo := setCurrentText (str_field d "lvgl_ver" "9.0.0") (lvgl_ver_combo st);
  support_raw_cf_combo :=
    setCurrentText (str_field d "support_raw_cf" "TRUE_COLOR") (support_raw_cf_combo st);
  support_raw_ff_combo :=
    setCurrentText (str_field d "support_raw_ff" "BIN") (support_raw_ff_combo st);
  support_raw_dither_cb := {| isChecked := bool_field d "support_raw_dither" false |};
  support_raw_bgr_cb := {| isChecked := bool_field d "support_raw_bgr" false |};
  generate_btn := generate_btn st;
  output_text := output_text st;
  progress_bar := progress_bar st;
  message_boxes := message_boxes st
|}.

(** [m] keeps [P]: when [P] holds before [m], it holds after, whether [m]
    returns or raises. *)
Definition preserves {S A : Type} (P : S -> Prop) (m : SE S A) : Prop :=
  forall st : S, P st -> P (snd (m st)).

(** [P] does not depend on the widget [w]. *)
Definition independent_of {W : Type} (P : gui -> Prop) (w : attribute W) : Prop :=
  forall (v : W) (st : gui), P st -> P (wset w v st).

(** The signals of a run that ends as it should: progress signals, then
    one [finished] signal, then nothing. *)
Definition well_terminated (signals : list signal) : Prop :=
  exists (lines : list string) (success : bool) (message : string),
    signals = (map progress lines ++ [finished success message])%list.

(** A read of [stdout] that returns, or raises [UnicodeDecodeError]. *)
Definition decodes_or_skips (read : outcome string) : Prop :=
  forall e : exn, read = Raised e -> is_UnicodeDecodeError e = true.

(** The first message of a run whose script exists. *)
Definition command_line (rt : runtime) (self : GenerateThread) : string :=
  "执行命令: "
    ++ Py.join " " [sys_executable rt; script_path self; "--config"; config_path self].

(** The last signal of a run whose process was started and whose output
    was read to its end (see [run_process]). *)
Definition exit_message (p : Popen) : bool * string :=
  match stderr p with
  | Raised e =>
      if is_UnicodeDecodeError e
      then if returncode p =? 0 then (true, "生成完成!")
           else (false, "输出包含无法解码的字符")
      else (false, "执行出错: " ++ str_exn e)
  | Return err =>
      if returncode p =? 0 then (true, "生成完成!")
      else (false, if negb (String.eqb err "") then err
                   else "脚本执行失败，返回码: " ++ Py.str_int (returncode p))
  end.

(** The widgets from which [generate_config] and [run] read are the same
    in two windows. *)
Definition same_form (st st' : gui) : Prop :=
  assets_path_edit st' = assets_path_edit st
  /\ output_path_edit st' = output_path_edit st
  /\ main_path_edit st' = main_path_edit st
  /\ script_path_edit st' = script_path_edit st
  /\ name_length_spin st' = name_length_spin st
  /\ split_height_spin st' = split_height_spin st
  /\ assets_size_edit st' = assets_size_edit st
  /\ support_jpg_cb st' = support_jpg_cb st
  /\ support_png_cb st' = support_png_cb st
  /\ support_sjpg_cb st' = support_sjpg_cb st
  /\ support_spng_cb st' = support_spng_cb st
  /\ support_qoi_cb st' = support_qoi_cb st
  /\ support_sqoi_cb st' = support_sqoi_cb st
  /\ support_raw_cb st' = support_raw_cb st
  /\ lvgl_ver_combo st' = lvgl_ver_combo st
  /\ support_raw_cf_combo st' = support_raw_cf_combo st
  /\ support_raw_ff_combo st' = support_raw_ff_combo st
  /\ support_raw_dither_cb st' = support_raw_dither_cb st
  /\ support_raw_bgr_cb st' = support_raw_bgr_cb st.

Definition succeeded {A : Type} (o : outcome A) : bool :=
  match o with Return _ => true | Raised _ => false end.

(** The tests of [generate_assets] pass and nothing it calls raises. *)
Definition build_starts (env : build_env) (st : gui) : bool :=
  negb (String.eqb (text (assets_path_edit st)) "")
  && negb (String.eqb (text (output_path_edit st)) "")
  && path_exists env
  && succeeded (makedirs_output env)
  && (String.eqb (text (main_path_edit st)) "" || succeeded (makedirs_main env))
  && succeeded (open_temp_config env).

(** The worker that [generate_assets] starts. *)
Definition generate_thread (rt : runtime) (st : gui) : GenerateThread :=
  {| config_path := posixpath.join (module_dir rt) "temp_config.json";
     script_path := text (script_path_edit st) |}.

(** The window once a build has started. *)
Definition building (st : gui) : gui :=
  set_progress_bar {| isVisible := true; bar_range := (0, 0) |}
    (set_generate_btn {| isEnabled := false |}
       (set_output_text {| appended := ["开始生成资源文件..."] |} st)).

(** [P] of the window, and the workers [ts]. *)
Definition in_world (P : gui -> Prop) (ts : list (list signal)) (w : world) : Prop :=
  P (window w) /\ threads w = ts.

(** The generate button is enabled, or not. *)
Definition button_is (b : bool) (st : gui) : Prop := isEnabled (generate_btn st) = b.

(** What holds of the program whatever happens: the widgets keep their
    ranges and items, at most one worker has signals left, those signals
    end with the one [finished], and the button is disabled as long as a
    worker has signals left. *)
Record world_ok (w : world) : Prop := {
  ok_window : gui_ok (window w);
  ok_one_worker : (length (threads w) <= 1)%nat;
  ok_signals : Forall well_terminated (threads w);
  ok_button : button_is true (window w) -> threads w = []
}.


(** ** Saving, then loading *)

(** A window with the widgets [st] saves its configuration to
    [file_path]; a window with the widgets [st0] loads that file; the
    result is the configuration that the second window then generates. *)
Definition round_trip (rt : runtime) (file_path : string) (st st0 : gui)
  : outcome (gmap string json) :=
  let saved :=
    snd (save_config file_path (Return tt) {| window := st; files := ∅; threads := [] |}) in
  let loaded :=
    snd (load_config rt file_path {| window := st0; files := files saved; threads := [] |}) in
  generate_config (window loaded).

(** What happens, one event after the other. *)
Definition play (rt : runtime) (evs : list event) (w : world) : world :=
  fold_left (fun w ev => handle rt ev w) evs w.

(** ** Concrete runs *)

Definition rt0 : runtime :=
  {| sys_executable := "python3";
     module_dir := "/opt/yd_res_pack";
     sip_overflow_checking := false |}.

Definition rt1 : runtime :=
  {| sys_executable := "python3";
     module_dir := "/opt/yd_res_pack";
     sip_overflow_checking := true |}.

Definition thread0 : GenerateThread :=
  {| config_path := "/opt/yd_res_pack/temp_config.json";
     script_path := "./spiffs_assets_gen.py" |}.

(** A packer that prints nothing and exits with status 0. *)
Definition silent_tool : worker_env :=
  {| script_exists := true;
     popen := Return {| stdout := []; returncode := 0; stderr := Return "" |} |}.

(** A packer that prints two lines and exits with status 0. *)
Definition two_line_tool : worker_env :=
  {| script_exists := true;
     popen := Return {| stdout := [Return "packing a.png
"; Return "  done
"];
                        returncode := 0;
                        stderr := Return "" |} |}.

(** A packer that exits with status 2 after a message on its error
    stream. *)
Definition failing_tool : worker_env :=
  {| script_exists := true;
     popen := Return {| stdout := [Return "packing a.png
"];
                        returncode := 2;
                        stderr := Return "no image found" |} |}.

(** Everything [generate_assets] needs is there. *)
Definition ready_env : build_env :=
  {| path_exists := true;
     makedirs_output := Return tt;
     makedirs_main := Return tt;
     open_temp_config := Return tt;
     worker := two_line_tool |}.

(** The window as it opens, with an output directory typed with two
    trailing separators. *)
Definition slashes : gui :=
  set_output_path_edit {| text := "out//" |} (snd (init rt0)).

(** The window as [init_ui] makes it, with an output directory. *)
Definition out_dir : gui := set_output_path_edit {| text := "out" |} init_ui.

(** The [image_file] of a configuration. *)
Definition image_file_of (o : outcome (gmap string json)) : option json :=
  match o with
  | Return config => config !! "image_file"
  | Raised _ => None
  end.

(** The [support_format] of the configuration written to [path]. *)
Definition support_format_written (w : world) (path : string) : option json :=
  match files w !! path with
  | Some (JsonText (JObj config)) => config !! "support_format"
  | _ => None
  end.

(** A saved configuration with the two paths and no other key. *)
Definition partial_config : gmap string json :=
  list_to_map [("assets_path", JStr "imgs"); ("image_file", JStr "out/assets.bin")].

(** A saved configuration whose [name_length] is a string. *)
Definition mistyped_config : gmap string json :=
  list_to_map [("assets_path", JStr "new"); ("name_length", JStr "abc")].

(** Saved configurations whose numbers are out of the ranges of the spin
    boxes, and out of the range of a 64-bit integer. *)
Definition out_of_range_config : gmap string json :=
  list_to_map [("name_length", JInt 200); ("split_height", JInt (-5))].

Definition huge_config : gmap string json :=
  list_to_map [("name_length", JInt (2 ^ 64))].

(** The program with a file to load. *)
Definition with_file (path : string) (f : file) : world :=
  {| window := snd (init rt0); files := {[path := f]}; threads := [] |}.

(** The user gives the two directories and clicks the generate button. *)
Definition busy_world : world :=
  play rt0 [Typed AssetsPath "imgs"; Typed OutputPath "out"; ClickedGenerate ready_env]
    (initial rt0).

(** The same after both input formats have been deselected. *)
Definition no_formats_world : world :=
  play rt0 [Toggled SupportJpg false; Toggled SupportPng false;
            Typed AssetsPath "imgs"; Typed OutputPath "out"; ClickedGenerate ready_env]
    (initial rt0).


(** ** Notions used to state what the other methods do *)

(** The window after [load_default_config]: the widgets of the
    configuration as [init_ui] makes them, but for the output directory;
    the script path and the rest of the window as they were. *)
Definition reset_form (st : gui) : gui := {|
  assets_path_edit := assets_path_edit init_ui;
  output_path_edit := output_path_edit st;
  main_path_edit := main_path_edit init_ui;
  script_path_edit := script_path_edit st;
  name_length_spin := name_length_spin init_ui;
  split_height_spin := split_height_spin init_ui;
  assets_size_edit := assets_size_edit init_ui;
  support_jpg_cb := support_jpg_cb init_ui;
  support_png_cb := support_png_cb init_ui;
  support_sjpg_cb := support_sjpg_cb init_ui;
  support_spng_cb := support_spng_cb init_ui;
  support_qoi_cb := support_qoi_cb init_ui;
  support_sqoi_cb := support_sqoi_cb init_ui;
  support_raw_cb := support_raw_cb init_ui;
  lvgl_ver_combo := lvgl_ver_combo init_ui;
  support_raw_cf_combo := support_raw_cf_combo init_ui;
  support_raw_ff_combo := support_raw_ff_combo init_ui;
  support_raw_dither_cb := support_raw_dither_cb init_ui;
  support_raw_bgr_cb := support_raw_bgr_cb init_ui;
  generate_btn := generate_btn st;
  output_text := output_text st;
  progress_bar := progress_bar st;
  message_boxes := message_boxes st
|}.

(** The program after one more message box. *)
Definition with_box (i : icon) (message : string) (w : world) : world :=
  {| window :=
       set_message_boxes
         (message_boxes (window w)
            ++ [{| box_icon := i; box_title := "错误"; box_text := message |}])%list
         (window w);
     files := files w;
     threads := threads w |}.

(** A read of [stdout] that the loop passes over: the empty text of a
    process still running, or a [UnicodeDecodeError]. *)
Definition passed_over (read : outcome string) : Prop :=
  read = Return "" \/ exists msg : string, read = Raised (UnicodeDecodeError msg).

(** The lines that the packer prints, as [readline] returns them: its
    texts but for the empty ones, which it returns at the end of the
    output for as long as the process has not exited. *)
Definition output_lines (reads : list (outcome string)) : list string :=
  flat_map (fun read => match read with
                        | Return output =>
                            if negb (String.eqb output "") then [output] else []
                        | Raised _ => []
                        end) reads.

(** The lines that the loop of [run] relays when it is given the reads
    [reads]. *)
Definition relayed (reads : list (outcome string)) : list string :=
  map Py.strip (output_lines reads).

(** The worker's environment with other reads of [stdout]. *)
Definition with_stdout (reads : list (outcome string)) (env : worker_env) : worker_env :=
  {| script_exists := script_exists env;
     popen := match popen env with
              | Return p => Return {| stdout := reads;
                                      returncode := returncode p;
                                      stderr := stderr p |}
              | Raised e => Raised e
              end |}.

(** What neither a click on the generate button nor a signal is. *)
Definition passive (ev : event) : Prop :=
  match ev with
  | ClickedGenerate _ | Delivered _ => False
  | _ => True
  end.

(** The window as [init_ui] makes it, with an output directory and the
    .jpg box unchecked. *)
Definition jpg_off : gui := set_support_jpg_cb {| isChecked := false |} out_dir.

(** The window as [init_ui] makes it, with an output directory that ends
    with two separators. *)
Definition double_sep : gui := set_output_path_edit {| text := "out//" |} init_ui.

(** Modelled from the spec: some numeric field is outside its declared
    range, or some enumerated field holds a value outside its declared
    set.  The ranges and the sets are those of [init_ui]. *)
Definition out_of_declared (st : gui) : Prop :=
  ~ 8 <= value (name_length_spin st) <= 128
  \/ ~ 1 <= value (split_height_spin st) <= 1024
  \/ ~ In (currentText (lvgl_ver_combo st)) lvgl_versions
  \/ ~ In (currentText (support_raw_cf_combo st)) raw_color_formats
  \/ ~ In (currentText (support_raw_ff_combo st)) raw_output_forms
  \/ ~ Forall (fun f => In f [".jpg"; ".png"]) (checked_formats st).

(** The state of the button and of the progress bar. *)
Definition chrome (b v : bool) (st : gui) : Prop :=
  isEnabled (generate_btn st) = b /\ isVisible (progress_bar st) = v.

(** A packer that prints a line, is found at the end of its output
    before it has exited, and prints a line between two ideographic
    spaces (U+3000). *)
Definition wide_space_tool : worker_env :=
  with_stdout [Return "packing a.png
"; Return ""; Return "　done　
"] silent_tool.

(** A packer whose output holds a line that cannot be decoded. *)
Definition mixed_tool : worker_env :=
  with_stdout [Return "packing a.png
"; Raised (UnicodeDecodeError "'utf-8' codec can't decode byte 0xff"); Return "done
"] silent_tool.

(** A packer after whose first line reading the pipe fails. *)
Definition unread_tool : worker_env :=
  with_stdout [Return "　packing a.png
"; Raised (OSError "[Errno 5] Input/output error"); Return "done
"] failing_tool.

(** The window with its two directories given, and nothing running. *)
Definition ready_world : world :=
  play rt0 [Typed AssetsPath "imgs"; Typed OutputPath "out"] (initial rt0).

(** Everything [generate_assets] needs is there, and the packer fails. *)
Definition failing_env : build_env :=
  {| path_exists := true;
     makedirs_output := Return tt;
     makedirs_main := Return tt;
     open_temp_config := Return tt;
     worker := failing_tool |}.

(** * Strings and paths *)

Section Strings.

Lemma append_cons (a : ascii) (s t : string) : String a s ++ t = String a (s ++ t).
Proof. reflexivity. Qed.

Lemma append_nil_l (t : string) : "" ++ t = t.
Proof. reflexivity. Qed.

Lemma append_nil_r (s : string) : s ++ "" = s.
Proof. induction s as [|a s IH]; [reflexivity | now rewrite append_cons, IH]. Qed.

Lemma append_assoc (s t u : string) : (s ++ t) ++ u = s ++ (t ++ u).
Proof. induction s as [|a s IH]; [reflexivity | now rewrite !append_cons, IH]. Qed.

Lemma rfind_free (c : ascii) (s : string) : free_of c s -> rfind c s = -1.
Proof.
  induction s as [|a s IH]; simpl; [reflexivity |].
  intros [Ha Hs]. rewrite (IH Hs). simpl.
  destruct (Ascii.eqb_spec a c); [contradiction | reflexivity].
Qed.

(** The last [c] of [s ++ c :: t] is the one shown when [t] has none. *)
Lemma rfind_app (c : ascii) (s t : string) :
  free_of c t -> rfind c (s ++ String c t) = Z.of_nat (String.length s).
Proof.
  intros Ht. induction s as [|a s IH].
  - simpl. rewrite (rfind_free c t Ht). simpl. now rewrite Ascii.eqb_refl.
  - rewrite append_cons. simpl rfind. rewrite IH. simpl String.length.
    destruct (Z.leb_spec 0 (Z.of_nat (String.length s))); lia.
Qed.

Lemma slice_to_app (s t : string) :
  slice_to (Z.of_nat (String.length s)) (s ++ t) = s.
Proof.
  unfold slice_to. rewrite Nat2Z.id.
  induction s as [|a s IH].
  - destruct t; reflexivity.
  - rewrite append_cons. simpl. now rewrite IH.
Qed.

Lemma repeat_char_all_of (c : ascii) (s : string) :
  String.eqb s (repeat_char c (String.length s)) = all_of c s.
Proof.
  induction s as [|a s IH]; [reflexivity |].
  simpl. rewrite IH. reflexivity.
Qed.

Lemma rstrip_empty_iff (c : ascii) (s : string) :
  rstrip (Ascii.eqb c) s = "" <-> all_of c s = true.
Proof.
  induction s as [|a s IH]; simpl; [tauto |].
  destruct (rstrip (Ascii.eqb c) s) eqn:E.
  - rewrite (Ascii.eqb_sym a c).
    destruct (Ascii.eqb c a); simpl; [tauto |]. split; discriminate.
  - split; [discriminate |]. rewrite Bool.andb_true_iff. intros [_ H].
    apply IH in H. discriminate.
Qed.

(** Stripping the separators after a string that does not end with one
    gives the string back. *)
Lemma rstrip_app_sep (c : ascii) (s : string) (n : nat) :
  s <> "" -> endswith c s = false ->
  rstrip (Ascii.eqb c) (s ++ repeat_char c n) = s.
Proof.
  induction s as [|a s IH]; [congruence |]. intros _ He.
  rewrite append_cons. simpl rstrip.
  destruct s as [|b s].
  - simpl in He. rewrite append_nil_l.
    assert (Hn : rstrip (Ascii.eqb c) (repeat_char c n) = "").
    { apply rstrip_empty_iff. clear. induction n; simpl; [reflexivity|].
      now rewrite Ascii.eqb_refl. }
    rewrite Hn. rewrite Ascii.eqb_sym, He. reflexivity.
  - rewrite IH; [reflexivity | discriminate | exact He].
Qed.

End Strings.

Section Paths.
Import posixpath.

Lemma length_append (s t : string) :
  String.length (s ++ t) = (String.length s + String.length t)%nat.
Proof. induction s as [|a s IH]; [reflexivity |]. rewrite append_cons. simpl. now rewrite IH. Qed.

Lemma length_repeat_char (c : ascii) (n : nat) : String.length (repeat_char c n) = n.
Proof. induction n; simpl; congruence. Qed.

Lemma all_of_repeat_char (c : ascii) (n : nat) : all_of c (repeat_char c n) = true.
Proof. induction n; simpl; [reflexivity |]. now rewrite Ascii.eqb_refl. Qed.

Lemma all_of_app (c : ascii) (s t : string) :
  all_of c (s ++ t) = all_of c s && all_of c t.
Proof.
  induction s as [|a s IH]; [reflexivity |].
  rewrite append_cons. simpl. rewrite IH. now rewrite Bool.andb_assoc.
Qed.

Lemma all_of_endswith (c : ascii) (s : string) :
  s <> "" -> all_of c s = true -> endswith c s = true.
Proof.
  induction s as [|a s IH]; [congruence |]. intros _. simpl.
  rewrite Bool.andb_true_iff. intros [Ha Hs].
  destruct s as [|b s]; [exact Ha |]. apply IH; [discriminate | exact Hs].
Qed.

Lemma endswith_app_sep (c : ascii) (s : string) : endswith c (s ++ String c "") = true.
Proof.
  induction s as [|a s IH]; [simpl; apply Ascii.eqb_refl |].
  rewrite append_cons. simpl. destruct (s ++ String c "") eqn:E; [| exact IH].
  destruct s; discriminate.
Qed.

(** A string is what [rstrip] leaves of it, followed by separators. *)
Lemma rstrip_decompose (c : ascii) (s : string) :
  exists n : nat,
    s = rstrip (Ascii.eqb c) s ++ repeat_char c n
    /\ (rstrip (Ascii.eqb c) s = "" \/ endswith c (rstrip (Ascii.eqb c) s) = false).
Proof.
  induction s as [|a s (n & Hs & Hq)].
  - exists 0%nat. split; [reflexivity | now left].
  - simpl rstrip. destruct (rstrip (Ascii.eqb c) s) as [|b q] eqn:E.
    + destruct (Ascii.eqb_spec c a) as [->|Hne].
      * exists (S n). split; [| now left]. rewrite Hs at 1. reflexivity.
      * exists n. split; [rewrite Hs at 1; reflexivity |]. right. simpl.
        destruct (Ascii.eqb_spec a c); congruence.
    + exists n. split; [rewrite Hs at 1; reflexivity |]. right.
      destruct Hq as [Hq | Hq]; [discriminate |]. exact Hq.
Qed.

Lemma startswith_free (c : ascii) (b : string) : free_of c b -> startswith c b = false.
Proof.
  destruct b as [|a b]; [reflexivity |]. simpl. intros [Ha _].
  destruct (Ascii.eqb_spec a c); congruence.
Qed.

Lemma eqb_empty_app (s t : string) : t <> "" -> String.eqb (s ++ t) "" = false.
Proof.
  intros Ht. destruct s; [| reflexivity].
  rewrite append_nil_l. destruct t; [congruence | reflexivity].
Qed.

(** [dirname] of a path made of a directory part, one separator and a
    file name: the directory part, with its trailing separators, when it
    is made of separators only, and without them when it is not. *)
Lemma dirname_sep_file (s b : string) :
  free_of sep b ->
  dirname (s ++ String sep b)
  = if all_of sep s then s ++ String sep "" else rstrip (Ascii.eqb sep) s.
Proof.
  intros Hb. unfold dirname.
  rewrite (rfind_app sep s b Hb).
  assert (Hh : slice_to (Z.of_nat (String.length s) + 1) (s ++ String sep b)
               = s ++ String sep "").
  { replace (s ++ String sep b) with ((s ++ String sep "") ++ b)
      by (rewrite append_assoc; reflexivity).
    replace (Z.of_nat (String.length s) + 1)
      with (Z.of_nat (String.length (s ++ String sep "")))
      by (rewrite length_append; simpl; lia).
    apply slice_to_app. }
  rewrite Hh. rewrite eqb_empty_app by discriminate. simpl negb.
  rewrite repeat_char_all_of, all_of_app. simpl (all_of sep (String sep "")).
  rewrite Bool.andb_true_r. destruct (all_of sep s) eqn:Ha; simpl; [reflexivity |].
  destruct (rstrip_decompose sep s) as (n & Hs & Hq).
  destruct Hq as [Hq | Hq].
  { apply rstrip_empty_iff in Hq. congruence. }
  remember (rstrip (Ascii.eqb sep) s) as q eqn:Eq.
  assert (Hqn : q <> "").
  { intros E. rewrite E in Eq. symmetry in Eq. apply rstrip_empty_iff in Eq. congruence. }
  rewrite Hs at 1. rewrite append_assoc.
  change (repeat_char sep n ++ String sep "") with (repeat_char sep n ++ repeat_char sep 1).
  replace (repeat_char sep n ++ repeat_char sep 1) with (repeat_char sep (n + 1)).
  - apply rstrip_app_sep; assumption.
  - clear. induction n; [reflexivity |]. simpl. rewrite append_cons. now rewrite IHn.
Qed.

(** The directory that [load_config_from_dict] reads back from
    [image_file] gives the same [image_file] again. *)
Lemma join_dirname_join (p b : string) :
  p <> "" -> free_of sep b -> tidy p = true ->
  dirname (join p b) <> "" /\ join (dirname (join p b)) b = join p b.
Proof.
  intros Hp Hb Ht.
  pose proof (startswith_free sep b Hb) as Hsb.
  destruct (rstrip_decompose sep p) as (n & Hs & Hq).
  remember (rstrip (Ascii.eqb sep) p) as q eqn:Eq.
  destruct (all_of sep p) eqn:Hall.
  - (* separators only *)
    assert (He : endswith sep p = true) by now apply all_of_endswith.
    assert (Hj : join p b = p ++ b).
    { unfold join. rewrite Hsb, He, Bool.orb_true_r. reflexivity. }
    assert (Hq' : q = "") by (subst q; now apply rstrip_empty_iff).
    rewrite Hq' in Hs. rewrite append_nil_l in Hs.
    destruct n as [|n]; [simpl in Hs; congruence |].
    assert (Hp' : p = repeat_char sep n ++ String sep "").
    { rewrite Hs. clear. induction n; [reflexivity |].
      simpl. rewrite append_cons. simpl in IHn. now rewrite <- IHn. }
    assert (Hd : dirname (join p b) = p).
    { rewrite Hj. rewrite Hp' at 1. rewrite append_assoc.
      change (String sep "" ++ b) with (String sep b).
      rewrite dirname_sep_file by assumption.
      rewrite all_of_repeat_char. now rewrite <- Hp'. }
    rewrite Hd. split; [assumption | reflexivity].
  - destruct Hq as [Hq | Hq].
    { rewrite Eq in Hq. apply rstrip_empty_iff in Hq. congruence. }
    assert (Hqn : q <> "").
    { intros E. rewrite E in Eq. symmetry in Eq. apply rstrip_empty_iff in Eq. congruence. }
    assert (Hqa : all_of sep q = false).
    { destruct (all_of sep q) eqn:E; [| reflexivity].
      rewrite (all_of_endswith sep q Hqn E) in Hq. discriminate. }
    assert (Hn : (n <= 1)%nat).
    { unfold tidy in Ht. rewrite Hall in Ht. simpl in Ht.
      apply Nat.leb_le in Ht. unfold trailing_separators in Ht. rewrite <- Eq in Ht.
      rewrite Hs in Ht at 1. rewrite length_append, length_repeat_char in Ht. lia. }
    assert (Hjq : join q b = q ++ String sep b).
    { unfold join. rewrite Hsb, Hq.
      destruct (String.eqb_spec q ""); [congruence | reflexivity]. }
    assert (Hj : join p b = q ++ String sep b).
    { destruct n as [|[|n]]; [| | lia].
      - simpl in Hs. rewrite append_nil_r in Hs. rewrite Hs. exact Hjq.
      - simpl in Hs. unfold join. rewrite Hsb. rewrite Hs.
        rewrite endswith_app_sep, Bool.orb_true_r. now rewrite append_assoc. }
    assert (Hd : dirname (join p b) = q).
    { rewrite Hj, dirname_sep_file by assumption. rewrite Hqa.
      pose proof (rstrip_app_sep sep q 0 Hqn Hq) as H0.
      simpl in H0. now rewrite append_nil_r in H0. }
    rewrite Hd, Hjq, Hj. split; [assumption | reflexivity].
Qed.

End Paths.

(** * Loading a well-typed configuration *)

Section Loading.

Lemma to_int_in_range (chk : bool) (sig : string) (n : Z) :
  INT_MIN <= n <= INT_MAX -> to_int chk sig (JInt n) = Return n.
Proof.
  intros H. unfold to_int.
  assert (LLONG_MIN <= INT_MIN /\ INT_MAX <= LLONG_MAX) as [? ?] by (split; discriminate).
  destruct (Z.ltb_spec n LLONG_MIN); [lia |].
  destruct (Z.ltb_spec LLONG_MAX n); [lia |].
  destruct (Z.ltb_spec n INT_MIN); [lia |].
  destruct (Z.ltb_spec INT_MAX n); [lia |]. reflexivity.
Qed.

Variable d : gmap string json.
Hypothesis Hd : well_typed d.

Lemma typed_str (key dflt : string) :
  field_type_of key = Some TStr ->
  default (JStr dflt) (d !! key) = JStr (str_field d key dflt).
Proof.
  intros Ht. unfold str_field. destruct (d !! key) as [v|] eqn:E; [| reflexivity].
  pose proof (Hd key v TStr E Ht) as Hv. destruct v; try discriminate. reflexivity.
Qed.

Lemma typed_bool (key : string) (dflt : bool) :
  field_type_of key = Some TBool ->
  default (JBool dflt) (d !! key) = JBool (bool_field d key dflt).
Proof.
  intros Ht. unfold bool_field. destruct (d !! key) as [v|] eqn:E; [| reflexivity].
  pose proof (Hd key v TBool E Ht) as Hv. destruct v; try discriminate. reflexivity.
Qed.

Lemma typed_int (key : string) (dflt : Z) :
  field_type_of key = Some TInt -> INT_MIN <= dflt <= INT_MAX ->
  default (JInt dflt) (d !! key) = JInt (int_field d key dflt)
  /\ INT_MIN <= int_field d key dflt <= INT_MAX.
Proof.
  intros Ht Hdf. unfold int_field. destruct (d !! key) as [v|] eqn:E; [| now split].
  pose proof (Hd key v TInt E Ht) as Hv. destruct v; try discriminate.
  split; [reflexivity |]. simpl in Hv. apply andb_prop in Hv as [H1 H2].
  apply Z.leb_le in H1, H2. lia.
Qed.

Lemma load_well_typed (rt : runtime) (st : gui) :
  load_config_from_dict rt (JObj d) st = (Return tt, loaded d st).
Proof.
  unfold load_config_from_dict, loaded, Py.get.
  rewrite !typed_str by reflexivity.
  rewrite !typed_bool by reflexivity.
  destruct (typed_int "name_length" 32 eq_refl) as [-> Hn]; [split; discriminate |].
  destruct (typed_int "split_height" 16 eq_refl) as [-> Hs]; [split; discriminate |].
  unfold QLineEdit_setText, QSpinBox_setValue, QCheckBox_setChecked,
    QComboBox_setCurrentText, os_path_dirname, split_comma, to_QString, to_bool.
  cbv beta iota delta [mbind SE_bind mret SE_ret lift].
  rewrite (to_int_in_range _ _ _ Hn).
  cbv beta iota delta [mbind SE_bind mret SE_ret lift modify].
  rewrite (to_int_in_range _ _ _ Hs).
  generalize (int_field d "name_length" 32) (int_field d "split_height" 16).
  intros n s.
  repeat match goal with
         | |- context [str_field d ?k ?v] => generalize (str_field d k v); intro
         | |- context [bool_field d ?k ?v] => generalize (bool_field d k v); intro
         end.
  clear. destruct st.
  match goal with |- context [truthy (JStr ?s)] => destruct s end; reflexivity.
Qed.

End Loading.

(** * What a method keeps true *)

Section Preserves.
Context {S : Type} (P : S -> Prop).

Lemma preserves_ret {A : Type} (a : A) : preserves P (mret a).
Proof. intros st H. exact H. Qed.

Lemma preserves_lift {A : Type} (o : outcome A) : preserves P (lift o).
Proof. intros st H. exact H. Qed.

Lemma preserves_bind {A B : Type} (m : SE S A) (f : A -> SE S B) :
  preserves P m -> (forall a, preserves P (f a)) -> preserves P (m ≫= f).
Proof.
  intros Hm Hf st H. specialize (Hm st H).
  unfold mbind, SE_bind. destruct (m st) as [[a|e] st']; simpl in *.
  - now apply Hf.
  - exact Hm.
Qed.

Lemma preserves_if {A : Type} (b : bool) (m1 m2 : SE S A) :
  preserves P m1 -> preserves P m2 -> preserves P (if b then m1 else m2).
Proof. destruct b; trivial. Qed.

Lemma preserves_try_except {A : Type} (body : SE S A) (handler : exn -> SE S A) :
  preserves P body -> (forall e, preserves P (handler e)) ->
  preserves P (try_except body handler).
Proof.
  intros Hm Hf st H. specialize (Hm st H).
  unfold try_except. destruct (body st) as [[a|e] st']; simpl in *.
  - exact Hm.
  - now apply Hf.
Qed.

End Preserves.

Section PreservesWidgets.
Context (P : gui -> Prop).

Lemma preserves_modify {W : Type} (w : attribute W) (f : W -> W) :
  independent_of P w -> preserves P (modify w f).
Proof. intros H st Hst. apply H, Hst. Qed.

Lemma preserves_setText (w : attribute QLineEdit) (arg : json) :
  independent_of P w -> preserves P (QLineEdit_setText w arg).
Proof.
  intros H. apply preserves_bind; [apply preserves_lift |].
  intros s. now apply preserves_modify.
Qed.

Lemma preserves_setChecked (w : attribute QCheckBox) (arg : json) :
  independent_of P w -> preserves P (QCheckBox_setChecked w arg).
Proof.
  intros H. apply preserves_bind; [apply preserves_lift |].
  intros s. now apply preserves_modify.
Qed.

Lemma preserves_setValue (rt : runtime) (w : attribute QSpinBox) (arg : json) :
  independent_of P w -> preserves P (QSpinBox_setValue rt w arg).
Proof.
  intros H. apply preserves_bind; [apply preserves_lift |].
  intros s. now apply preserves_modify.
Qed.

Lemma preserves_setCurrentText (w : attribute QComboBox) (arg : json) :
  independent_of P w -> preserves P (QComboBox_setCurrentText w arg).
Proof.
  intros H. apply preserves_bind; [apply preserves_lift |].
  intros s. now apply preserves_modify.
Qed.

Lemma preserves_append (w : attribute QTextEdit) (line : string) :
  independent_of P w -> preserves P (QTextEdit_append w line).
Proof. apply preserves_modify. Qed.

Lemma preserves_message_box (i : icon) (title message : string) :
  independent_of P self_message_boxes -> preserves P (QMessageBox_show i title message).
Proof. apply preserves_modify. Qed.

End PreservesWidgets.

(** * The ranges and items of the widgets never change *)

Section WidgetInvariants.

Lemma bound_in_range (lo hi v : Z) : lo <= hi -> lo <= bound lo hi v <= hi.
Proof. unfold bound. lia. Qed.

Lemma bound_id (lo hi v : Z) : lo <= v <= hi -> bound lo hi v = v.
Proof. unfold bound. lia. Qed.

Lemma setValue_ok (lo hi v : Z) (w : QSpinBox) :
  lo <= hi -> spin_ok lo hi w -> spin_ok lo hi (setValue v w).
Proof.
  intros Hle (Hmin & Hmax & _). unfold spin_ok, setValue. simpl.
  rewrite Hmin, Hmax. repeat split; try apply bound_in_range; assumption.
Qed.

Lemma findText_from_range (t : string) (l : list string) (i : Z) :
  findText_from i t l = -1 \/ i <= findText_from i t l < i + Z.of_nat (length l).
Proof.
  revert i. induction l as [|x l IH]; intros i; simpl findText_from; [now left |].
  destruct (String.eqb x t).
  - right. simpl length. lia.
  - destruct (IH (i + 1)) as [H | H]; [now left | right]. simpl length. lia.
Qed.

Lemma setCurrentIndex_ok (choices : list string) (i : Z) (w : QComboBox) :
  0 <= i < Z.of_nat (length choices) ->
  combo_ok choices w -> combo_ok choices (setCurrentIndex i w).
Proof.
  intros Hi (Hitems & _). unfold combo_ok, setCurrentIndex. simpl.
  rewrite Hitems. split; [reflexivity |].
  destruct (Z.leb_spec 0 i); [| lia].
  destruct (Z.ltb_spec i (Z.of_nat (length choices))); simpl; lia.
Qed.

Lemma setCurrentText_ok (choices : list string) (t : string) (w : QComboBox) :
  combo_ok choices w -> combo_ok choices (setCurrentText t w).
Proof.
  intros Hw. unfold setCurrentText.
  destruct (Z.ltb_spec (-1) (findText t w)) as [Hlt | _]; [| exact Hw].
  apply setCurrentIndex_ok; [| exact Hw].
  unfold findText in *. destruct Hw as (Hitems & _). rewrite Hitems in *.
  destruct (findText_from_range t choices 0); lia.
Qed.

Lemma init_ui_ok : gui_ok init_ui.
Proof. split; vm_compute; intuition congruence. Qed.

(** [gui_ok] does not depend on the widgets it does not mention. *)
Ltac frame := intros v [] [? ? ? ? ?]; split; assumption.

Lemma gui_ok_assets_path_edit : independent_of gui_ok self_assets_path_edit.
Proof. frame. Qed.
Lemma gui_ok_output_path_edit : independent_of gui_ok self_output_path_edit.
Proof. frame. Qed.
Lemma gui_ok_main_path_edit : independent_of gui_ok self_main_path_edit.
Proof. frame. Qed.
Lemma gui_ok_script_path_edit : independent_of gui_ok self_script_path_edit.
Proof. frame. Qed.
Lemma gui_ok_assets_size_edit : independent_of gui_ok self_assets_size_edit.
Proof. frame. Qed.
Lemma gui_ok_check_box (w : check_box) : independent_of gui_ok (check_box_of w).
Proof. destruct w; frame. Qed.
Lemma gui_ok_line_edit (w : line_edit) : independent_of gui_ok (line_edit_of w).
Proof. destruct w; frame. Qed.
Lemma gui_ok_generate_btn : independent_of gui_ok self_generate_btn.
Proof. frame. Qed.
Lemma gui_ok_output_text : independent_of gui_ok self_output_text.
Proof. frame. Qed.
Lemma gui_ok_progress_bar : independent_of gui_ok self_progress_bar.
Proof. frame. Qed.
Lemma gui_ok_message_boxes : independent_of gui_ok self_message_boxes.
Proof. frame. Qed.

Lemma gui_ok_spin_box (w : spin_box) (v : Z) :
  preserves gui_ok (modify (spin_box_of w) (setValue v)).
Proof.
  intros [] [Hn Hs ? ? ?]. destruct w; split; simpl; try assumption;
    apply setValue_ok; (lia || assumption).
Qed.

Lemma gui_ok_combo_box (w : combo_box) (f : QComboBox -> QComboBox) :
  (forall choices c, combo_ok choices c -> combo_ok choices (f c)) ->
  preserves gui_ok (modify (combo_box_of w) f).
Proof.
  intros Hf [] [? ? ? ? ?]. destruct w; split; simpl; try assumption; now apply Hf.
Qed.

Lemma gui_ok_setValue (rt : runtime) (w : spin_box) (arg : json) :
  preserves gui_ok (QSpinBox_setValue rt (spin_box_of w) arg).
Proof.
  apply preserves_bind; [apply preserves_lift |]. intros v. apply gui_ok_spin_box.
Qed.

Lemma gui_ok_setCurrentText (w : combo_box) (arg : json) :
  preserves gui_ok (QComboBox_setCurrentText (combo_box_of w) arg).
Proof.
  apply preserves_bind; [apply preserves_lift |]. intros t.
  apply gui_ok_combo_box. intros. now apply setCurrentText_ok.
Qed.

End WidgetInvariants.

Section LoadPreserves.
Context (P : gui -> Prop).
Hypothesis P_line_edit : forall w : line_edit, independent_of P (line_edit_of w).
Hypothesis P_check_box : forall w : check_box, independent_of P (check_box_of w).
Hypothesis P_spin_box :
  forall (w : spin_box) (v : Z), preserves P (modify (spin_box_of w) (setValue v)).
Hypothesis P_combo_box :
  forall (w : combo_box) (t : string),
    preserves P (modify (combo_box_of w) (setCurrentText t)).

Lemma load_setValue (rt : runtime) (w : spin_box) (arg : json) :
  preserves P (QSpinBox_setValue rt (spin_box_of w) arg).
Proof. apply preserves_bind; [apply preserves_lift |]. intros v. apply P_spin_box. Qed.

Lemma load_setCurrentText (w : combo_box) (arg : json) :
  preserves P (QComboBox_setCurrentText (combo_box_of w) arg).
Proof. apply preserves_bind; [apply preserves_lift |]. intros v. apply P_combo_box. Qed.

(** A property that every widget assignment of [load_config_from_dict]
    keeps is kept by the whole load, complete or not. *)
Lemma load_config_from_dict_preserves (rt : runtime) (config : json) :
  preserves P (load_config_from_dict rt config).
Proof.
  unfold load_config_from_dict.
  repeat first
    [ apply preserves_lift
    | apply preserves_ret
    | apply preserves_if
    | apply preserves_setText; first
        [ exact (P_line_edit AssetsPath) | exact (P_line_edit OutputPath)
        | exact (P_line_edit MainPath) | exact (P_line_edit AssetsSize) ]
    | apply preserves_setChecked; first
        [ exact (P_check_box SupportJpg) | exact (P_check_box SupportPng)
        | exact (P_check_box SupportSjpg) | exact (P_check_box SupportSpng)
        | exact (P_check_box SupportQoi) | exact (P_check_box SupportSqoi)
        | exact (P_check_box SupportRaw) | exact (P_check_box SupportRawDither)
        | exact (P_check_box SupportRawBgr) ]
    | exact (load_setValue rt NameLength _)
    | exact (load_setValue rt SplitHeight _)
    | exact (load_setCurrentText LvglVer _)
    | exact (load_setCurrentText SupportRawCf _)
    | exact (load_setCurrentText SupportRawFf _)
    | apply preserves_bind; [| intros ?] ].
Qed.

End LoadPreserves.

Lemma load_config_from_dict_ok (rt : runtime) (config : json) :
  preserves gui_ok (load_config_from_dict rt config).
Proof.
  apply load_config_from_dict_preserves.
  - apply gui_ok_line_edit.
  - apply gui_ok_check_box.
  - apply gui_ok_spin_box.
  - intros w t. apply gui_ok_combo_box. intros. now apply setCurrentText_ok.
Qed.
Section Worker.

Lemma relay_line_emits (read : outcome string) (emitted : list signal) :
  exists (r : outcome unit) (lines : list string),
    relay_line read emitted = (r, (emitted ++ map progress lines)%list)
    /\ (decodes_or_skips read -> r = Return tt).
Proof.
  unfold relay_line, try_except_UnicodeDecodeError, mbind, SE_bind, lift, decodes_or_skips.
  destruct read as [output | e].
  - destruct (String.eqb output ""); simpl.
    + exists (Return tt), []. rewrite app_nil_r. now split.
    + exists (Return tt), [Py.strip output]. now split.
  - destruct (is_UnicodeDecodeError e) eqn:He; simpl.
    + exists (Return tt), []. rewrite app_nil_r. now split.
    + exists (Raised e), []. rewrite app_nil_r. split; [reflexivity |].
      intros H. specialize (H e eq_refl). congruence.
Qed.

Lemma relay_lines_emits (reads : list (outcome string)) (emitted : list signal) :
  exists (r : outcome unit) (lines : list string),
    relay_lines reads emitted = (r, (emitted ++ map progress lines)%list)
    /\ (Forall decodes_or_skips reads -> r = Return tt).
Proof.
  revert emitted. induction reads as [|read reads IH]; intros emitted.
  - exists (Return tt), []. simpl. rewrite app_nil_r. now split.
  - simpl relay_lines. unfold mbind, SE_bind.
    destruct (relay_line_emits read emitted) as (r1 & l1 & E1 & H1). rewrite E1.
    destruct r1 as [[]|e].
    + destruct (IH (emitted ++ map progress l1)%list) as (r2 & l2 & E2 & H2).
      rewrite E2. exists r2, (l1 ++ l2)%list.
      rewrite map_app, app_assoc. split; [reflexivity |].
      intros H. apply H2. now inversion H.
    + exists (Raised e), l1. split; [reflexivity |].
      intros H. inversion H as [|? ? Hr _]. specialize (H1 Hr). discriminate.
Qed.

Lemma relay_line_text (l : string) (emitted : list signal) :
  l <> "" ->
  relay_line (Return l) emitted = (Return tt, (emitted ++ [progress (Py.strip l)])%list).
Proof.
  intros Hl. unfold relay_line, try_except_UnicodeDecodeError, mbind, SE_bind, lift.
  destruct (String.eqb_spec l ""); [contradiction | reflexivity].
Qed.

(** When every read returns a text that is not empty, each text is
    relayed, stripped, in the order of the reads. *)
Lemma relay_lines_all (lines : list string) (emitted : list signal) :
  Forall (fun l => l <> "") lines ->
  relay_lines (map Return lines) emitted
  = (Return tt, (emitted ++ map (fun l => progress (Py.strip l)) lines)%list).
Proof.
  intros H. revert emitted. induction H as [|l lines Hl _ IH]; intros emitted.
  - simpl. now rewrite app_nil_r.
  - change (relay_lines (map Return (l :: lines)) emitted)
      with ((relay_line (Return l) ≫= fun _ => relay_lines (map Return lines)) emitted).
    unfold mbind, SE_bind. rewrite (relay_line_text l emitted Hl), IH.
    simpl. now rewrite <- app_assoc.
Qed.

Variable rt : runtime.
Variable self : GenerateThread.

Lemma run_missing_script (env : worker_env) :
  script_exists env = false ->
  run rt self env = [finished false ("找不到脚本文件: " ++ script_path self)].
Proof. intros H. unfold run, run_body, try_except. rewrite H. reflexivity. Qed.

Lemma run_popen_raises (env : worker_env) (e : exn) :
  script_exists env = true -> popen env = Raised e ->
  run rt self env = [progress (command_line rt self); finished false ("执行出错: " ++ str_exn e)].
Proof.
  intros H1 H2. unfold run, run_body, try_except, mbind, SE_bind, lift. rewrite H1, H2.
  reflexivity.
Qed.

Lemma run_process (env : worker_env) (p : Popen) :
  script_exists env = true -> popen env = Return p ->
  exists (r : outcome unit) (lines : list string),
    relay_lines (stdout p) [progress (command_line rt self)]
    = (r, (progress (command_line rt self) :: map progress lines)%list)
    /\ (Forall decodes_or_skips (stdout p) -> r = Return tt)
    /\ run rt self env
       = (progress (command_line rt self) :: map progress lines
            ++ [match r with
                | Return _ => finished (fst (exit_message p)) (snd (exit_message p))
                | Raised e => finished false ("执行出错: " ++ str_exn e)
                end])%list.
Proof.
  intros H1 H2.
  destruct (relay_lines_emits (stdout p) [progress (command_line rt self)]) as (r & lines & E & Hr).
  exists r, lines. split; [exact E |]. split; [exact Hr |].
  unfold run, run_body, try_except, try_except_UnicodeDecodeError, mbind, SE_bind, lift.
  rewrite H1, H2. unfold emit. cbn [negb app]. fold (command_line rt self).
  rewrite E. unfold exit_message.
  destruct r as [[]|e]; [| reflexivity].
  destruct (stderr p) as [err|e]; [| destruct (is_UnicodeDecodeError e)];
    unfold mret, SE_ret; cbv iota beta;
    destruct (returncode p =? 0); cbn [snd fst app]; rewrite <- ?app_assoc; reflexivity.
Qed.

(** Every run emits progress signals, then exactly one [finished]. *)
Lemma run_well_terminated (env : worker_env) : well_terminated (run rt self env).
Proof.
  destruct (script_exists env) eqn:H1.
  - destruct (popen env) as [p|e] eqn:H2.
    + destruct (run_process env p H1 H2) as (r & lines & _ & _ & E).
      rewrite E. destruct r; eexists ((command_line rt self) :: lines), _, _; reflexivity.
    + rewrite (run_popen_raises env e H1 H2).
      now exists [(command_line rt self)], false, ("执行出错: " ++ str_exn e).
  - rewrite (run_missing_script env H1).
    now exists [], false, ("找不到脚本文件: " ++ script_path self).
Qed.

End Worker.

(** ** The lines relayed *)

Lemma relay_line_passed_over (read : outcome string) (emitted : list signal) :
  passed_over read -> relay_line read emitted = (Return tt, emitted).
Proof. intros [-> | [msg ->]]; reflexivity. Qed.

Lemma relay_lines_app (a b : list (outcome string)) (emitted : list signal) :
  relay_lines (a ++ b) emitted = (relay_lines a ≫= fun _ => relay_lines b) emitted.
Proof.
  revert emitted. induction a as [|x a IH]; intros emitted; [reflexivity |].
  cbn [app relay_lines]. unfold mbind, SE_bind in *.
  destruct (relay_line x emitted) as [[[]|e] emitted']; [| reflexivity].
  apply IH.
Qed.

Lemma relay_lines_passed_over
    (before after : list (outcome string)) (read : outcome string) (emitted : list signal) :
  passed_over read ->
  relay_lines (before ++ read :: after) emitted = relay_lines (before ++ after) emitted.
Proof.
  intros H. rewrite !relay_lines_app. unfold mbind, SE_bind.
  destruct (relay_lines before emitted) as [[[]|e] emitted']; [| reflexivity].
  cbn [relay_lines]. unfold mbind, SE_bind.
  now rewrite (relay_line_passed_over read emitted' H).
Qed.

Lemma relay_lines_relayed (reads : list (outcome string)) (emitted : list signal) :
  Forall decodes_or_skips reads ->
  relay_lines reads emitted = (Return tt, (emitted ++ map progress (relayed reads))%list).
Proof.
  intros H. revert emitted. induction H as [|read reads Hr _ IH]; intros emitted.
  - cbn. now rewrite app_nil_r.
  - cbn [relay_lines]. unfold mbind, SE_bind.
    unfold relay_line, try_except_UnicodeDecodeError, mbind, SE_bind, lift.
    destruct read as [output | e].
    + unfold relayed. cbn [output_lines flat_map].
      destruct (negb (String.eqb output "")); cbn [app map].
      * unfold emit. rewrite IH, <- app_assoc. reflexivity.
      * unfold mret, SE_ret. apply IH.
    + rewrite (Hr e eq_refl). unfold mret, SE_ret. apply IH.
Qed.

Lemma relay_lines_raises
    (before after : list (outcome string)) (e : exn) (emitted : list signal) :
  Forall decodes_or_skips before -> is_UnicodeDecodeError e = false ->
  relay_lines (before ++ Raised e :: after) emitted
  = (Raised e, (emitted ++ map progress (relayed before))%list).
Proof.
  intros Hb He. rewrite relay_lines_app. unfold mbind, SE_bind.
  rewrite (relay_lines_relayed before emitted Hb).
  cbn [relay_lines]. unfold mbind, SE_bind.
  unfold relay_line, try_except_UnicodeDecodeError, mbind, SE_bind, lift.
  now rewrite He.
Qed.

(** A run whose process starts and whose reads raise nothing but
    [UnicodeDecodeError]. *)
Lemma run_relayed (rt : runtime) (self : GenerateThread) (env : worker_env) (p : Popen) :
  script_exists env = true -> popen env = Return p ->
  Forall decodes_or_skips (stdout p) ->
  run rt self env
  = (map progress (command_line rt self :: relayed (stdout p))
       ++ [finished (fst (exit_message p)) (snd (exit_message p))])%list.
Proof.
  intros H1 H2 H3.
  destruct (run_process rt self env p H1 H2) as (r & lines & E & _ & ->).
  rewrite (relay_lines_relayed _ _ H3) in E. cbn [app] in E.
  assert (Er : r = Return tt) by congruence.
  assert (El : map progress lines = map progress (relayed (stdout p))) by congruence.
  subst r. cbn [map app]. now rewrite El.
Qed.

(** * The window in the program *)

Section Program.

Lemma same_form_refl (st : gui) : same_form st st.
Proof. repeat split. Qed.

Lemma same_form_ok (st st' : gui) : same_form st st' -> gui_ok st -> gui_ok st'.
Proof.
  unfold same_form. intros H [? ? ? ? ?].
  decompose [and] H. split; congruence.
Qed.

Lemma same_form_generate_config (st st' : gui) :
  same_form st st' -> generate_config st' = generate_config st.
Proof.
  unfold same_form. intros H. decompose [and] H. clear H.
  unfold generate_config, get_support_formats, checked_formats.
  repeat match goal with E : _ = _ |- _ => rewrite E; clear E end.
  reflexivity.
Qed.

Variable rt : runtime.

(** [generate_assets] when it goes through: the configuration is
    written, the button disabled, one worker started. *)
Lemma generate_assets_starts (env : build_env) (w : world) :
  build_starts env (window w) = true ->
  exists config : gmap string json,
    generate_config (window w) = Return config
    /\ generate_assets rt env w
       = (Return tt,
          {| window := building (window w);
             files := <[config_path (generate_thread rt (window w))
                          := JsonText (JObj config)]> (files w);
             threads := (threads w
                           ++ [run rt (generate_thread rt (window w)) (worker env)])%list |}).
Proof.
  destruct w as [st fs ts]. cbn [window files threads]. unfold build_starts.
  rewrite !Bool.andb_true_iff, !Bool.negb_true_iff, Bool.orb_true_iff.
  intros (((((Ha & Ho) & He) & Hmo) & Hmm) & Hop).
  unfold generate_assets, try_except, mbind, SE_bind, get_window, lift.
  cbn [window files threads]. rewrite Ha, Ho, He. cbn [negb].
  unfold generate_config. rewrite Ho.
  destruct (makedirs_output env) as [[]|]; [| discriminate].
  destruct (open_temp_config env) as [[]|]; [| discriminate].
  eexists. split; [reflexivity |].
  destruct (String.eqb (text (main_path_edit st)) "") eqn:Hm; cbn [negb].
  - reflexivity.
  - destruct Hmm as [? | Hmm]; [discriminate |].
    destruct (makedirs_main env) as [[]|]; [| discriminate].
    reflexivity.
Qed.

(** [generate_assets] when it does not: a message box, and nothing
    else. *)
Lemma generate_assets_refuses (env : build_env) (w : world) :
  build_starts env (window w) = false ->
  exists box : QMessageBox,
    generate_assets rt env w
    = (Return tt,
       {| window := set_message_boxes (message_boxes (window w) ++ [box])%list (window w);
          files := files w;
          threads := threads w |}).
Proof.
  destruct w as [st fs ts]. cbn [window files threads]. unfold build_starts.
  unfold generate_assets, try_except, mbind, SE_bind, get_window, lift.
  cbn [window files threads].
  destruct (String.eqb (text (assets_path_edit st)) "") eqn:Ha; [intros _; eexists; reflexivity |].
  destruct (String.eqb (text (output_path_edit st)) "") eqn:Ho; [intros _; eexists; reflexivity |].
  destruct (path_exists env) eqn:He; [| intros _; eexists; reflexivity].
  cbn [negb andb]. unfold generate_config. rewrite Ho.
  destruct (makedirs_output env) as [[]|]; [| intros _; eexists; reflexivity].
  destruct (String.eqb (text (main_path_edit st)) "") eqn:Hm; cbn [negb orb andb succeeded].
  - destruct (open_temp_config env) as [[]|]; [discriminate | intros _; eexists; reflexivity].
  - destruct (makedirs_main env) as [[]|]; [| intros _; eexists; reflexivity].
    destruct (open_temp_config env) as [[]|]; [discriminate | intros _; eexists; reflexivity].
Qed.

End Program.

(** ** Methods of the program keep what their window methods keep *)

Section OnWorld.
Context (P : gui -> Prop) (ts : list (list signal)).

Lemma in_world_on_window {A : Type} (m : M A) :
  preserves P m -> preserves (in_world P ts) (on_window m).
Proof.
  intros Hm w [HP Ht]. unfold on_window. specialize (Hm (window w) HP).
  destruct (m (window w)) as [r st]. split; assumption.
Qed.

Lemma in_world_get_window : preserves (in_world P ts) get_window.
Proof. intros w H. exact H. Qed.

Lemma in_world_json_load (path : string) : preserves (in_world P ts) (json_load path).
Proof.
  intros w H. unfold json_load. destruct (files w !! path) as [[v|e]|]; exact H.
Qed.

Lemma in_world_json_dump (path : string) (config : gmap string json) :
  preserves (in_world P ts) (json_dump path config).
Proof. intros w H. exact H. Qed.

Hypothesis P_output_text : independent_of P self_output_text.
Hypothesis P_message_boxes : independent_of P self_message_boxes.

Lemma save_config_preserves (file_path : string) (opened : outcome unit) :
  preserves (in_world P ts) (save_config file_path opened).
Proof.
  unfold save_config.
  apply preserves_try_except; [| intros e].
  - apply preserves_bind; [apply in_world_get_window | intros st].
    apply preserves_bind; [apply preserves_lift | intros config].
    apply preserves_if; [| apply preserves_ret].
    apply preserves_bind; [apply preserves_lift | intros _].
    apply preserves_bind; [apply in_world_json_dump | intros _].
    apply in_world_on_window, preserves_append, P_output_text.
  - apply in_world_on_window, preserves_message_box, P_message_boxes.
Qed.

Hypothesis P_line_edit : forall w : line_edit, independent_of P (line_edit_of w).
Hypothesis P_check_box : forall w : check_box, independent_of P (check_box_of w).
Hypothesis P_spin_box :
  forall (w : spin_box) (v : Z), preserves P (modify (spin_box_of w) (setValue v)).
Hypothesis P_combo_box :
  forall (w : combo_box) (t : string),
    preserves P (modify (combo_box_of w) (setCurrentText t)).

Lemma load_config_preserves (rt : runtime) (file_path : string) :
  preserves (in_world P ts) (load_config rt file_path).
Proof.
  unfold load_config. apply preserves_if; [| apply preserves_ret].
  apply preserves_try_except; [| intros e].
  - apply preserves_bind; [apply in_world_json_load | intros config].
    apply preserves_bind; [| intros _].
    + apply in_world_on_window. now apply load_config_from_dict_preserves.
    + apply in_world_on_window, preserves_append, P_output_text.
  - apply in_world_on_window, preserves_message_box, P_message_boxes.
Qed.

End OnWorld.

(** ** The button and the workers *)

Section Invariant.
Variable rt : runtime.

Ltac frame := intros v [] H; exact H.

Lemma button_line_edit (b : bool) (w : line_edit) :
  independent_of (button_is b) (line_edit_of w).
Proof. destruct w; frame. Qed.
Lemma button_check_box (b : bool) (w : check_box) :
  independent_of (button_is b) (check_box_of w).
Proof. destruct w; frame. Qed.
Lemma button_spin_box (b : bool) (w : spin_box) :
  independent_of (button_is b) (spin_box_of w).
Proof. destruct w; frame. Qed.
Lemma button_combo_box (b : bool) (w : combo_box) :
  independent_of (button_is b) (combo_box_of w).
Proof. destruct w; frame. Qed.
Lemma button_output_text (b : bool) : independent_of (button_is b) self_output_text.
Proof. frame. Qed.
Lemma button_message_boxes (b : bool) : independent_of (button_is b) self_message_boxes.
Proof. frame. Qed.

(** A change of the window that keeps [gui_ok] and the button keeps
    [world_ok]. *)
Lemma world_ok_window (w : world) (st : gui) :
  world_ok w -> gui_ok st ->
  (forall b, button_is b (window w) -> button_is b st) ->
  world_ok {| window := st; files := files w; threads := threads w |}.
Proof.
  intros [Hw H1 Hs Hb] Hst Hbtn. split; cbn [window threads]; try assumption.
  intros Ht. apply Hb.
  destruct (isEnabled (generate_btn (window w))) eqn:E; [exact E |].
  pose proof (Hbtn false E) as Hf. unfold button_is in *. congruence.
Qed.

Lemma world_ok_on_window {A : Type} (m : M A) (w : world) :
  preserves gui_ok m -> (forall b, preserves (button_is b) m) ->
  world_ok w -> world_ok (snd (on_window m w)).
Proof.
  intros Hg Hb Hw. unfold on_window.
  pose proof (Hg (window w) (ok_window w Hw)) as Hg'.
  assert (Hb' : forall b, button_is b (window w) -> button_is b (snd (m (window w))))
    by (intros b; apply Hb).
  destruct (m (window w)) as [r st]. now apply world_ok_window.
Qed.

(** From the two [in_world] facts of a method of the program. *)
Lemma world_ok_in_world {A : Type} (m : W A) (w : world) :
  (forall ts, preserves (in_world gui_ok ts) m) ->
  (forall b ts, preserves (in_world (button_is b) ts) m) ->
  world_ok w -> world_ok (snd (m w)).
Proof.
  intros Hg Hb [Hw H1 Hs Hbtn].
  destruct (Hg (threads w) w (conj Hw eq_refl)) as [Hg' Ht].
  split; rewrite ?Ht; try assumption.
  intros He. apply Hbtn.
  destruct (isEnabled (generate_btn (window w))) eqn:E; [exact E |].
  destruct (Hb false (threads w) w (conj E eq_refl)) as [Hf _].
  unfold button_is in *. congruence.
Qed.

Lemma initial_ok : world_ok (initial rt).
Proof.
  split.
  - exact (load_config_from_dict_ok rt (JObj default_config) init_ui init_ui_ok).
  - cbn [initial threads length]. lia.
  - constructor.
  - reflexivity.
Qed.

Lemma gui_ok_slot (s : signal) : preserves gui_ok (slot s).
Proof.
  destruct s as [message | success message]; cbn [slot].
  - apply preserves_append, gui_ok_output_text.
  - unfold on_finished.
    apply preserves_bind; [apply preserves_modify, gui_ok_generate_btn | intros _].
    apply preserves_bind; [apply preserves_modify, gui_ok_progress_bar | intros _].
    apply preserves_if;
      (apply preserves_bind;
       [apply preserves_append, gui_ok_output_text
       | intros _; apply preserves_message_box, gui_ok_message_boxes]).
Qed.

Lemma button_on_progress (b : bool) (message : string) :
  preserves (button_is b) (on_progress message).
Proof. apply preserves_append, button_output_text. Qed.

(** The head of the signals of a run tells what follows it. *)
Lemma well_terminated_progress (message : string) (rest : list signal) :
  well_terminated (progress message :: rest) -> rest <> [] /\ well_terminated rest.
Proof.
  intros (lines & success & final & E). destruct lines as [|l lines]; [discriminate |].
  injection E as _ ->. split; [now destruct lines | now exists lines, success, final].
Qed.

Lemma well_terminated_finished (success : bool) (message : string) (rest : list signal) :
  well_terminated (finished success message :: rest) -> rest = [].
Proof.
  intros (lines & success' & final & E). destruct lines as [|l lines]; [| discriminate].
  now injection E.
Qed.

Lemma deliver_ok (i : nat) (w : world) : world_ok w -> world_ok (deliver i w).
Proof.
  intros Hw. unfold deliver.
  destruct (threads w !! i) as [[|s rest]|] eqn:E; try exact Hw.
  destruct Hw as [Hg H1 Hs Hb].
  destruct (threads w) as [|q [|q' ts]] eqn:Et; [discriminate | | simpl in H1; lia].
  destruct i as [|i]; [| discriminate]. injection E as ->.
  assert (Hq : well_terminated (s :: rest)) by now inversion Hs.
  assert (Hoff : button_is false (window w)).
  { unfold button_is in *. destruct (isEnabled (generate_btn (window w))); [| reflexivity].
    now specialize (Hb eq_refl). }
  split; cbn [window threads take drop app].
  - now apply gui_ok_slot.
  - destruct rest; simpl; lia.
  - destruct s as [message | success message].
    + apply well_terminated_progress in Hq as [Hne Hr].
      destruct rest; [congruence |]. now repeat constructor.
    + apply well_terminated_finished in Hq as ->. constructor.
  - destruct s as [message | success message].
    + intros Hon. pose proof (button_on_progress false message (window w) Hoff) as Hf.
      cbn [slot] in Hon. unfold button_is in *. congruence.
    + intros _. apply well_terminated_finished in Hq as ->. reflexivity.
Qed.

(** Whatever happens keeps [world_ok]. *)
Lemma handle_ok (ev : event) (w : world) : world_ok w -> world_ok (handle rt ev w).
Proof.
  intros Hw. destruct ev as [e s | e v | e b | e i | path | path | path | path
                            | env | file_path opened | file_path | i | path f];
    cbn [handle].
  - apply world_ok_on_window; [| intros b | exact Hw];
      apply preserves_modify; [apply gui_ok_line_edit | apply button_line_edit].
  - apply world_ok_on_window; [apply gui_ok_spin_box | intros b | exact Hw].
    apply preserves_modify, button_spin_box.
  - apply world_ok_on_window; [| intros b' | exact Hw];
      apply preserves_modify; [apply gui_ok_check_box | apply button_check_box].
  - apply world_ok_on_window; [| intros b | exact Hw].
    + apply gui_ok_combo_box. intros choices c Hc.
      destruct ((0 <=? i) && (i <? Z.of_nat (length (items c)))) eqn:Hi; [| exact Hc].
      apply setCurrentIndex_ok; [| exact Hc].
      destruct Hc as [<- _]. apply andb_prop in Hi as [H1 H2].
      apply Z.leb_le in H1. apply Z.ltb_lt in H2. lia.
    + apply preserves_modify, button_combo_box.
  - apply world_ok_on_window; [| intros b | exact Hw];
      (apply preserves_if; [apply preserves_setText | apply preserves_ret]);
      [apply (gui_ok_line_edit AssetsPath) | apply (button_line_edit b AssetsPath)].
  - apply world_ok_on_window; [| intros b | exact Hw];
      (apply preserves_if; [apply preserves_setText | apply preserves_ret]);
      [apply (gui_ok_line_edit OutputPath) | apply (button_line_edit b OutputPath)].
  - apply world_ok_on_window; [| intros b | exact Hw];
      (apply preserves_if; [apply preserves_setText | apply preserves_ret]);
      [apply (gui_ok_line_edit MainPath) | apply (button_line_edit b MainPath)].
  - apply world_ok_on_window; [| intros b | exact Hw];
      (apply preserves_if; [apply preserves_setText | apply preserves_ret]);
      [apply (gui_ok_line_edit ScriptPath) | apply (button_line_edit b ScriptPath)].
  - destruct (isEnabled (generate_btn (window w))) eqn:Hon; [| exact Hw].
    destruct Hw as [Hg H1 Hs Hb]. specialize (Hb Hon).
    destruct (build_starts env (window w)) eqn:Hstart.
    + destruct (generate_assets_starts rt env w Hstart) as (config & _ & ->).
      rewrite Hb. split; cbn [snd window threads app length].
      * apply gui_ok_progress_bar, gui_ok_generate_btn, gui_ok_output_text, Hg.
      * lia.
      * repeat constructor. apply run_well_terminated.
      * discriminate.
    + destruct (generate_assets_refuses rt env w Hstart) as (box & ->).
      rewrite Hb. split; cbn [snd window threads length].
      * apply gui_ok_message_boxes, Hg.
      * lia.
      * constructor.
      * reflexivity.
  - apply world_ok_in_world; [intros ts | intros b ts | exact Hw];
      apply save_config_preserves;
      first [ apply gui_ok_output_text | apply gui_ok_message_boxes
            | apply button_output_text | apply button_message_boxes ].
  - apply world_ok_in_world; [intros ts | intros b ts | exact Hw];
      apply load_config_preserves;
      first [ apply gui_ok_output_text | apply gui_ok_message_boxes
            | apply gui_ok_line_edit | apply gui_ok_check_box | apply gui_ok_spin_box
            | intros c t; apply gui_ok_combo_box; intros; now apply setCurrentText_ok
            | apply button_output_text | apply button_message_boxes
            | apply button_line_edit | apply button_check_box
            | intros c v; apply preserves_modify, button_spin_box
            | intros c t; apply preserves_modify, button_combo_box ].
  - now apply deliver_ok.
  - destruct Hw as [Hg H1 Hs Hb]. split; assumption.
Qed.

Lemma reachable_ok (w : world) : reachable rt w -> world_ok w.
Proof.
  induction 1 as [|ev w _ IH]; [apply initial_ok | now apply handle_ok].
Qed.

End Invariant.

Lemma reachable_play (rt : runtime) (evs : list event) (w : world) :
  reachable rt w -> reachable rt (play rt evs w).
Proof.
  revert w. induction evs as [|ev evs IH]; intros w Hw; [exact Hw |].
  apply IH. now constructor.
Qed.

(** * Saving and loading give the configuration back *)

Lemma generate_config_eq (st : gui) :
  text (output_path_edit st) <> "" -> generate_config st = Return (config_of st).
Proof.
  intros H. unfold generate_config. destruct (String.eqb_spec (text (output_path_edit st)) ""); [contradiction | reflexivity].
Qed.


Lemma int_range_of_spin (lo hi : Z) (w : QSpinBox) :
  INT_MIN <= lo -> hi <= INT_MAX -> spin_ok lo hi w ->
  (INT_MIN <=? value w) && (value w <=? INT_MAX) = true.
Proof.
  intros H1 H2 (_ & _ & H). apply andb_true_intro. split; apply Z.leb_le; lia.
Qed.

Lemma config_of_well_typed (st : gui) : gui_ok st -> well_typed (config_of st).
Proof.
  intros [Hn Hs _ _ _] key v t Hv Ht. unfold field_type_of, Py.contains in Ht.
  cbn [existsb] in Ht.
  repeat match type of Ht with
         | context [String.eqb key ?k] =>
             destruct (String.eqb_spec key k) as [-> | _];
             [ cbn [orb] in Ht; injection Ht as <-;
               vm_compute in Hv; injection Hv as <-; try reflexivity
             | cbn [orb] in Ht ]
         end; try discriminate.
  - apply (int_range_of_spin 8 128); [discriminate | discriminate | exact Hn].
  - apply (int_range_of_spin 1 1024); [discriminate | discriminate | exact Hs].
Qed.

Section RoundTrip.

Lemma findText_from_nth (l : list string) (n : nat) (k : Z) :
  NoDup l -> (n < length l)%nat ->
  findText_from k (nth n l "") l = k + Z.of_nat n.
Proof.
  intros Hl. revert n k. induction Hl as [|x l Hx _ IH]; intros n k Hn; [simpl in Hn; lia |].
  destruct n as [|n]; simpl.
  - rewrite String.eqb_refl. lia.
  - simpl in Hn. destruct (String.eqb_spec x (nth n l "")) as [E | _].
    + exfalso. apply Hx. rewrite E. apply list_elem_of_In, nth_In. lia.
    + rewrite IH by lia. lia.
Qed.

(** Selecting, in a box with the same items, the current text of a box
    makes it the current text there too. *)
Lemma setCurrentText_currentText (choices : list string) (c c0 : QComboBox) :
  NoDup choices -> combo_ok choices c -> combo_ok choices c0 ->
  currentText (setCurrentText (currentText c) c0) = currentText c.
Proof.
  intros Hnd [Hi Hr] [Hi0 _].
  assert (Ht : currentText c = nth (Z.to_nat (currentIndex c)) choices "").
  { unfold currentText. rewrite Hi. destruct (Z.ltb_spec (currentIndex c) 0); [lia | reflexivity]. }
  assert (Hf : findText (currentText c) c0 = currentIndex c).
  { unfold findText. rewrite Hi0, Ht, findText_from_nth by (assumption || lia). lia. }
  unfold setCurrentText. rewrite Hf.
  destruct (Z.ltb_spec (-1) (currentIndex c)); [| lia].
  unfold setCurrentIndex, currentText at 1. cbn [currentIndex items]. rewrite Hi0.
  destruct (Z.leb_spec 0 (currentIndex c)); [| lia].
  destruct (Z.ltb_spec (currentIndex c) (Z.of_nat (length choices))); [| lia].
  cbn [andb]. destruct (Z.ltb_spec (currentIndex c) 0); [lia |]. now rewrite Ht.
Qed.

Lemma setValue_value (lo hi : Z) (s s0 : QSpinBox) :
  spin_ok lo hi s -> spin_ok lo hi s0 -> value (setValue (value s) s0) = value s.
Proof.
  intros (_ & _ & H) (Hmin & Hmax & _). cbn [setValue value].
  rewrite Hmin, Hmax. now apply bound_id.
Qed.

Lemma checked_formats_split (st : gui) :
  Py.contains ".jpg" (Py.split "," (get_support_formats st)) = isChecked (support_jpg_cb st)
  /\ Py.contains ".png" (Py.split "," (get_support_formats st)) = isChecked (support_png_cb st).
Proof.
  unfold get_support_formats, checked_formats.
  destruct (isChecked (support_jpg_cb st)), (isChecked (support_png_cb st)); split; reflexivity.
Qed.

Lemma join_not_empty (p b : string) : b <> "" -> posixpath.join p b <> "".
Proof.
  intros Hb. unfold posixpath.join.
  destruct (startswith posixpath.sep b); [exact Hb |].
  destruct (String.eqb p "" || endswith posixpath.sep p); destruct p; try discriminate; exact Hb.
Qed.

Lemma NoDup_choices :
  NoDup lvgl_versions /\ NoDup raw_color_formats /\ NoDup raw_output_forms.
Proof. repeat split; apply (bool_decide_unpack _); vm_compute; exact I. Qed.

(** The window loaded from the configuration of a window generates that
    configuration again, when the output directory is tidy. *)
Lemma generate_config_loaded (st st0 : gui) :
  gui_ok st -> gui_ok st0 ->
  text (output_path_edit st) <> "" -> tidy (text (output_path_edit st)) = true ->
  generate_config (loaded (config_of st) st0) = Return (config_of st).
Proof.
  intros [Hn Hs Hv Hcf Hff] [Hn0 Hs0 Hv0 Hcf0 Hff0] Hp Ht.
  destruct NoDup_choices as (Nv & Ncf & Nff).
  destruct (join_dirname_join (text (output_path_edit st)) "assets.bin" Hp)
    as [Hd Hj]; [repeat split; discriminate | exact Ht |].
  destruct (checked_formats_split st) as [Hjpg Hpng].
  assert (Himg : str_field (config_of st) "image_file" ""
                 = posixpath.join (text (output_path_edit st)) "assets.bin") by reflexivity.
  assert (Hout : text (output_path_edit (loaded (config_of st) st0))
                 = posixpath.dirname (posixpath.join (text (output_path_edit st)) "assets.bin")).
  { unfold loaded. cbn [output_path_edit]. rewrite Himg.
    destruct (String.eqb_spec (posixpath.join (text (output_path_edit st)) "assets.bin") "")
      as [E | _]; [| reflexivity].
    exfalso. revert E. apply join_not_empty. discriminate. }
  rewrite generate_config_eq by (rewrite Hout; exact Hd).
  unfold config_of at 1. rewrite Hout, Hj.
  unfold get_support_formats at 1, checked_formats at 1.
  unfold loaded.
  cbn [assets_path_edit main_path_edit name_length_spin split_height_spin assets_size_edit
       support_jpg_cb support_png_cb support_sjpg_cb support_spng_cb support_qoi_cb
       support_sqoi_cb support_raw_cb lvgl_ver_combo support_raw_cf_combo
       support_raw_ff_combo support_raw_dither_cb support_raw_bgr_cb text isChecked].
  change (str_field (config_of st) "assets_path" "") with (text (assets_path_edit st)).
  change (str_field (config_of st) "main_path" "") with (text (main_path_edit st)).
  change (str_field (config_of st) "assets_size" "0x100000") with (text (assets_size_edit st)).
  change (str_field (config_of st) "support_format" "") with (get_support_formats st).
  change (str_field (config_of st) "lvgl_ver" "9.0.0") with (currentText (lvgl_ver_combo st)).
  change (str_field (config_of st) "support_raw_cf" "TRUE_COLOR")
    with (currentText (support_raw_cf_combo st)).
  change (str_field (config_of st) "support_raw_ff" "BIN")
    with (currentText (support_raw_ff_combo st)).
  change (int_field (config_of st) "name_length" 32) with (value (name_length_spin st)).
  change (int_field (config_of st) "split_height" 16) with (value (split_height_spin st)).
  change (bool_field (config_of st) "support_spng" false) with (isChecked (support_spng_cb st)).
  change (bool_field (config_of st) "support_sjpg" false) with (isChecked (support_sjpg_cb st)).
  change (bool_field (config_of st) "support_qoi" false) with (isChecked (support_qoi_cb st)).
  change (bool_field (config_of st) "support_sqoi" false) with (isChecked (support_sqoi_cb st)).
  change (bool_field (config_of st) "support_raw" false) with (isChecked (support_raw_cb st)).
  change (bool_field (config_of st) "support_raw_dither" false)
    with (isChecked (support_raw_dither_cb st)).
  change (bool_field (config_of st) "support_raw_bgr" false)
    with (isChecked (support_raw_bgr_cb st)).
  rewrite Hjpg, Hpng.
  rewrite (setValue_value 8 128 _ _ Hn Hn0), (setValue_value 1 1024 _ _ Hs Hs0).
  rewrite (setCurrentText_currentText _ _ _ Nv Hv Hv0),
    (setCurrentText_currentText _ _ _ Ncf Hcf Hcf0),
    (setCurrentText_currentText _ _ _ Nff Hff Hff0).
  reflexivity.
Qed.

End RoundTrip.

(** * The worker's signals *)

(** C5. Every run, whether the script is missing, [Popen] raises, a read
    raises, or the process exits with any status, emits progress signals
    and then exactly one [finished] signal, which is the last signal of
    the run. *)
Theorem run_exactly_one_finished (rt : runtime) (self : GenerateThread) (env : worker_env) :
  exists (lines : list string) (success : bool) (message : string),
    run rt self env = (map progress lines ++ [finished success message])%list.
Proof. exact (run_well_terminated rt self env). Qed.

(** C4, as stated, fails on a packer that prints nothing and exits with
    status 0: the run has one progress signal, the command line, where the
    claim has none. *)
Lemma silent_tool_has_progress :
  popen silent_tool = Return {| stdout := []; returncode := 0; stderr := Return "" |}
  /\ run rt0 thread0 silent_tool
     = [progress "执行命令: python3 ./spiffs_assets_gen.py --config /opt/yd_res_pack/temp_config.json";
        finished true "生成完成!"]
  /\ ~ (exists message : string,
          run rt0 thread0 silent_tool
          = (map progress [] ++ [finished true message])%list).
Proof.
  split; [reflexivity |]. split; [reflexivity |].
  intros [message H]. vm_compute in H. discriminate H.
Qed.

(** C4, amended. When the packer prints N lines and exits with status
    0, and no read of its streams raises anything but
    [UnicodeDecodeError], the run emits one progress signal with the
    command line, then N progress signals with the lines, each without
    the white space at its two ends, in the order of their printing, then
    [finished(True, "生成完成!")], and nothing else.  The empty texts that
    [readline] returns before the process has exited, and the reads that
    raise [UnicodeDecodeError], give no signal. *)
Theorem run_relays_command_then_lines
    (rt : runtime) (self : GenerateThread) (env : worker_env) (p : Popen) :
  script_exists env = true ->
  popen env = Return p ->
  Forall decodes_or_skips (stdout p) ->
  returncode p = 0 ->
  decodes_or_skips (stderr p) ->
  run rt self env
  = (progress (command_line rt self)
       :: map (fun l => progress (Py.strip l)) (output_lines (stdout p))
       ++ [finished true "生成完成!"])%list.
Proof.
  intros He Hp Hout Hrc Herr.
  rewrite (run_relayed rt self env p He Hp Hout).
  unfold relayed. cbn [map app]. rewrite map_map.
  unfold exit_message. rewrite Hrc. cbn [Z.eqb].
  destruct (stderr p) as [err | e]; [reflexivity |].
  now rewrite (Herr e eq_refl).
Qed.

Lemma run_relays_command_then_lines_witness :
  output_lines [Return "packing a.png
"; Return ""; Return "　done　
"] = ["packing a.png
"; "　done　
"]
  /\ run rt0 thread0 wide_space_tool
     = [progress "执行命令: python3 ./spiffs_assets_gen.py --config /opt/yd_res_pack/temp_config.json";
        progress "packing a.png"; progress "done"; finished true "生成完成!"].
Proof.
  split; [reflexivity |].
  refine (run_relays_command_then_lines rt0 thread0 wide_space_tool _
            eq_refl eq_refl _ eq_refl _).
  - repeat constructor; intros e H; discriminate H.
  - intros e H. discriminate H.
Defined.

(** C6. When the packer exits with a status that is not 0, the last
    signal is [finished(False, m)], where m is the text of the error
    stream when that text is not empty, and the message with the return
    code when it is empty.  The text is what [process.stderr.read()]
    returns: the stream is decoded with [errors='ignore'], which leaves
    out what cannot be decoded, so that an error stream with nothing
    that can be decoded reads as the empty text. *)
Theorem failed_run_message
    (rt : runtime) (self : GenerateThread) (env : worker_env) (p : Popen) (err : string) :
  script_exists env = true ->
  popen env = Return p ->
  Forall decodes_or_skips (stdout p) ->
  returncode p <> 0 ->
  stderr p = Return err ->
  run rt self env
  = (map progress (command_line rt self :: relayed (stdout p))
       ++ [finished false
             (if negb (String.eqb err "") then err
              else "脚本执行失败，返回码: " ++ Py.str_int (returncode p))])%list.
Proof.
  intros He Hp Hout Hrc Herr.
  rewrite (run_relayed rt self env p He Hp Hout).
  unfold exit_message. apply Z.eqb_neq in Hrc. rewrite Hrc, Herr. reflexivity.
Qed.

Lemma failed_run_message_witness :
  run rt0 thread0 failing_tool
  = [progress "执行命令: python3 ./spiffs_assets_gen.py --config /opt/yd_res_pack/temp_config.json";
     progress "packing a.png";
     finished false "no image found"]
  /\ run rt0 thread0 (with_stdout [] failing_tool)
     = [progress "执行命令: python3 ./spiffs_assets_gen.py --config /opt/yd_res_pack/temp_config.json";
        finished false "no image found"].
Proof.
  split.
  - refine (failed_run_message rt0 thread0 failing_tool _ "no image found"
              eq_refl eq_refl _ _ eq_refl).
    + repeat constructor. intros e H. discriminate H.
    + discriminate.
  - refine (failed_run_message rt0 thread0 (with_stdout [] failing_tool) _ "no image found"
              eq_refl eq_refl _ _ eq_refl).
    + constructor.
    + discriminate.
Defined.

(** * Building a configuration *)

Lemma currentText_in (choices : list string) (c : QComboBox) :
  combo_ok choices c -> In (currentText c) choices.
Proof.
  intros [Hi Hr]. unfold currentText. rewrite Hi.
  destruct (Z.ltb_spec (currentIndex c) 0); [lia |]. apply nth_In. lia.
Qed.

Lemma checked_formats_declared (st : gui) :
  Forall (fun f => In f [".jpg"; ".png"]) (checked_formats st).
Proof.
  unfold checked_formats.
  destruct (isChecked (support_jpg_cb st)), (isChecked (support_png_cb st)); simpl;
    repeat (constructor; [simpl; tauto |]); constructor.
Qed.

(** C3. In every state of the program, [generate_config] raises
    [ValueError] if and only if the output directory is empty, or a
    numeric field is outside its declared range, or an enumerated field
    holds a value outside its declared set; in every other case it
    returns the configuration of the window.  [generate_config] itself
    tests the output directory only: the widgets keep the numbers and the
    enumerated values in their declared sets, so that the other cases
    never arise. *)
Theorem generate_config_fails_iff (rt : runtime) (w : world) :
  reachable rt w ->
  let st := window w in
  ((exists msg, generate_config st = Raised (ValueError msg))
   <-> text (output_path_edit st) = "" \/ out_of_declared st)
  /\ (~ (text (output_path_edit st) = "" \/ out_of_declared st) ->
      generate_config st = Return (config_of st))
  /\ ~ out_of_declared st.
Proof.
  intros Hw st. subst st.
  destruct (reachable_ok rt w Hw) as [[Hn Hs Hv Hcf Hff] _ _ _].
  set (st := window w) in *.
  assert (Hin : ~ out_of_declared st).
  { destruct Hn as (_ & _ & Hn). destruct Hs as (_ & _ & Hs).
    pose proof (currentText_in _ _ Hv). pose proof (currentText_in _ _ Hcf).
    pose proof (currentText_in _ _ Hff). pose proof (checked_formats_declared st).
    unfold out_of_declared. tauto. }
  split; [| split; [| exact Hin]].
  - unfold generate_config.
    destruct (String.eqb_spec (text (output_path_edit st)) "") as [E | E].
    + split; [intros _; left; exact E | intros _; eexists; reflexivity].
    + split; [intros [msg H]; discriminate H | intros [H | H]; contradiction].
  - intros H. apply generate_config_eq. tauto.
Qed.

Lemma generate_config_fails_iff_witness :
  (exists msg, generate_config (window (initial rt0)) = Raised (ValueError msg))
  /\ generate_config (window ready_world) = Return (config_of (window ready_world)).
Proof.
  split.
  - apply (generate_config_fails_iff rt0 (initial rt0) (reachable_initial rt0)).
    left. reflexivity.
  - pose proof (generate_config_fails_iff rt0 ready_world
                  (reachable_play rt0 _ _ (reachable_initial rt0))) as (_ & Hret & Hin).
    apply Hret. intros [H | H]; [discriminate H | exact (Hin H)].
Defined.

(** * Saving and loading *)

Lemma save_config_files (file_path : string) (w : world) :
  file_path <> "" -> text (output_path_edit (window w)) <> "" ->
  files (snd (save_config file_path (Return tt) w))
  = <[file_path := JsonText (JObj (config_of (window w)))]> (files w).
Proof.
  intros Hf Hp. unfold save_config.
  apply String.eqb_neq in Hf. rewrite Hf. cbn [negb].
  unfold try_except, mbind, SE_bind, get_window, lift, json_dump, on_window,
    QTextEdit_append, modify.
  rewrite (generate_config_eq _ Hp). reflexivity.
Qed.

Lemma load_config_well_typed
    (rt : runtime) (file_path : string) (w : world) (d : gmap string json) :
  file_path <> "" -> files w !! file_path = Some (JsonText (JObj d)) -> well_typed d ->
  window (snd (load_config rt file_path w))
  = set_output_text (append ("配置已加载: " ++ file_path) (output_text (window w)))
      (loaded d (window w)).
Proof.
  intros Hf Hd Ht. unfold load_config.
  apply String.eqb_neq in Hf. rewrite Hf. cbn [negb].
  unfold try_except, mbind, SE_bind, json_load, on_window. rewrite Hd.
  rewrite (load_well_typed d Ht). reflexivity.
Qed.

Lemma save_then_load (rt : runtime) (file_path : string) (st st0 : gui) :
  file_path <> "" -> text (output_path_edit st) <> "" -> gui_ok st ->
  round_trip rt file_path st st0 = generate_config (loaded (config_of st) st0).
Proof.
  intros Hf Hp Hst. unfold round_trip.
  rewrite save_config_files by assumption. cbn [window files].
  rewrite (load_config_well_typed rt file_path _ (config_of st) Hf);
    [| apply lookup_insert_eq | now apply config_of_well_typed].
  apply same_form_generate_config. repeat split.
Qed.

(** C1, as stated, fails for the output directory "out//": the saved
    [image_file] is "out//assets.bin", the directory read back from it is
    "out", and the configuration generated after loading has
    "out/assets.bin". *)
Lemma round_trip_loses_separator :
  text (output_path_edit slashes) = "out//"
  /\ image_file_of (generate_config slashes) = Some (JStr "out//assets.bin")
  /\ image_file_of (round_trip rt0 "saved.json" slashes slashes)
      = Some (JStr "out/assets.bin")
  /\ round_trip rt0 "saved.json" slashes slashes <> generate_config slashes.
Proof.
  assert (H1 : image_file_of (generate_config slashes) = Some (JStr "out//assets.bin"))
    by (vm_compute; reflexivity).
  assert (H2 : image_file_of (round_trip rt0 "saved.json" slashes slashes)
               = Some (JStr "out/assets.bin"))
    by (vm_compute; reflexivity).
  repeat split; try assumption.
  intros E. rewrite E, H1 in H2. discriminate H2.
Qed.

(** C1, amended. For every window whose output directory is not empty and
    ends with at most one separator (or is made of separators only),
    saving the configuration and loading the saved file, in any window,
    gives a window that generates the same configuration, equal in every
    key, [image_file] included. *)
Theorem round_trip_tidy
    (rt : runtime) (file_path : string) (st st0 : gui) (config : gmap string json) :
  gui_ok st -> gui_ok st0 ->
  file_path <> "" ->
  tidy (text (output_path_edit st)) = true ->
  generate_config st = Return config ->
  round_trip rt file_path st st0 = Return config.
Proof.
  intros Hst Hst0 Hf Ht Hc.
  assert (Hp : text (output_path_edit st) <> "").
  { intros E. unfold generate_config in Hc. rewrite E in Hc. discriminate Hc. }
  rewrite (generate_config_eq st Hp) in Hc. injection Hc as <-.
  rewrite save_then_load by assumption.
  now apply generate_config_loaded.
Qed.

Lemma round_trip_tidy_witness :
  round_trip rt0 "saved.json" out_dir init_ui = Return (config_of out_dir).
Proof.
  apply (round_trip_tidy rt0 "saved.json" out_dir init_ui).
  - apply gui_ok_output_path_edit, init_ui_ok.
  - exact init_ui_ok.
  - discriminate.
  - reflexivity.
  - apply generate_config_eq. discriminate.
Defined.

(** * Loading a saved configuration *)

Lemma setCurrentText_choice (choices : list string) (n : nat) (c : QComboBox) :
  NoDup choices -> (n < length choices)%nat -> combo_ok choices c ->
  currentText (setCurrentText (nth n choices "") c) = nth n choices "".
Proof.
  intros Hnd Hn [Hi Hr].
  assert (Hf : findText (nth n choices "") c = Z.of_nat n).
  { unfold findText. rewrite Hi, findText_from_nth by assumption. lia. }
  unfold setCurrentText. rewrite Hf.
  destruct (Z.ltb_spec (-1) (Z.of_nat n)); [| lia].
  unfold setCurrentIndex, currentText. cbn [currentIndex items]. rewrite Hi.
  destruct (Z.leb_spec 0 (Z.of_nat n)); [| lia].
  destruct (Z.ltb_spec (Z.of_nat n) (Z.of_nat (length choices))); [| lia].
  cbn [andb]. destruct (Z.ltb_spec (Z.of_nat n) 0); [lia |]. now rewrite Nat2Z.id.
Qed.

(** C2, as stated, fails on a saved configuration that holds the two
    paths and no other key: after the load both input formats and the
    sjpg and spng boxes are unchecked, where the claim has them
    checked. *)
Lemma partial_config_unchecks :
  let before := snd (init rt0) in
  let after := load_config_from_dict rt0 (JObj partial_config) before in
  fst after = Return tt
  /\ isChecked (support_jpg_cb before) = true
  /\ isChecked (support_sjpg_cb before) = true
  /\ isChecked (support_jpg_cb (snd after)) = false
  /\ isChecked (support_png_cb (snd after)) = false
  /\ isChecked (support_sjpg_cb (snd after)) = false
  /\ isChecked (support_spng_cb (snd after)) = false.
Proof. repeat split; vm_compute; reflexivity. Qed.

(** C2, amended. Loading a configuration whose present keys hold values
    of their types always returns and leaves no widget without a value.
    An absent key gives its widget: 32 for [name_length], 16 for
    [split_height], "0x100000" for [assets_size], "9.0.0" for [lvgl_ver],
    "TRUE_COLOR" for [support_raw_cf], "BIN" for [support_raw_ff], and
    unchecked for every output format, sjpg and spng included, for
    dither and for BGR; an absent [support_format] leaves both input
    formats unchecked. *)
Theorem missing_keys_defaults (rt : runtime) (d : gmap string json) (st : gui) :
  gui_ok st -> well_typed d ->
  exists st' : gui,
    load_config_from_dict rt (JObj d) st = (Return tt, st')
    /\ (d !! "name_length" = None -> value (name_length_spin st') = 32)
    /\ (d !! "split_height" = None -> value (split_height_spin st') = 16)
    /\ (d !! "assets_size" = None -> text (assets_size_edit st') = "0x100000")
    /\ (d !! "lvgl_ver" = None -> currentText (lvgl_ver_combo st') = "9.0.0")
    /\ (d !! "support_raw_cf" = None ->
        currentText (support_raw_cf_combo st') = "TRUE_COLOR")
    /\ (d !! "support_raw_ff" = None -> currentText (support_raw_ff_combo st') = "BIN")
    /\ (d !! "support_qoi" = None -> isChecked (support_qoi_cb st') = false)
    /\ (d !! "support_sqoi" = None -> isChecked (support_sqoi_cb st') = false)
    /\ (d !! "support_raw" = None -> isChecked (support_raw_cb st') = false)
    /\ (d !! "support_raw_dither" = None -> isChecked (support_raw_dither_cb st') = false)
    /\ (d !! "support_raw_bgr" = None -> isChecked (support_raw_bgr_cb st') = false)
    /\ (d !! "support_format" = None ->
        isChecked (support_jpg_cb st') = false /\ isChecked (support_png_cb st') = false)
    /\ (d !! "support_sjpg" = None -> isChecked (support_sjpg_cb st') = false)
    /\ (d !! "support_spng" = None -> isChecked (support_spng_cb st') = false).
Proof.
  intros [Hn Hs Hv Hcf Hff] Hd. exists (loaded d st).
  split; [apply (load_well_typed d Hd) |].
  destruct NoDup_choices as (Nv & Ncf & Nff).
  destruct Hn as (Hn1 & Hn2 & _). destruct Hs as (Hs1 & Hs2 & _).
  unfold loaded, str_field, int_field, bool_field.
  cbn [name_length_spin split_height_spin assets_size_edit lvgl_ver_combo
       support_raw_cf_combo support_raw_ff_combo support_qoi_cb support_sqoi_cb
       support_raw_cb support_raw_dither_cb support_raw_bgr_cb support_jpg_cb
       support_png_cb support_sjpg_cb support_spng_cb isChecked text].
  repeat match goal with |- _ /\ _ => split end;
    intros ->; try reflexivity; try (split; reflexivity).
  - cbn [setValue value]. rewrite Hn1, Hn2. reflexivity.
  - cbn [setValue value]. rewrite Hs1, Hs2. reflexivity.
  - apply (setCurrentText_choice lvgl_versions 1 _ Nv); [simpl; lia | exact Hv].
  - apply (setCurrentText_choice raw_color_formats 0 _ Ncf); [simpl; lia | exact Hcf].
  - apply (setCurrentText_choice raw_output_forms 1 _ Nff); [simpl; lia | exact Hff].
Qed.

Lemma partial_config_well_typed : well_typed partial_config.
Proof.
  intros key v t Hv Ht. unfold field_type_of, Py.contains in Ht. cbn [existsb] in Ht.
  repeat match type of Ht with
         | context [String.eqb key ?k] =>
             destruct (String.eqb_spec key k) as [-> | _];
             [ cbn [orb] in Ht; injection Ht as <-;
               vm_compute in Hv; try discriminate Hv; injection Hv as <-; reflexivity
             | cbn [orb] in Ht ]
         end; discriminate.
Qed.

Lemma missing_keys_defaults_witness :
  exists st' : gui,
    load_config_from_dict rt0 (JObj partial_config) init_ui = (Return tt, st')
    /\ isChecked (support_jpg_cb st') = false
    /\ isChecked (support_png_cb st') = false
    /\ isChecked (support_sjpg_cb st') = false
    /\ isChecked (support_spng_cb st') = false.
Proof.
  destruct (missing_keys_defaults rt0 partial_config init_ui init_ui_ok
              partial_config_well_typed)
    as (st' & E & _ & _ & _ & _ & _ & _ & _ & _ & _ & _ & _ & Hf & Hj & Hp).
  exists st'. split; [exact E |].
  destruct (Hf eq_refl) as [H1 H2].
  repeat split; [exact H1 | exact H2 | exact (Hj eq_refl) | exact (Hp eq_refl)].
Defined.

(** C7, as stated, fails on a file that holds a JSON object whose
    [name_length] is a string: the load fails with a warning, after
    [assets_path_edit] has been given the text of the file. *)
Lemma failed_load_changes_widgets :
  let before := with_file "bad.json" (JsonText (JObj mistyped_config)) in
  let after := snd (load_config rt0 "bad.json" before) in
  message_boxes (window after)
  = [{| box_icon := Warning; box_title := "错误";
        box_text := "加载配置失败: setValue(self, int): argument 1 has unexpected type 'str'" |}]
  /\ text (assets_path_edit (window before)) = ""
  /\ text (assets_path_edit (window after)) = "new".
Proof. repeat split; vm_compute; reflexivity. Qed.

(** C7, amended. When the file cannot be opened, read or parsed as JSON,
    or holds a JSON value that is not an object, [load_config] shows a
    warning with the message of the exception and changes nothing else:
    every other widget, the files and the workers are as before. *)
Theorem rejected_file_changes_nothing
    (rt : runtime) (file_path : string) (w : world) (e : exn) :
  file_path <> "" ->
  fst (json_load file_path w) = Raised e
  \/ (exists v : json,
        fst (json_load file_path w) = Return v
        /\ (forall d, v <> JObj d)
        /\ e = AttributeError ("'" ++ type_name v ++ "' object has no attribute 'get'")) ->
  load_config rt file_path w
  = (Return tt,
     {| window :=
          set_message_boxes
            (message_boxes (window w)
               ++ [{| box_icon := Warning; box_title := "错误";
                      box_text := "加载配置失败: " ++ str_exn e |}])%list
            (window w);
        files := files w;
        threads := threads w |}).
Proof.
  intros Hf H. unfold load_config. apply String.eqb_neq in Hf. rewrite Hf. cbn [negb].
  unfold try_except, mbind, SE_bind.
  assert (Hw : snd (json_load file_path w) = w).
  { unfold json_load. destruct (files w !! file_path) as [[v|e']|]; reflexivity. }
  destruct (json_load file_path w) as [r w'] eqn:E. cbn [fst snd] in *. subst w'.
  destruct H as [-> | (v & -> & Hv & ->)]; [reflexivity |].
  destruct v as [| b | z | f | s | l | d]; try reflexivity.
  exfalso. exact (Hv d eq_refl).
Qed.

Lemma rejected_file_changes_nothing_witness :
  load_config rt0 "notes.txt"
    (with_file "notes.txt" (Unreadable (JSONDecodeError "Expecting value: line 1 column 1 (char 0)")))
  = (Return tt,
     {| window :=
          set_message_boxes
            [{| box_icon := Warning; box_title := "错误";
                box_text := "加载配置失败: Expecting value: line 1 column 1 (char 0)" |}]
            (snd (init rt0));
        files := {["notes.txt" := Unreadable (JSONDecodeError "Expecting value: line 1 column 1 (char 0)")]};
        threads := [] |}).
Proof.
  apply (rejected_file_changes_nothing rt0 "notes.txt"
           (with_file "notes.txt" (Unreadable (JSONDecodeError "Expecting value: line 1 column 1 (char 0)")))
           (JSONDecodeError "Expecting value: line 1 column 1 (char 0)")).
  - discriminate.
  - left. reflexivity.
Defined.

(** C10, as stated, fails on a [name_length] that does not fit a 64-bit
    integer: the conversion to the parameter of [setValue] raises
    [OverflowError], whether the binding checks overflow or not, and
    [load_config] reports it. *)
Lemma huge_name_length_raises :
  let overflowed :=
    OverflowError "argument 1 overflowed: value must be in the range -2147483648 to 2147483647" in
  huge_config !! "name_length" = Some (JInt 18446744073709551616)
  /\ fst (load_config_from_dict rt0 (JObj huge_config) init_ui) = Raised overflowed
  /\ fst (load_config_from_dict rt1 (JObj huge_config) init_ui) = Raised overflowed
  /\ message_boxes
       (window (snd (load_config rt0 "huge.json"
                       (with_file "huge.json" (JsonText (JObj huge_config))))))
     = [{| box_icon := Warning; box_title := "错误";
           box_text := "加载配置失败: " ++ str_exn overflowed |}].
Proof. repeat split; vm_compute; reflexivity. Qed.

(** C10, amended. For every configuration whose present keys hold values
    of their types (for the two numbers: an integer that fits 32 bits),
    [load_config_from_dict] returns, and each spin box holds the loaded
    number (the default when the key is absent) brought to the nearest
    bound of its range, 8..128 and 1..1024.  And in every state of the
    program, after a load that succeeded or failed as after anything
    else, both spin boxes are within their ranges. *)
Theorem numeric_fields_clamped
    (rt : runtime) (d : gmap string json) (st : gui) (w : world) :
  gui_ok st -> well_typed d -> reachable rt w ->
  (exists st' : gui,
     load_config_from_dict rt (JObj d) st = (Return tt, st')
     /\ value (name_length_spin st') = Z.max 8 (Z.min 128 (int_field d "name_length" 32))
     /\ value (split_height_spin st') = Z.max 1 (Z.min 1024 (int_field d "split_height" 16)))
  /\ 8 <= value (name_length_spin (window w)) <= 128
  /\ 1 <= value (split_height_spin (window w)) <= 1024.
Proof.
  intros [(Hn1 & Hn2 & _) (Hs1 & Hs2 & _) _ _ _] Hd Hw. split.
  - exists (loaded d st). split; [apply (load_well_typed d Hd) |].
    unfold loaded. cbn [name_length_spin split_height_spin setValue value].
    rewrite Hn1, Hn2, Hs1, Hs2. split; reflexivity.
  - destruct (reachable_ok rt w Hw) as [[(_ & _ & Hn) (_ & _ & Hs) _ _ _] _ _ _].
    split; assumption.
Qed.

Lemma out_of_range_config_well_typed : well_typed out_of_range_config.
Proof.
  intros key v t Hv Ht. unfold field_type_of, Py.contains in Ht. cbn [existsb] in Ht.
  repeat match type of Ht with
         | context [String.eqb key ?k] =>
             destruct (String.eqb_spec key k) as [-> | _];
             [ cbn [orb] in Ht; injection Ht as <-;
               vm_compute in Hv; try discriminate Hv; injection Hv as <-; reflexivity
             | cbn [orb] in Ht ]
         end; discriminate.
Qed.

Lemma numeric_fields_clamped_witness :
  (exists st' : gui,
     load_config_from_dict rt1 (JObj out_of_range_config) init_ui = (Return tt, st')
     /\ value (name_length_spin st') = 128
     /\ value (split_height_spin st') = 1)
  /\ 8 <= value (name_length_spin (window (initial rt1))) <= 128
  /\ 1 <= value (split_height_spin (window (initial rt1))) <= 1024.
Proof.
  exact (numeric_fields_clamped rt1 out_of_range_config init_ui (initial rt1)
           init_ui_ok out_of_range_config_well_typed (reachable_initial rt1)).
Defined.

(** * Starting a build *)


(** C8, as stated, fails: [generate_assets], run while a worker is
    active, raises nothing, shows no message and starts a second
    worker. *)
Lemma generate_assets_starts_second_run :
  let again := generate_assets rt0 ready_env busy_world in
  length (threads busy_world) = 1%nat
  /\ fst again = Return tt
  /\ message_boxes (window (snd again)) = []
  /\ length (threads (snd again)) = 2%nat.
Proof. repeat split; vm_compute; reflexivity. Qed.

(** C8, amended. In every state of the program at most one worker is
    active; while one is, the generate button is disabled, so that a
    click on it starts nothing and changes nothing: no error is raised,
    no second worker starts, and the signals of the active worker are
    left as they are. *)
Theorem one_run_at_a_time (rt : runtime) (w : world) :
  reachable rt w ->
  (length (threads w) <= 1)%nat
  /\ (threads w <> [] ->
      isEnabled (generate_btn (window w)) = false
      /\ forall env : build_env, handle rt (ClickedGenerate env) w = w).
Proof.
  intros Hw. destruct (reachable_ok rt w Hw) as [_ H1 _ Hb].
  split; [exact H1 |]. intros Hne.
  assert (Hoff : isEnabled (generate_btn (window w)) = false).
  { destruct (isEnabled (generate_btn (window w))) eqn:E; [| reflexivity].
    exfalso. apply Hne, Hb, E. }
  split; [exact Hoff |]. intros env. cbn [handle]. now rewrite Hoff.
Qed.

Lemma one_run_at_a_time_witness :
  (length (threads busy_world) <= 1)%nat
  /\ (threads busy_world <> [] ->
      isEnabled (generate_btn (window busy_world)) = false
      /\ forall env : build_env, handle rt0 (ClickedGenerate env) busy_world = busy_world).
Proof.
  apply (one_run_at_a_time rt0 busy_world).
  apply (reachable_play rt0
           [Typed AssetsPath "imgs"; Typed OutputPath "out"; ClickedGenerate ready_env]).
  apply reachable_initial.
Defined.

(** C9, as stated, fails: with both input formats deselected, a click on
    the generate button starts a worker, on a configuration whose
    [support_format] is empty. *)
Lemma build_without_formats :
  checked_formats (window no_formats_world) = []
  /\ length (threads no_formats_world) = 1%nat
  /\ support_format_written no_formats_world "/opt/yd_res_pack/temp_config.json"
      = Some (JStr "").
Proof. repeat split; vm_compute; reflexivity. Qed.

(** C9, amended. The input formats play no part in whether a build
    starts: when the two directories are given, the script exists and
    nothing raises, a click on the enabled generate button starts the
    worker, on a written configuration whose [support_format] is the
    checked formats joined by commas, which is the empty string exactly
    when both .jpg and .png are deselected. *)
Theorem build_ignores_formats (rt : runtime) (env : build_env) (w : world) :
  build_starts env (window w) = true ->
  isEnabled (generate_btn (window w)) = true ->
  let w' := handle rt (ClickedGenerate env) w in
  threads w' = (threads w ++ [run rt (generate_thread rt (window w)) (worker env)])%list
  /\ support_format_written w' (config_path (generate_thread rt (window w)))
      = Some (JStr (get_support_formats (window w)))
  /\ (get_support_formats (window w) = ""
      <-> isChecked (support_jpg_cb (window w)) = false
          /\ isChecked (support_png_cb (window w)) = false).
Proof.
  intros Hs Hon. cbn [handle]. rewrite Hon.
  destruct (generate_assets_starts rt env w Hs) as (config & Hc & ->).
  cbn [snd threads]. split; [reflexivity |]. split.
  - unfold support_format_written. cbn [files]. rewrite lookup_insert_eq.
    assert (Hp : text (output_path_edit (window w)) <> "").
    { intros E. unfold generate_config in Hc. rewrite E in Hc. discriminate Hc. }
    rewrite (generate_config_eq _ Hp) in Hc. injection Hc as <-. reflexivity.
  - unfold get_support_formats, checked_formats.
    destruct (isChecked (support_jpg_cb (window w))),
      (isChecked (support_png_cb (window w))); cbn; split;
      (discriminate || tauto || (intros [? ?]; discriminate)).
Qed.

Lemma build_ignores_formats_witness :
  let w := play rt0 [Toggled SupportJpg false; Toggled SupportPng false;
                     Typed AssetsPath "imgs"; Typed OutputPath "out"] (initial rt0) in
  let w' := handle rt0 (ClickedGenerate ready_env) w in
  threads w' = (threads w ++ [run rt0 (generate_thread rt0 (window w)) two_line_tool])%list
  /\ support_format_written w' (config_path (generate_thread rt0 (window w)))
      = Some (JStr (get_support_formats (window w)))
  /\ (get_support_formats (window w) = ""
      <-> isChecked (support_jpg_cb (window w)) = false
          /\ isChecked (support_png_cb (window w)) = false).
Proof.
  intros w w'.
  apply (build_ignores_formats rt0 ready_env w).
  - reflexivity.
  - reflexivity.
Defined.

(** * The default configuration *)

Lemma setValue_init (lo hi v : Z) (w : QSpinBox) :
  lo <= v <= hi -> spin_ok lo hi w ->
  setValue v w = {| minimum := lo; maximum := hi; value := v |}.
Proof.
  intros Hv (Hmin & Hmax & _). unfold setValue. rewrite Hmin, Hmax.
  now rewrite bound_id.
Qed.

Lemma setCurrentText_nth (choices : list string) (n : nat) (c : QComboBox) :
  NoDup choices -> (n < length choices)%nat -> combo_ok choices c ->
  setCurrentText (nth n choices "") c = {| items := choices; currentIndex := Z.of_nat n |}.
Proof.
  intros Hnd Hn [Hi Hr].
  assert (Hf : findText (nth n choices "") c = Z.of_nat n).
  { unfold findText. rewrite Hi, findText_from_nth by assumption. lia. }
  unfold setCurrentText. rewrite Hf.
  destruct (Z.ltb_spec (-1) (Z.of_nat n)); [| lia].
  unfold setCurrentIndex. rewrite Hi.
  destruct (Z.leb_spec 0 (Z.of_nat n)); [| lia].
  destruct (Z.ltb_spec (Z.of_nat n) (Z.of_nat (length choices))); [| lia].
  reflexivity.
Qed.

Lemma default_config_well_typed : well_typed default_config.
Proof.
  intros key v t Hv Ht. unfold field_type_of, Py.contains in Ht. cbn [existsb] in Ht.
  repeat match type of Ht with
         | context [String.eqb key ?k] =>
             destruct (String.eqb_spec key k) as [-> | _];
             [ cbn [orb] in Ht; injection Ht as <-;
               vm_compute in Hv; try discriminate Hv; injection Hv as <-; reflexivity
             | cbn [orb] in Ht ]
         end; discriminate.
Qed.

(** X1. [load_default_config] always returns; it gives every widget of
    the configuration the value that [init_ui] creates it with, whatever
    it held, but leaves the output directory as it is (the [image_file]
    of the defaults is empty), as well as the script path, the log and the
    button. *)
Theorem load_default_config_resets (rt : runtime) (st : gui) :
  gui_ok st -> load_default_config rt st = (Return tt, reset_form st).
Proof.
  intros [Hn Hs Hv Hcf Hff]. unfold load_default_config.
  rewrite (load_well_typed default_config default_config_well_typed).
  destruct NoDup_choices as (Nv & Ncf & Nff).
  unfold loaded, reset_form. f_equal.
  change (str_field default_config "assets_path" "") with "".
  change (str_field default_config "image_file" "") with "".
  change (str_field default_config "main_path" "") with "".
  change (str_field default_config "assets_size" "0x100000") with "0x100000".
  change (str_field default_config "support_format" "") with ".jpg,.png".
  change (str_field default_config "lvgl_ver" "9.0.0") with (nth 1 lvgl_versions "").
  change (str_field default_config "support_raw_cf" "TRUE_COLOR")
    with (nth 0 raw_color_formats "").
  change (str_field default_config "support_raw_ff" "BIN") with (nth 1 raw_output_forms "").
  change (int_field default_config "name_length" 32) with 32.
  change (int_field default_config "split_height" 16) with 16.
  change (bool_field default_config "support_sjpg" false) with true.
  change (bool_field default_config "support_spng" false) with true.
  change (bool_field default_config "support_qoi" false) with false.
  change (bool_field default_config "support_sqoi" false) with false.
  change (bool_field default_config "support_raw" false) with false.
  change (bool_field default_config "support_raw_dither" false) with false.
  change (bool_field default_config "support_raw_bgr" false) with false.
  rewrite (setValue_init 8 128 32 _ ltac:(lia) Hn), (setValue_init 1 1024 16 _ ltac:(lia) Hs).
  rewrite (setCurrentText_nth _ 1 _ Nv ltac:(simpl; lia) Hv),
    (setCurrentText_nth _ 0 _ Ncf ltac:(simpl; lia) Hcf),
    (setCurrentText_nth _ 1 _ Nff ltac:(simpl; lia) Hff).
  reflexivity.
Qed.

Lemma load_default_config_resets_witness :
  load_default_config rt0 jpg_off = (Return tt, reset_form jpg_off)
  /\ text (output_path_edit (reset_form jpg_off)) = "out"
  /\ isChecked (support_jpg_cb jpg_off) = false
  /\ isChecked (support_jpg_cb (reset_form jpg_off)) = true.
Proof.
  split; [| repeat split].
  apply (load_default_config_resets rt0 jpg_off).
  apply (gui_ok_check_box SupportJpg), gui_ok_output_path_edit, init_ui_ok.
Defined.

(** * Loading twice, and what a load leaves alone *)

Lemma setCurrentText_idem (t : string) (c : QComboBox) :
  setCurrentText t (setCurrentText t c) = setCurrentText t c.
Proof.
  unfold setCurrentText at 2.
  destruct (-1 <? findText t c) eqn:E; unfold setCurrentText.
  - assert (Hf : findText t (setCurrentIndex (findText t c) c) = findText t c) by reflexivity.
    rewrite Hf, E. reflexivity.
  - now rewrite E.
Qed.

Lemma loaded_idem (d : gmap string json) (st : gui) : loaded d (loaded d st) = loaded d st.
Proof.
  unfold loaded.
  cbn [output_path_edit script_path_edit name_length_spin split_height_spin lvgl_ver_combo
       support_raw_cf_combo support_raw_ff_combo generate_btn output_text progress_bar
       message_boxes].
  rewrite !setCurrentText_idem.
  destruct (negb (String.eqb (str_field d "image_file" "") "")); reflexivity.
Qed.

(** X2. Loading is idempotent: for a configuration whose present keys
    hold values of their types, loading it again into the window it was
    loaded into returns and changes nothing. *)
Theorem load_config_from_dict_twice (rt : runtime) (d : gmap string json) (st : gui) :
  well_typed d ->
  exists st' : gui,
    load_config_from_dict rt (JObj d) st = (Return tt, st')
    /\ load_config_from_dict rt (JObj d) st' = (Return tt, st').
Proof.
  intros Hd. exists (loaded d st).
  rewrite !(load_well_typed d Hd). now rewrite loaded_idem.
Qed.

Lemma load_config_from_dict_twice_witness :
  exists st' : gui,
    load_config_from_dict rt0 (JObj partial_config) init_ui = (Return tt, st')
    /\ load_config_from_dict rt0 (JObj partial_config) st' = (Return tt, st').
Proof.
  apply (load_config_from_dict_twice rt0 partial_config init_ui).
  exact partial_config_well_typed.
Defined.

(** X3. Whatever JSON value is loaded, and whether the load returns or
    raises half way, [load_config_from_dict] leaves the script path, the
    generate button, the log, the progress bar and the message boxes as
    they are: the script path is no part of a saved configuration. *)
Theorem load_config_from_dict_leaves (rt : runtime) (config : json) (st : gui) :
  let st' := snd (load_config_from_dict rt config st) in
  script_path_edit st' = script_path_edit st
  /\ generate_btn st' = generate_btn st
  /\ output_text st' = output_text st
  /\ progress_bar st' = progress_bar st
  /\ message_boxes st' = message_boxes st.
Proof.
  set (P := fun x : gui =>
              script_path_edit x = script_path_edit st
              /\ generate_btn x = generate_btn st
              /\ output_text x = output_text st
              /\ progress_bar x = progress_bar st
              /\ message_boxes x = message_boxes st).
  assert (H : preserves P (load_config_from_dict rt config)).
  { unfold load_config_from_dict.
    repeat first
      [ apply preserves_lift
      | apply preserves_ret
      | apply preserves_if
      | apply preserves_setText; intros v [] Hx; exact Hx
      | apply preserves_setChecked; intros v [] Hx; exact Hx
      | apply preserves_setValue; intros v [] Hx; exact Hx
      | apply preserves_setCurrentText; intros v [] Hx; exact Hx
      | apply preserves_bind; [| intros ?] ]. }
  apply (H st). repeat split.
Qed.

(** * Saving and loading, whatever the output directory *)

Lemma endswith_decompose (c : ascii) (p : string) :
  endswith c p = true -> exists s : string, p = s ++ String c "".
Proof.
  induction p as [|a p IH]; [discriminate |]. simpl.
  destruct p as [|b p].
  - intros H. apply Ascii.eqb_eq in H as ->. now exists "".
  - intros H. destruct (IH H) as [s Hs]. exists (String a s). now rewrite Hs.
Qed.

(** [os.path.join] of a directory and a file name puts one separator
    before the name, its own or the last one of the directory. *)
Lemma join_sep_file (p b : string) :
  p <> "" -> free_of posixpath.sep b ->
  exists s : string, posixpath.join p b = s ++ String posixpath.sep b.
Proof.
  intros Hp Hb. unfold posixpath.join. rewrite (startswith_free _ _ Hb).
  destruct (String.eqb_spec p ""); [contradiction |]. cbn [orb].
  destruct (endswith posixpath.sep p) eqn:E.
  - destruct (endswith_decompose _ _ E) as [s ->]. exists s. now rewrite append_assoc.
  - now exists p.
Qed.

Lemma rstrip_idem (c : ascii) (s : string) :
  rstrip (Ascii.eqb c) (rstrip (Ascii.eqb c) s) = rstrip (Ascii.eqb c) s.
Proof.
  destruct (rstrip_decompose c s) as (n & _ & [Hq | Hq]).
  - now rewrite Hq.
  - destruct (rstrip (Ascii.eqb c) s) as [|a q] eqn:E; [reflexivity |].
    pose proof (rstrip_app_sep c (String a q) 0 ltac:(discriminate) Hq) as H.
    simpl repeat_char in H. now rewrite append_nil_r in H.
Qed.

(** The directory that [os.path.dirname] gives for a file in a directory
    is not empty and has no separator to lose. *)
Lemma dirname_join_tidy (p b : string) :
  p <> "" -> free_of posixpath.sep b ->
  posixpath.dirname (posixpath.join p b) <> ""
  /\ tidy (posixpath.dirname (posixpath.join p b)) = true.
Proof.
  intros Hp Hb. destruct (join_sep_file p b Hp Hb) as [s ->].
  rewrite (dirname_sep_file s b Hb).
  destruct (all_of posixpath.sep s) eqn:Ha.
  - split; [destruct s; discriminate |].
    unfold tidy. rewrite all_of_app, Ha. reflexivity.
  - assert (Hq : rstrip (Ascii.eqb posixpath.sep) s <> "").
    { intros E. apply rstrip_empty_iff in E. congruence. }
    split; [exact Hq |].
    unfold tidy, trailing_separators. rewrite rstrip_idem, Nat.sub_diag.
    apply Bool.orb_true_r.
Qed.

(** The window loaded from the configuration of a window generates the
    configuration of that window with the directory read back. *)
Lemma generate_config_reloaded (st st0 : gui) :
  gui_ok st -> gui_ok st0 -> text (output_path_edit st) <> "" ->
  generate_config (loaded (config_of st) st0)
  = Return (config_of
              (set_output_path_edit
                 {| text := posixpath.dirname
                              (posixpath.join (text (output_path_edit st)) "assets.bin") |}
                 st)).
Proof.
  intros [Hn Hs Hv Hcf Hff] [Hn0 Hs0 Hv0 Hcf0 Hff0] Hp.
  destruct NoDup_choices as (Nv & Ncf & Nff).
  destruct (dirname_join_tidy (text (output_path_edit st)) "assets.bin" Hp)
    as [Hd _]; [repeat split; discriminate |].
  destruct (checked_formats_split st) as [Hjpg Hpng].
  assert (Himg : str_field (config_of st) "image_file" ""
                 = posixpath.join (text (output_path_edit st)) "assets.bin") by reflexivity.
  assert (Hout : text (output_path_edit (loaded (config_of st) st0))
                 = posixpath.dirname (posixpath.join (text (output_path_edit st)) "assets.bin")).
  { unfold loaded. cbn [output_path_edit]. rewrite Himg.
    destruct (String.eqb_spec (posixpath.join (text (output_path_edit st)) "assets.bin") "")
      as [E | _]; [| reflexivity].
    exfalso. revert E. apply join_not_empty. discriminate. }
  rewrite generate_config_eq by (rewrite Hout; exact Hd).
  unfold config_of at 1. rewrite Hout.
  unfold get_support_formats at 1, checked_formats at 1.
  unfold loaded.
  cbn [assets_path_edit main_path_edit name_length_spin split_height_spin
       assets_size_edit
       support_jpg_cb support_png_cb support_sjpg_cb support_spng_cb support_qoi_cb
       support_sqoi_cb support_raw_cb lvgl_ver_combo support_raw_cf_combo
       support_raw_ff_combo support_raw_dither_cb support_raw_bgr_cb text isChecked].
  change (str_field (config_of st) "assets_path" "") with (text (assets_path_edit st)).
  change (str_field (config_of st) "main_path" "") with (text (main_path_edit st)).
  change (str_field (config_of st) "assets_size" "0x100000") with (text (assets_size_edit st)).
  change (str_field (config_of st) "support_format" "") with (get_support_formats st).
  change (str_field (config_of st) "lvgl_ver" "9.0.0") with (currentText (lvgl_ver_combo st)).
  change (str_field (config_of st) "support_raw_cf" "TRUE_COLOR")
    with (currentText (support_raw_cf_combo st)).
  change (str_field (config_of st) "support_raw_ff" "BIN")
    with (currentText (support_raw_ff_combo st)).
  change (int_field (config_of st) "name_length" 32) with (value (name_length_spin st)).
  change (int_field (config_of st) "split_height" 16) with (value (split_height_spin st)).
  change (bool_field (config_of st) "support_spng" false) with (isChecked (support_spng_cb st)).
  change (bool_field (config_of st) "support_sjpg" false) with (isChecked (support_sjpg_cb st)).
  change (bool_field (config_of st) "support_qoi" false) with (isChecked (support_qoi_cb st)).
  change (bool_field (config_of st) "support_sqoi" false) with (isChecked (support_sqoi_cb st)).
  change (bool_field (config_of st) "support_raw" false) with (isChecked (support_raw_cb st)).
  change (bool_field (config_of st) "support_raw_dither" false)
    with (isChecked (support_raw_dither_cb st)).
  change (bool_field (config_of st) "support_raw_bgr" false)
    with (isChecked (support_raw_bgr_cb st)).
  rewrite Hjpg, Hpng.
  rewrite (setValue_value 8 128 _ _ Hn Hn0), (setValue_value 1 1024 _ _ Hs Hs0).
  rewrite (setCurrentText_currentText _ _ _ Nv Hv Hv0),
    (setCurrentText_currentText _ _ _ Ncf Hcf Hcf0),
    (setCurrentText_currentText _ _ _ Nff Hff Hff0).
  reflexivity.
Qed.

(** The keys of a configuration. *)
Lemma config_of_keys (st : gui) (key : string) :
  key ∉ ["assets_path"; "image_file"; "main_path"; "name_length"; "split_height";
         "support_format"; "support_spng"; "support_sjpg"; "support_qoi"; "support_sqoi";
         "support_raw"; "assets_size"; "lvgl_ver"; "support_raw_cf"; "support_raw_ff";
         "support_raw_dither"; "support_raw_bgr"] ->
  config_of st !! key = None.
Proof. intros H. apply not_elem_of_list_to_map_1. exact H. Qed.

(** The output directory is in no key but [image_file]. *)
Lemma config_of_other_keys (st : gui) (directory : QLineEdit) (key : string) :
  key <> "image_file" ->
  config_of (set_output_path_edit directory st) !! key = config_of st !! key.
Proof.
  intros Hkey.
  destruct (decide (key ∈ ["assets_path"; "image_file"; "main_path"; "name_length";
                            "split_height"; "support_format"; "support_spng";
                            "support_sjpg"; "support_qoi"; "support_sqoi"; "support_raw";
                            "assets_size"; "lvgl_ver"; "support_raw_cf"; "support_raw_ff";
                            "support_raw_dither"; "support_raw_bgr"])) as [Hin | Hout].
  - repeat (apply elem_of_cons in Hin as [-> | Hin]; [first [reflexivity | contradiction] |]).
    now apply elem_of_nil in Hin.
  - now rewrite !config_of_keys.
Qed.

(** X4. Saving a configuration and loading the saved file, whatever the
    output directory (not empty): the loaded window generates the original
    configuration in every key but [image_file], which is built again
    from the directory that [os.path.dirname] reads back from it; and
    saving and loading that configuration once more changes nothing. *)
Theorem round_trip_any_directory (rt : runtime) (file_path : string) (st st0 : gui) :
  gui_ok st -> gui_ok st0 -> file_path <> "" -> text (output_path_edit st) <> "" ->
  let directory :=
    posixpath.dirname (posixpath.join (text (output_path_edit st)) "assets.bin") in
  let reloaded := set_output_path_edit {| text := directory |} st in
  round_trip rt file_path st st0 = Return (config_of reloaded)
  /\ (forall key : string,
        key <> "image_file" -> config_of reloaded !! key = config_of st !! key)
  /\ config_of reloaded !! "image_file" = Some (JStr (posixpath.join directory "assets.bin"))
  /\ round_trip rt file_path reloaded st0 = Return (config_of reloaded).
Proof.
  intros Hst Hst0 Hf Hp directory reloaded.
  destruct (dirname_join_tidy (text (output_path_edit st)) "assets.bin" Hp)
    as [Hd Ht]; [repeat split; discriminate |].
  assert (Hre : gui_ok reloaded) by now apply gui_ok_output_path_edit.
  split; [| split; [| split]].
  - rewrite save_then_load by assumption. now apply generate_config_reloaded.
  - intros key Hkey. now apply config_of_other_keys.
  - reflexivity.
  - rewrite save_then_load by assumption.
    now apply generate_config_loaded.
Qed.

Lemma round_trip_any_directory_witness :
  let directory :=
    posixpath.dirname (posixpath.join (text (output_path_edit double_sep)) "assets.bin") in
  directory = "out"
  /\ round_trip rt0 "saved.json" double_sep init_ui
     = Return (config_of (set_output_path_edit {| text := directory |} double_sep)).
Proof.
  intros directory. split; [reflexivity |].
  refine (proj1 (round_trip_any_directory rt0 "saved.json" double_sep init_ui _ _ _ _)).
  - apply gui_ok_output_path_edit, init_ui_ok.
  - exact init_ui_ok.
  - discriminate.
  - discriminate.
Defined.

(** * Saving *)

(** X5. [save_config] never raises and writes at most the chosen file.
    With an empty output directory it shows the warning of
    [generate_config] and nothing else happens, whatever file is chosen;
    with a cancelled dialog nothing happens at all; when [open] raises it
    shows a warning and no file changes; otherwise the chosen file holds
    the configuration of the window and the log gets one line.  In no
    case does a widget of the configuration change. *)
Theorem save_config_cases (file_path : string) (opened : outcome unit) (w : world) :
  let st := window w in
  save_config file_path opened w
  = (Return tt,
     if String.eqb (text (output_path_edit st)) ""
     then with_box Warning "保存配置失败: 请选择输出目录" w
     else if String.eqb file_path "" then w
     else match opened with
          | Raised e => with_box Warning ("保存配置失败: " ++ str_exn e) w
          | Return _ =>
              {| window := set_output_text
                             (append ("配置已保存到: " ++ file_path) (output_text st)) st;
                 files := <[file_path := JsonText (JObj (config_of st))]> (files w);
                 threads := threads w |}
          end).
Proof.
  destruct w as [st fs ts]. cbn [window].
  unfold save_config, try_except, mbind, SE_bind, get_window, lift, json_dump, on_window,
    QTextEdit_append, QMessageBox_show, modify, with_box, generate_config.
  cbn [window files threads].
  destruct (String.eqb (text (output_path_edit st)) ""); [reflexivity |].
  destruct (String.eqb file_path ""); [reflexivity |].
  destruct opened as [[] | e]; reflexivity.
Qed.

(** * Starting a build: the checks *)

(** X6. [generate_assets] never raises.  Its checks are made in this
    order, and the first that fails decides the message: an empty image
    directory, an empty output directory, a script that does not exist
    (three warnings), then an exception of [os.makedirs] or [open] (an
    error box with its message).  In each of these cases nothing but the
    message boxes changes: no file is written, no worker starts, the
    button stays as it is. *)
Theorem generate_assets_checks (rt : runtime) (env : build_env) (w : world) :
  let st := window w in
  (text (assets_path_edit st) = "" ->
   generate_assets rt env w = (Return tt, with_box Warning "请选择图片目录" w))
  /\ (text (assets_path_edit st) <> "" -> text (output_path_edit st) = "" ->
      generate_assets rt env w = (Return tt, with_box Warning "请选择输出目录" w))
  /\ (text (assets_path_edit st) <> "" -> text (output_path_edit st) <> "" ->
      path_exists env = false ->
      generate_assets rt env w = (Return tt, with_box Warning "找不到脚本文件" w))
  /\ (forall e : exn,
        text (assets_path_edit st) <> "" -> text (output_path_edit st) <> "" ->
        path_exists env = true ->
        makedirs_output env = Raised e
        \/ (makedirs_output env = Return tt /\ text (main_path_edit st) <> ""
            /\ makedirs_main env = Raised e)
        \/ (makedirs_output env = Return tt
            /\ (text (main_path_edit st) = "" \/ makedirs_main env = Return tt)
            /\ open_temp_config env = Raised e) ->
        generate_assets rt env w
        = (Return tt, with_box Critical ("生成失败: " ++ str_exn e) w)).
Proof.
  destruct w as [st fs ts]. cbn [window].
  unfold generate_assets, try_except, mbind, SE_bind, get_window, lift, on_window,
    QMessageBox_show, modify, with_box, generate_config.
  cbn [window files threads].
  repeat split.
  - intros ->. reflexivity.
  - intros Ha ->. apply String.eqb_neq in Ha. rewrite Ha. reflexivity.
  - intros Ha Ho He. apply String.eqb_neq in Ha, Ho. rewrite Ha, Ho, He. reflexivity.
  - intros e Ha Ho He H. apply String.eqb_neq in Ha, Ho. rewrite Ha, Ho, He. cbn [negb].
    destruct H as [-> | [(-> & Hm & ->) | (-> & Hm & ->)]].
    + reflexivity.
    + apply String.eqb_neq in Hm. rewrite Hm. reflexivity.
    + destruct Hm as [-> | ->]; [reflexivity |].
      destruct (String.eqb (text (main_path_edit st)) ""); reflexivity.
Qed.

Lemma generate_assets_checks_witness :
  generate_assets rt0 ready_env (initial rt0)
  = (Return tt, with_box Warning "请选择图片目录" (initial rt0)).
Proof.
  apply (proj1 (generate_assets_checks rt0 ready_env (initial rt0))).
  reflexivity.
Defined.

(** * Handling the signals of a run *)

Lemma deliver_progress (message : string) (rest : list signal) (w : world) :
  threads w = [progress message :: rest] -> rest <> [] ->
  deliver 0 w
  = {| window := set_output_text (append message (output_text (window w))) (window w);
       files := files w;
       threads := [rest] |}.
Proof.
  intros Ht Hr. unfold deliver. rewrite Ht. cbn [lookup list_lookup take drop app slot].
  destruct rest; [congruence | reflexivity].
Qed.

Lemma deliver_finished (success : bool) (message : string) (w : world) :
  threads w = [[finished success message]] ->
  deliver 0 w
  = {| window := snd (on_finished success message (window w));
       files := files w;
       threads := [] |}.
Proof. intros Ht. unfold deliver. rewrite Ht. reflexivity. Qed.

(** The window handles the signals of the one active run, one by one. *)
Lemma signals_delivered
    (rt : runtime) (lines : list string) (success : bool) (message : string) (w : world) :
  threads w = [(map progress lines ++ [finished success message])%list] ->
  let w' := play rt (repeat (Delivered 0) (S (length lines))) w in
  threads w' = []
  /\ appended (output_text (window w'))
     = (appended (output_text (window w)) ++ lines
          ++ [String.append (if success then "✅ " else "❌ ") message])%list
  /\ message_boxes (window w')
     = (message_boxes (window w)
          ++ [{| box_icon := if success then Information else Critical;
                 box_title := if success then "成功" else "错误";
                 box_text := message |}])%list
  /\ isEnabled (generate_btn (window w')) = true
  /\ isVisible (progress_bar (window w')) = false
  /\ same_form (window w) (window w')
  /\ files w' = files w.
Proof.
  revert w. induction lines as [|l lines IH]; intros w Ht w'; subst w'.
  - change (play rt (repeat (Delivered 0) (S (length (@nil string)))) w)
      with (deliver 0 w).
    cbn [map app] in Ht.
    rewrite (deliver_finished success message w Ht). cbn [threads files window].
    destruct w as [[] fs ts]. destruct success; cbn; repeat split.
  - cbn [length]. cbn [map app] in Ht.
    change (play rt (repeat (Delivered 0) (S (S (length lines)))) w)
      with (play rt (repeat (Delivered 0) (S (length lines))) (deliver 0 w)).
    assert (Hr : (map progress lines ++ [finished success message])%list <> [])
      by (destruct lines; discriminate).
    rewrite (deliver_progress l _ w Ht Hr).
    match goal with
    | |- context [play rt _ ?w1] => specialize (IH w1 eq_refl)
    end.
    cbn zeta in IH.
    destruct IH as (H1 & H2 & H3 & H4 & H5 & H6 & H7).
    split; [exact H1 |]. split; [| split; [| split; [| split; [| split]]]].
    + rewrite H2. destruct w as [[] fs ts]. cbn. now rewrite <- app_assoc.
    + rewrite H3. destruct w as [[] fs ts]. reflexivity.
    + exact H4.
    + exact H5.
    + destruct w as [[] fs ts]. unfold same_form in *. cbn in *. exact H6.
    + rewrite H7. reflexivity.
Qed.

(** X7. When the window has handled every signal of the one active run,
    progress lines and then the [finished] signal: the log has been
    given, after what it had been given, one [append] for each line, in
    their order, and then one for the final message, marked ✅ or ❌; one
    message box shows that message, as information or as an error; the
    button is enabled again and the progress bar hidden; no worker is
    left; and neither the widgets of the configuration nor the files have
    changed. *)
Theorem run_delivered
    (rt : runtime) (lines : list string) (success : bool) (message : string) (w : world) :
  threads w = [(map progress lines ++ [finished success message])%list] ->
  let w' := play rt (repeat (Delivered 0) (S (length lines))) w in
  threads w' = []
  /\ appended (output_text (window w'))
     = (appended (output_text (window w)) ++ lines
          ++ [String.append (if success then "✅ " else "❌ ") message])%list
  /\ message_boxes (window w')
     = (message_boxes (window w)
          ++ [{| box_icon := if success then Information else Critical;
                 box_title := if success then "成功" else "错误";
                 box_text := message |}])%list
  /\ isEnabled (generate_btn (window w')) = true
  /\ isVisible (progress_bar (window w')) = false
  /\ same_form (window w) (window w')
  /\ files w' = files w.
Proof. apply signals_delivered. Qed.

Lemma run_delivered_witness :
  let w' := play rt0 (repeat (Delivered 0) 4) busy_world in
  threads w' = []
  /\ appended (output_text (window w'))
     = (appended (output_text (window busy_world))
          ++ ["执行命令: python3 ./spiffs_assets_gen.py --config /opt/yd_res_pack/temp_config.json";
              "packing a.png"; "done"]
          ++ ["✅ 生成完成!"])%list
  /\ message_boxes (window w')
     = (message_boxes (window busy_world)
          ++ [{| box_icon := Information; box_title := "成功"; box_text := "生成完成!" |}])%list
  /\ isEnabled (generate_btn (window w')) = true
  /\ isVisible (progress_bar (window w')) = false
  /\ same_form (window busy_world) (window w')
  /\ files w' = files busy_world.
Proof.
  apply (run_delivered rt0
           ["执行命令: python3 ./spiffs_assets_gen.py --config /opt/yd_res_pack/temp_config.json";
            "packing a.png"; "done"] true "生成完成!" busy_world).
  vm_compute. reflexivity.
Defined.

(** * Idle or busy *)

Section Passive.
Context (P : gui -> Prop) (ts : list (list signal)).
Hypothesis P_line_edit : forall w : line_edit, independent_of P (line_edit_of w).
Hypothesis P_check_box : forall w : check_box, independent_of P (check_box_of w).
Hypothesis P_spin_box : forall w : spin_box, independent_of P (spin_box_of w).
Hypothesis P_combo_box : forall w : combo_box, independent_of P (combo_box_of w).
Hypothesis P_output_text : independent_of P self_output_text.
Hypothesis P_message_boxes : independent_of P self_message_boxes.

Lemma in_world_browse (e : line_edit) (path : string) :
  preserves (in_world P ts) (on_window (browse (line_edit_of e) path)).
Proof.
  apply in_world_on_window, preserves_if; [| apply preserves_ret].
  apply preserves_setText, P_line_edit.
Qed.

(** What is neither a click on the generate button nor a signal keeps
    every property of the window that depends on no widget of the
    configuration, on the log or on the message boxes, and keeps the
    workers. *)
Lemma handle_passive (rt : runtime) (ev : event) (w : world) :
  passive ev -> in_world P ts w -> in_world P ts (handle rt ev w).
Proof.
  intros Hev Hw.
  destruct ev as [e s | e v | e b | e i | path | path | path | path
                 | env | file_path opened | file_path | i | path f];
    cbn [handle]; try contradiction.
  - apply in_world_on_window; [| exact Hw]. apply preserves_modify, P_line_edit.
  - apply in_world_on_window; [| exact Hw]. apply preserves_modify, P_spin_box.
  - apply in_world_on_window; [| exact Hw]. apply preserves_modify, P_check_box.
  - apply in_world_on_window; [| exact Hw]. apply preserves_modify, P_combo_box.
  - exact (in_world_browse AssetsPath path w Hw).
  - exact (in_world_browse OutputPath path w Hw).
  - exact (in_world_browse MainPath path w Hw).
  - exact (in_world_browse ScriptPath path w Hw).
  - apply save_config_preserves; assumption.
  - apply load_config_preserves; try assumption.
    + intros e v. apply preserves_modify, P_spin_box.
    + intros e t. apply preserves_modify, P_combo_box.
  - exact Hw.
Qed.

End Passive.

Lemma chrome_passive (rt : runtime) (ev : event) (w : world) (b v : bool) :
  passive ev -> chrome b v (window w) ->
  chrome b v (window (handle rt ev w)) /\ threads (handle rt ev w) = threads w.
Proof.
  intros Hev Hw.
  apply (handle_passive (chrome b v) (threads w)); try assumption;
    try (intros e x [] H; destruct e; exact H);
    try (intros x [] H; exact H).
  now split.
Qed.

(** X8. In every state of the program the generate button is enabled
    exactly when no run is active, and the progress bar is shown exactly
    when the button is disabled: no sequence of clicks, edits, loads,
    saves and signals leaves the button disabled without a run. *)
Theorem idle_or_busy (rt : runtime) (w : world) :
  reachable rt w ->
  (isEnabled (generate_btn (window w)) = true <-> threads w = [])
  /\ isVisible (progress_bar (window w)) = negb (isEnabled (generate_btn (window w))).
Proof.
  induction 1 as [|ev w Hw [IHb IHv]].
  - split; [split; reflexivity | reflexivity].
  - pose proof (reachable_ok rt w Hw) as [_ H1 Hs _].
    destruct ev as [e s | e v | e b | e i | path | path | path | path
                   | env | file_path opened | file_path | i | path f];
      try (match goal with
           | |- context [handle rt ?ev w] =>
               destruct (chrome_passive rt ev w _ _ I (conj eq_refl eq_refl))
                 as [[Hb Hv] Ht]
           end;
           rewrite Hb, Hv, Ht; split; assumption).
    + cbn [handle]. destruct (isEnabled (generate_btn (window w))) eqn:Hon;
        [| rewrite Hon; split; assumption].
      pose proof (proj1 IHb eq_refl) as Hidle.
      destruct (build_starts env (window w)) eqn:Hstart.
      * destruct (generate_assets_starts rt env w Hstart) as (config & _ & ->).
        rewrite Hidle. cbn. split; [split; discriminate | reflexivity].
      * destruct (generate_assets_refuses rt env w Hstart) as (box & ->).
        cbn. rewrite Hon. split; [split; [intros _; exact Hidle | reflexivity] | exact IHv].
    + cbn [handle]. unfold deliver.
      destruct (threads w !! i) as [[|s rest]|] eqn:E; try (split; assumption).
      destruct (threads w) as [|q [|q' ts]] eqn:Et; [discriminate | | simpl in H1; lia].
      destruct i as [|i]; [| discriminate]. injection E as ->.
      assert (Hq : well_terminated (s :: rest)) by now inversion Hs.
      assert (Hoff : isEnabled (generate_btn (window w)) = false).
      { destruct (isEnabled (generate_btn (window w))); [| reflexivity].
        now specialize (proj1 IHb eq_refl). }
      destruct s as [message | success message].
      * apply well_terminated_progress in Hq as [Hne _].
        destruct rest as [|s' rest]; [congruence |].
        cbn. rewrite Hoff in *. split; [split; discriminate | exact IHv].
      * apply well_terminated_finished in Hq as ->.
        destruct success; cbn; split; try reflexivity; split; reflexivity.
Qed.

Lemma idle_or_busy_witness :
  (isEnabled (generate_btn (window busy_world)) = true <-> threads busy_world = [])
  /\ isVisible (progress_bar (window busy_world))
     = negb (isEnabled (generate_btn (window busy_world))).
Proof.
  apply (idle_or_busy rt0 busy_world).
  apply (reachable_play rt0
           [Typed AssetsPath "imgs"; Typed OutputPath "out"; ClickedGenerate ready_env]).
  apply reachable_initial.
Defined.

(** * The loop of the worker *)

(** X9. A read of the process's output that returns the empty text, or
    that raises [UnicodeDecodeError], is passed over: the run emits the
    signals it would emit without that read, whatever the other reads,
    the exit status and the error stream are. *)
Theorem run_passes_over
    (rt : runtime) (self : GenerateThread) (env : worker_env)
    (before after : list (outcome string)) (read : outcome string) :
  passed_over read ->
  run rt self (with_stdout (before ++ read :: after) env)
  = run rt self (with_stdout (before ++ after) env).
Proof.
  intros H. unfold run, run_body, try_except, mbind, SE_bind, lift, with_stdout.
  cbn [script_exists popen].
  destruct (script_exists env); cbn [negb]; [| reflexivity].
  destruct (popen env) as [p|e]; [| reflexivity].
  unfold emit at 1 3. cbn [stdout returncode stderr].
  now rewrite (relay_lines_passed_over before after read _ H).
Qed.

Lemma run_passes_over_witness :
  passed_over (Raised (UnicodeDecodeError "'utf-8' codec can't decode byte 0xff"))
  /\ run rt0 thread0 mixed_tool = run rt0 thread0 two_line_tool.
Proof.
  split; [right; eexists; reflexivity |].
  exact (run_passes_over rt0 thread0 silent_tool
           [Return "packing a.png
"] [Return "done
"] (Raised (UnicodeDecodeError "'utf-8' codec can't decode byte 0xff"))
           (or_intror (ex_intro _ _ eq_refl))).
Defined.

(** X10. A read of the process's output that raises another exception
    than [UnicodeDecodeError] ends the run: after the command line and
    the lines relayed so far comes the one signal
    [finished(False, "执行出错: ...")] with the text of the exception;
    the reads that would follow, the exit status and the error stream
    play no part. *)
Theorem run_read_raises
    (rt : runtime) (self : GenerateThread) (env : worker_env) (p : Popen)
    (before after : list (outcome string)) (e : exn) :
  script_exists env = true -> popen env = Return p ->
  stdout p = (before ++ Raised e :: after)%list ->
  Forall decodes_or_skips before ->
  is_UnicodeDecodeError e = false ->
  run rt self env
  = (map progress (command_line rt self :: relayed before)
       ++ [finished false ("执行出错: " ++ str_exn e)])%list.
Proof.
  intros H1 H2 H3 H4 H5.
  destruct (run_process rt self env p H1 H2) as (r & lines & E & _ & ->).
  rewrite H3, (relay_lines_raises before after e _ H4 H5) in E. cbn [app] in E.
  assert (Er : r = Raised e) by congruence.
  assert (El : map progress lines = map progress (relayed before)) by congruence.
  subst r. cbn [map app]. now rewrite El.
Qed.

Lemma run_read_raises_witness :
  run rt0 thread0 unread_tool
  = [progress "执行命令: python3 ./spiffs_assets_gen.py --config /opt/yd_res_pack/temp_config.json";
     progress "packing a.png";
     finished false "执行出错: [Errno 5] Input/output error"].
Proof.
  refine (run_read_raises rt0 thread0 unread_tool _
            [Return "　packing a.png
"] [Return "done
"] (OSError "[Errno 5] Input/output error") eq_refl eq_refl eq_refl _ eq_refl).
  repeat constructor. intros e H. discriminate H.
Defined.

(** * A whole build *)

Lemma same_form_building (st : gui) : same_form st (building st).
Proof. destruct st. repeat split. Qed.

Lemma same_form_trans (st1 st2 st3 : gui) :
  same_form st1 st2 -> same_form st2 st3 -> same_form st1 st3.
Proof.
  unfold same_form. intros H12 H23. decompose [and] H12. decompose [and] H23.
  repeat match goal with |- _ /\ _ => split end; congruence.
Qed.

(** X11. A whole build: a click on the enabled generate button of a
    window with nothing running, when the checks of [generate_assets]
    pass and the process starts and can be read to its end, followed by
    the handling of every signal of the run: the log, cleared at the
    click, has been given by [append] the opening line, the command line,
    the lines of the process without the white space at their ends, and
    the final message, marked ✅ when the process ended with status 0 and
    ❌ otherwise; the button is enabled again, the progress bar hidden, no
    worker is left, the widgets of the configuration are as they were,
    and the files are those of before with the written configuration. *)
Theorem build_cycle (rt : runtime) (env : build_env) (p : Popen) (w : world) :
  build_starts env (window w) = true ->
  isEnabled (generate_btn (window w)) = true ->
  threads w = [] ->
  script_exists (worker env) = true -> popen (worker env) = Return p ->
  Forall decodes_or_skips (stdout p) ->
  let lines := command_line rt (generate_thread rt (window w)) :: relayed (stdout p) in
  let w' := play rt (ClickedGenerate env :: repeat (Delivered 0) (S (length lines))) w in
  threads w' = []
  /\ appended (output_text (window w'))
     = ("开始生成资源文件..." :: lines
          ++ [String.append (if fst (exit_message p) then "✅ " else "❌ ")
                (snd (exit_message p))])%list
  /\ isEnabled (generate_btn (window w')) = true
  /\ isVisible (progress_bar (window w')) = false
  /\ same_form (window w) (window w')
  /\ files w'
     = <[config_path (generate_thread rt (window w)) := JsonText (JObj (config_of (window w)))]>
         (files w).
Proof.
  intros Hs Hon Ht H1 H2 H3 lines w'. subst w'.
  change (play rt (ClickedGenerate env :: ?evs) w)
    with (play rt evs (handle rt (ClickedGenerate env) w)).
  cbn [handle]. rewrite Hon.
  destruct (generate_assets_starts rt env w Hs) as (config & Hc & ->). cbn [snd].
  assert (Hp : text (output_path_edit (window w)) <> "").
  { intros E. unfold generate_config in Hc. rewrite E in Hc. discriminate Hc. }
  rewrite (generate_config_eq _ Hp) in Hc. injection Hc as <-.
  rewrite Ht, (run_relayed rt _ (worker env) p H1 H2 H3). cbn [app].
  fold lines.
  match goal with
  | |- context [play rt _ ?w1] =>
      destruct (signals_delivered rt lines (fst (exit_message p)) (snd (exit_message p))
                  w1 eq_refl) as (E1 & E2 & _ & E4 & E5 & E6 & E7)
  end.
  split; [exact E1 |]. split; [exact E2 |]. split; [exact E4 |]. split; [exact E5 |].
  split; [| exact E7].
  exact (same_form_trans _ _ _ (same_form_building (window w)) E6).
Qed.

Lemma build_cycle_witness :
  let w' := play rt0 (ClickedGenerate failing_env :: repeat (Delivered 0) 3) ready_world in
  threads w' = []
  /\ appended (output_text (window w'))
     = ["开始生成资源文件...";
        "执行命令: python3 ./spiffs_assets_gen.py --config /opt/yd_res_pack/temp_config.json";
        "packing a.png";
        "❌ no image found"]
  /\ isEnabled (generate_btn (window w')) = true
  /\ isVisible (progress_bar (window w')) = false
  /\ same_form (window ready_world) (window w')
  /\ files w'
     = <[config_path (generate_thread rt0 (window ready_world))
           := JsonText (JObj (config_of (window ready_world)))]> (files ready_world).
Proof.
  assert (H : Forall decodes_or_skips [Return "packing a.png
"]) by (repeat constructor; intros e H; discriminate H).
  exact (build_cycle rt0 failing_env _ ready_world eq_refl eq_refl eq_refl
           eq_refl eq_refl H).
Defined.
